(** * Document sync controller of the todo screen

    Shallow embedding of [src/app/(tabs)/index.tsx] (the todos screen:
    [retryOperation], [fetchTodos], [toggleTodo], [deleteTodo], [addTodo])
    and of the module-initialisation guards of the three tab screens
    ([index.tsx], [profile.tsx], [settings.tsx]).

    The asynchronous handlers are modelled in a small state-and-exception
    monad over a [World]: the React state of the screen, counters for the
    calls made to the external collaborators, and the trace of observable
    events (remote calls, timers, console output, alerts).  The external
    collaborators (the signing client, the query client, the wall clock) are
    oracles indexed by the number of the call, so that a listing can change
    between two polls.  The JavaScript built-ins the handlers call
    ([JSON.parse], [JSON.stringify], [Date], [String.prototype.trim]) are the
    fields of the class [JsRuntime]; [Engine] below is a concrete instance on
    a documented fragment, used to run the handlers on concrete inputs. *)

From Stdlib Require Import ZArith String Ascii List Lia Bool.
From Stdlib Require Import Sorting.Sorted Sorting.Permutation.
From stdpp Require Import base gmap strings pretty.
Import ListNotations.

Local Open Scope string_scope.
Local Open Scope list_scope.
Local Open Scope Z_scope.

Set Warnings "-register-all".

(** ** JavaScript values *)

(** The values that flow through the handlers: what [JSON.parse] can return,
    plus [undefined] (the value of an absent property).  Numbers are kept as
    integers: the handlers never compute with a number taken from a payload. *)
Inductive jsval : Type :=
| JUndefined
| JNull
| JBool (b : bool)
| JNum (n : Z)
| JStr (s : string)
| JArr (items : list jsval)
| JObj (props : list (string * jsval)).

(** ToBoolean. *)
Definition truthy (v : jsval) : bool :=
  match v with
  | JUndefined | JNull => false
  | JBool b => b
  | JNum n => negb (n =? 0)
  | JStr s => negb (String.eqb s "")
  | JArr _ | JObj _ => true
  end.

(** Own-property lookup in an object literal (first binding of the key). *)
Fixpoint lookup_prop (k : string) (props : list (string * jsval)) : jsval :=
  match props with
  | [] => JUndefined
  | (k', v) :: rest => if String.eqb k k' then v else lookup_prop k rest
  end.

(** Values a [throw] can carry. [ThrownNull] is the [null] that
    [retryOperation] throws when its loop body never ran. *)
Inductive exn : Type :=
| JsError (name message : string)
| ThrownNull.

Inductive Outcome (A : Type) : Type :=
| Ok (a : A)
| Throw (e : exn).
Arguments Ok {A} a.
Arguments Throw {A} e.

(** [data.title], [data.text], ... : reading a property of [undefined] or
    [null] throws a TypeError; of an object, gives the property or
    [undefined]; of any other value (string, number, boolean, array) gives
    [undefined] for the four names read by [fetchTodos], none of which is
    defined on the built-in prototypes. *)
Definition get_prop (v : jsval) (k : string) : Outcome jsval :=
  match v with
  | JUndefined | JNull =>
      Throw (JsError "TypeError" ("Cannot read properties (reading '" ++ k ++ "')"))
  | JObj props => Ok (lookup_prop k props)
  | _ => Ok JUndefined
  end.

(** ** The built-ins of the JavaScript engine used by the screen *)

Class JsRuntime : Type := {
  (** [JSON.parse s]: the parsed value, or [None] when it throws a SyntaxError. *)
  JSON_parse : string -> option jsval;
  (** [JSON.stringify v]. *)
  JSON_stringify : jsval -> string;
  (** [new Date(v).getTime()]: milliseconds since the epoch, [None] for NaN. *)
  Date_getTime : jsval -> option Z;
  (** [new Date(ms).toISOString()] for the current time [ms]. *)
  Date_toISOString : Z -> string;
  (** [s.trim()]. *)
  String_trim : string -> string
}.

(** ** Data model of the screen (index.tsx, lines 36-48) *)

(** [type Todo]. The TypeScript field types are not checked at run time
    ([as Todo] is a cast): the four fields read from a payload hold whatever
    the payload holds, so they are [jsval]s here; [id] is the listing key. *)
Record Todo : Type := mkTodo {
  id : string;
  title : jsval;
  text : jsval;
  completed : jsval;
  created_at : jsval
}.

(** [type TodoSummary]: JavaScript numbers; [deleteTodo] computes
    [todos.length - 1], which is negative on an empty cache, hence [Z]. *)
Record TodoSummary : Type := mkSummary {
  total : Z;
  s_completed : Z;
  pending : Z
}.

Inductive ActionType : Type := ActComplete | ActDelete.

(** The [useState] cells of [Index] (lines 83-88). *)
Record ScreenState : Type := mkState {
  loading : bool;
  loadingAction : option (ActionType * string);
  refreshing : bool;
  todos : list Todo;
  summary : TodoSummary;
  newTodoText : string
}.

Definition initialState : ScreenState :=
  mkState false None false [] (mkSummary 0 0 0) "".

(** ** External collaborators *)

(** One listed document: [[id, doc]] with [doc.data] the payload. *)
Record Doc : Type := mkDoc { data : jsval }.

(** The answer of the listing query: [response?.documents]. *)
Record Response : Type := mkResponse {
  documents : option (list (string * Doc))
}.

Inductive QueryMsg : Type :=
| UserDocuments (owner collection : string).

Inductive ExecuteMsg : Type :=
| MsgSet (collection document data : string)
| MsgUpdate (collection document data : string)
| MsgDelete (collection document : string).

Record Account : Type := mkAccount { bech32Address : string }.

(** The clients returned by the wallet hooks.  The first argument of each
    method is the number of calls made before this one in the run. *)
Record QueryClient : Type := mkQueryClient {
  queryContractSmart : nat -> option string -> QueryMsg -> Outcome (option Response)
}.

Record SigningClient : Type := mkSigningClient {
  execute : nat -> string -> option string -> ExecuteMsg -> Outcome unit
}.

(** What the handlers of one render of [Index] see: the hook results,
    [process.env], the state cells as they were at that render, and the
    wall clock ([Date_now k] is the [k]-th reading). *)
Record Render : Type := mkRender {
  account : option Account;
  client : option SigningClient;
  queryClient : option QueryClient;
  env : gmap string string;
  snapshot : ScreenState;
  Date_now : nat -> Z
}.

(** ** Worlds, events and the handler monad *)

Inductive Event : Type :=
| EvQuery (contract : option string) (msg : QueryMsg)
| EvExecute (sender : string) (contract : option string) (msg : ExecuteMsg)
| EvOperation (k : nat)
| EvSleep (ms : Z)
| EvLog (label : string)
| EvError (label : string)
| EvAlert (heading message : string).

Record World : Type := mkWorld {
  state : ScreenState;
  nquery : nat;
  nexecute : nat;
  noperation : nat;
  nclock : nat;
  trace : list Event
}.

Definition M (A : Type) : Type := World -> Outcome A * World.

Definition ret {A} (a : A) : M A := fun w => (Ok a, w).

Definition bind {A B} (m : M A) (k : A -> M B) : M B :=
  fun w => match m w with
           | (Ok a, w') => k a w'
           | (Throw e, w') => (Throw e, w')
           end.

Definition throw {A} (e : exn) : M A := fun w => (Throw e, w).

(** [try { m } catch (error) { h error }]. *)
Definition try_catch {A} (m : M A) (h : exn -> M A) : M A :=
  fun w => match m w with
           | (Ok a, w') => (Ok a, w')
           | (Throw e, w') => h e w'
           end.

(** [try { m } finally { f }], for an [f] that neither returns nor throws
    out of the block by itself. *)
Definition try_finally {A} (m : M A) (f : M unit) : M A :=
  fun w => match m w with
           | (r, w') => match f w' with
                        | (Ok _, w'') => (r, w'')
                        | (Throw e, w'') => (Throw e, w'')
                        end
           end.

Definition lift {A} (o : Outcome A) : M A := fun w => (o, w).

Declare Scope js_scope.
Delimit Scope js_scope with js.
Notation "x <- m ;; k" := (bind m (fun x => k))
  (at level 100, m at next level, k at level 200, right associativity) : js_scope.
Notation "m ;;; k" := (bind m (fun _ => k))
  (at level 100, k at level 200, right associativity) : js_scope.
Local Open Scope js_scope.

Definition emit (e : Event) : M unit :=
  fun w => (Ok tt, mkWorld (state w) (nquery w) (nexecute w) (noperation w)
                           (nclock w) (trace w ++ [e])).

Definition modify_state (f : ScreenState -> ScreenState) : M unit :=
  fun w => (Ok tt, mkWorld (f (state w)) (nquery w) (nexecute w) (noperation w)
                           (nclock w) (trace w)).

(** The state setters of the [useState] cells. *)
Definition setLoading (b : bool) : M unit :=
  modify_state (fun s => mkState b (loadingAction s) (refreshing s) (todos s)
                                 (summary s) (newTodoText s)).
Definition setLoadingAction (a : option (ActionType * string)) : M unit :=
  modify_state (fun s => mkState (loading s) a (refreshing s) (todos s)
                                 (summary s) (newTodoText s)).
Definition setRefreshing (b : bool) : M unit :=
  modify_state (fun s => mkState (loading s) (loadingAction s) b (todos s)
                                 (summary s) (newTodoText s)).
Definition setTodos (l : list Todo) : M unit :=
  modify_state (fun s => mkState (loading s) (loadingAction s) (refreshing s) l
                                 (summary s) (newTodoText s)).
Definition setSummary (x : TodoSummary) : M unit :=
  modify_state (fun s => mkState (loading s) (loadingAction s) (refreshing s)
                                 (todos s) x (newTodoText s)).
Definition setNewTodoText (t : string) : M unit :=
  modify_state (fun s => mkState (loading s) (loadingAction s) (refreshing s)
                                 (todos s) (summary s) t).

(** [console.log], [console.error], [Alert.alert]. *)
Definition console_log (label : string) : M unit := emit (EvLog label).
Definition console_error (label : string) : M unit := emit (EvError label).
Definition Alert_alert (heading message : string) : M unit :=
  emit (EvAlert heading message).

(** [sleep] (line 51) and the inline [setTimeout] promise of [addTodo]. *)
Definition sleep (ms : Z) : M unit := emit (EvSleep ms).

(** [await queryClient.queryContractSmart(address, msg)]. *)
Definition call_query (qc : QueryClient) (address : option string) (msg : QueryMsg)
  : M (option Response) :=
  fun w => (queryContractSmart qc (nquery w) address msg,
            mkWorld (state w) (S (nquery w)) (nexecute w) (noperation w)
                    (nclock w) (trace w ++ [EvQuery address msg])).

(** [await client.execute(sender, address, msg, "auto")]. *)
Definition call_execute (c : SigningClient) (sender : string)
    (address : option string) (msg : ExecuteMsg) : M unit :=
  fun w => (execute c (nexecute w) sender address msg,
            mkWorld (state w) (nquery w) (S (nexecute w)) (noperation w)
                    (nclock w) (trace w ++ [EvExecute sender address msg])).

(** A reading of the wall clock ([Date.now()], [new Date()]). *)
Definition read_clock (r : Render) : M Z :=
  fun w => (Ok (Date_now r (nclock w)),
            mkWorld (state w) (nquery w) (nexecute w) (noperation w)
                    (S (nclock w)) (trace w)).

(** Sequencing of plain outcomes, for code that throws but has no effect. *)
Definition obind {A B} (o : Outcome A) (k : A -> Outcome B) : Outcome B :=
  match o with
  | Ok a => k a
  | Throw e => Throw e
  end.

(** [array.map(f)] for an [f] that can throw: the first throw aborts the map. *)
Fixpoint map_outcome {A B} (f : A -> Outcome B) (l : list A) : Outcome (list B) :=
  match l with
  | [] => Ok []
  | x :: rest =>
      obind (f x) (fun y => obind (map_outcome f rest) (fun ys => Ok (y :: ys)))
  end.

(** ** Array.prototype.sort with a comparator

    ECMAScript requires the sort to be stable and, for a consistent
    comparator, to return the elements in comparator order; a stable
    insertion sort is the canonical function with these two properties.  A
    comparator result of NaN is read as +0 (SortCompare).  When the
    comparator is not consistent (here: some [created_at] is not a date) the
    standard leaves the order to the engine; the result is still a
    permutation of the array, and that is all that is proved of it below. *)
Section ArraySort.
Context {A : Type} (comparefn : A -> A -> option Z).

Definition SortCompare (x y : A) : Z :=
  match comparefn x y with
  | Some v => v
  | None => 0
  end.

Fixpoint sort_insert (x : A) (l : list A) : list A :=
  match l with
  | [] => [x]
  | y :: rest =>
      if SortCompare x y <=? 0 then x :: y :: rest
      else y :: sort_insert x rest
  end.

Definition array_sort (l : list A) : list A :=
  fold_right sort_insert [] l.
End ArraySort.

(** ** retryOperation (index.tsx, lines 53-73) *)

Section RetryOperation.
Context {T : Type} (operation : M T) (maxRetries : nat) (delay : Z).

(** The [for] loop from index [i], with [remaining = maxRetries - i]
    iterations left; [lastError] is the variable of that name. *)
Fixpoint retry_loop (remaining i : nat) (lastError : exn) : M T :=
  match remaining with
  | O => throw lastError
  | S rem =>
      try_catch operation
        (fun error =>
           console_log ("Attempt " ++ pretty (i + 1)%nat ++ " failed:");;;
           (if Z.of_nat i <? Z.of_nat maxRetries - 1
            then sleep (delay * 2 ^ Z.of_nat i)
            else ret tt);;;
           retry_loop rem (S i) error)
  end.

Definition retryOperation : M T := retry_loop maxRetries 0%nat ThrownNull.
End RetryOperation.

(** ** The handlers of the todos screen *)

Definition DOCUSTORE_KEY : string := "EXPO_PUBLIC_DOCUSTORE_CONTRACT_ADDRESS".
Definition USER_MAP_KEY : string := "EXPO_PUBLIC_USER_MAP_CONTRACT_ADDRESS".

Definition zeroSummary : TodoSummary := mkSummary 0 0 0.

Definition len {A} (l : list A) : Z := Z.of_nat (length l).

Section Handlers.
Context `{JsRuntime}.

(** The object a [Todo] is at run time, with its keys in creation order. *)
Definition todo_to_js (t : Todo) : jsval :=
  JObj [("id", JStr (id t)); ("title", title t); ("text", text t);
        ("completed", completed t); ("created_at", created_at t)].

(** The callback of [response.documents.map] (lines 114-123). *)
Definition parse_document (entry : string * Doc) : Outcome Todo :=
  let '(key, doc) := entry in
  obind (match data doc with
         | JStr s =>
             match JSON_parse s with
             | Some v => Ok v
             | None => Throw (JsError "SyntaxError" "JSON Parse error")
             end
         | v => Ok v
         end)
    (fun d =>
       obind (get_prop d "title") (fun t =>
       obind (get_prop d "text") (fun x =>
       obind (get_prop d "completed") (fun c =>
       obind (get_prop d "created_at") (fun ca =>
       Ok (mkTodo key t x c ca)))))).

(** The comparator of the sort (lines 126-130): [dateB - dateA]. *)
Definition compareCreatedAt (a b : Todo) : option Z :=
  match Date_getTime (created_at a), Date_getTime (created_at b) with
  | Some dateA, Some dateB => Some (dateB - dateA)
  | _, _ => None
  end.

Definition countCompleted (l : list Todo) : Z :=
  len (List.filter (fun t => truthy (completed t)) l).

(** [fetchTodos] (lines 100-151). *)
Definition fetchTodos (r : Render) : M unit :=
  match queryClient r, account r with
  | Some qc, Some acct =>
      let contractAddress := env r !! DOCUSTORE_KEY in
      try_catch
        (response <- call_query qc contractAddress
                       (UserDocuments (bech32Address acct) "todos");;
         match response with
         | Some (mkResponse (Some docs)) =>
             todosList <- lift (map_outcome parse_document docs);;
             let sortedTodos := array_sort compareCreatedAt todosList in
             console_log "Sorted todos:";;;
             setTodos sortedTodos;;;
             let completed := countCompleted sortedTodos in
             setSummary (mkSummary (len sortedTodos) completed
                                   (len sortedTodos - completed))
         | _ =>
             setTodos [];;;
             setSummary zeroSummary
         end)
        (fun error =>
           console_error "Error fetching todos:";;;
           setTodos [];;;
           setSummary zeroSummary)
  | _, _ => ret tt
  end.

(** [{ ...todo, completed: !todo.completed }] (lines 161-164). *)
Definition toggled (todo : Todo) : Todo :=
  mkTodo (id todo) (title todo) (text todo)
         (JBool (negb (truthy (completed todo)))) (created_at todo).

(** The cache rewrite of an update (line 180):
    [todos.map(t => t.id === key ? updatedTodo : t)]. *)
Definition replaceTodo (key : string) (updatedTodo : Todo) (l : list Todo)
  : list Todo :=
  map (fun t => if String.eqb (id t) key then updatedTodo else t) l.

(** The summary of an update (lines 182-187), computed from the same
    [todos] as the rewrite. *)
Definition summaryAfterUpdate (key : string) (updatedTodo : Todo)
    (l : list Todo) : TodoSummary :=
  let completed :=
    len (List.filter (fun t => if String.eqb (id t) key
                               then truthy (completed updatedTodo)
                               else truthy (completed t)) l) in
  mkSummary (len l) completed (len l - completed).

(** [toggleTodo] (lines 154-194). *)
Definition toggleTodo (r : Render) (todo : Todo) : M unit :=
  match client r, account r with
  | Some c, Some acct =>
      let contractAddress := env r !! DOCUSTORE_KEY in
      setLoadingAction (Some (ActComplete, id todo));;;
      try_finally
        (try_catch
           (let updatedTodo := toggled todo in
            call_execute c (bech32Address acct) contractAddress
              (MsgUpdate "todos" (id todo)
                         (JSON_stringify (todo_to_js updatedTodo)));;;
            setTodos (replaceTodo (id todo) updatedTodo (todos (snapshot r)));;;
            setSummary (summaryAfterUpdate (id todo) updatedTodo
                                           (todos (snapshot r))))
           (fun error =>
              console_error "Error toggling todo:";;;
              Alert_alert "Error" "Failed to update todo. Please try again."))
        (setLoadingAction None)
  | _, _ => ret tt
  end.

(** The cache rewrite of a delete (line 217). *)
Definition removeTodo (todoId : string) (l : list Todo) : list Todo :=
  List.filter (fun t => negb (String.eqb (id t) todoId)) l.

(** The summary of a delete (lines 219-224). *)
Definition summaryAfterDelete (todoId : string) (l : list Todo) : TodoSummary :=
  let completed :=
    len (List.filter (fun t => negb (String.eqb (id t) todoId)
                               && truthy (completed t)) l) in
  mkSummary (len l - 1) completed (len l - 1 - completed).

(** [deleteTodo] (lines 197-231). *)
Definition deleteTodo (r : Render) (todoId : string) : M unit :=
  match client r, account r with
  | Some c, Some acct =>
      let contractAddress := env r !! DOCUSTORE_KEY in
      setLoadingAction (Some (ActDelete, todoId));;;
      try_finally
        (try_catch
           (call_execute c (bech32Address acct) contractAddress
              (MsgDelete "todos" todoId);;;
            setTodos (removeTodo todoId (todos (snapshot r)));;;
            setSummary (summaryAfterDelete todoId (todos (snapshot r))))
           (fun error =>
              console_error "Error deleting todo:";;;
              Alert_alert "Error" "Failed to delete todo. Please try again."))
        (setLoadingAction None)
  | _, _ => ret tt
  end.

(** [onRefresh] (lines 250-254). *)
Definition onRefresh (r : Render) : M unit :=
  setRefreshing true;;;
  fetchTodos r;;;
  setRefreshing false.

(** The constants of the confirmation loop (lines 287-288). *)
Definition poll_maxRetries : nat := 10.
Definition poll_delay : Z := 2000.

(** [response.documents.some(([id]) => id === todoId)] (line 300). *)
Definition listed (todoId : string) (docs : list (string * Doc)) : bool :=
  existsb (fun entry => String.eqb (fst entry) todoId) docs.

(** The [while (retries < maxRetries)] loop (lines 290-313), with
    [remaining = maxRetries - retries] iterations left.  The result of one
    iteration's [try] is whether it reached the [break]. *)
Fixpoint confirmation_loop (qc : QueryClient) (contractAddress : option string)
    (owner todoId : string) (remaining : nat) : M unit :=
  match remaining with
  | O => ret tt
  | S rem =>
      let retries := (poll_maxRetries - S rem)%nat in
      found <- try_catch
                 (response <- call_query qc contractAddress
                                (UserDocuments owner "todos");;
                  match response with
                  | Some (mkResponse (Some docs)) => ret (listed todoId docs)
                  | _ => ret false
                  end)
                 (fun error =>
                    console_log ("Attempt " ++ pretty (retries + 1)%nat
                                 ++ " failed:");;;
                    ret false);;
      if found then ret tt
      else
        (if (S retries <? poll_maxRetries)%nat
         then sleep poll_delay
         else ret tt);;;
        confirmation_loop qc contractAddress owner todoId rem
  end.

(** [addTodo] (lines 257-324). *)
Definition addTodo (r : Render) : M unit :=
  match client r, account r, queryClient r with
  | Some c, Some acct, Some qc =>
      let trimmed := String_trim (newTodoText (snapshot r)) in
      if String.eqb trimmed "" then ret tt
      else
        let contractAddress := env r !! DOCUSTORE_KEY in
        now <- read_clock r;;
        let todoId := pretty now in
        today <- read_clock r;;
        let todo := mkTodo todoId (JStr trimmed) (JStr trimmed) (JBool false)
                           (JStr (Date_toISOString today)) in
        setLoading true;;;
        try_finally
          (try_catch
             (call_execute c (bech32Address acct) contractAddress
                (MsgSet "todos" todoId (JSON_stringify (todo_to_js todo)));;;
              confirmation_loop qc contractAddress (bech32Address acct)
                                todoId poll_maxRetries;;;
              setNewTodoText "";;;
              fetchTodos r)
             (fun error =>
                console_error "Error adding todo:";;;
                Alert_alert "Error" "Failed to add todo. Please try again."))
          (setLoading false)
  | _, _, _ => ret tt
  end.
End Handlers.

(** ** Module initialisation guards *)

(** [!process.env.KEY]: the variable is unset or the empty string. *)
Definition env_missing (e : gmap string string) (key : string) : bool :=
  match e !! key with
  | Some v => String.eqb v ""
  | None => true
  end.

Definition not_set (key : string) : exn :=
  JsError "Error" (key ++ " is not set in your environment file").

(** index.tsx, lines 21-27. *)
Definition index_module_init (e : gmap string string) : Outcome unit :=
  if env_missing e USER_MAP_KEY then Throw (not_set USER_MAP_KEY)
  else if env_missing e DOCUSTORE_KEY then Throw (not_set DOCUSTORE_KEY)
  else Ok tt.

(** profile.tsx, lines 12-14. *)
Definition profile_module_init (e : gmap string string) : Outcome unit :=
  if env_missing e DOCUSTORE_KEY then Throw (not_set DOCUSTORE_KEY) else Ok tt.

(** settings.tsx, lines 12-14. *)
Definition settings_module_init (e : gmap string string) : Outcome unit :=
  if env_missing e DOCUSTORE_KEY then Throw (not_set DOCUSTORE_KEY) else Ok tt.

Definition raises {A} (o : Outcome A) : bool :=
  match o with
  | Ok _ => false
  | Throw _ => true
  end.

(** Loading the three tab screens raises when one of their guards does. *)
Definition startup_raises (e : gmap string string) : bool :=
  raises (index_module_init e) || raises (profile_module_init e)
  || raises (settings_module_init e).

(** ** A concrete engine

    [Engine.runtime] implements the built-ins on the fragment below and is
    used to run the handlers on concrete inputs; the theorems about the
    handlers hold for every [JsRuntime].

    - [JSON.parse]: the JSON grammar with integer number literals and the
      two-character string escapes; a number with a fraction or an exponent
      and a [\u] escape are outside the fragment (rejected here, accepted by
      an engine).  Everything rejected by the grammar is rejected here.
    - [JSON.stringify]: objects, arrays, strings, integers, booleans, null.
    - [Date]: strings of the shape [YYYY-MM-DDTHH:mm:ssZ] or
      [YYYY-MM-DDTHH:mm:ss.sssZ] (what [toISOString] produces), numbers,
      [null], booleans and [undefined]; other strings are read as invalid.
    - [trim]: the ASCII white space characters. *)
Module Engine.

Definition ch (n : nat) : ascii := ascii_of_nat n.
Definition QUOTE : ascii := ch 34.
Definition BACKSLASH : ascii := ch 92.

Definition is_json_ws (c : ascii) : bool :=
  Ascii.eqb c (ch 32) || Ascii.eqb c (ch 9) || Ascii.eqb c (ch 10)
  || Ascii.eqb c (ch 13).

Fixpoint skip_ws (l : list ascii) : list ascii :=
  match l with
  | c :: rest => if is_json_ws c then skip_ws rest else l
  | [] => []
  end.

Definition unescape (c : ascii) : option ascii :=
  if Ascii.eqb c QUOTE then Some QUOTE
  else if Ascii.eqb c BACKSLASH then Some BACKSLASH
  else if Ascii.eqb c "/" then Some "/"%char
  else if Ascii.eqb c "b" then Some (ch 8)
  else if Ascii.eqb c "f" then Some (ch 12)
  else if Ascii.eqb c "n" then Some (ch 10)
  else if Ascii.eqb c "r" then Some (ch 13)
  else if Ascii.eqb c "t" then Some (ch 9)
  else None.

(** The characters of a string literal after its opening quote. *)
Fixpoint parse_chars (l acc : list ascii) : option (string * list ascii) :=
  match l with
  | [] => None
  | c :: rest =>
      if Ascii.eqb c QUOTE then Some (string_of_list_ascii (rev acc), rest)
      else if Ascii.eqb c BACKSLASH then
        match rest with
        | e :: rest' =>
            match unescape e with
            | Some x => parse_chars rest' (x :: acc)
            | None => None
            end
        | [] => None
        end
      else if (nat_of_ascii c <? 32)%nat then None
      else parse_chars rest (c :: acc)
  end.

Definition digit_of (c : ascii) : option Z :=
  let n := nat_of_ascii c in
  if ((48 <=? n) && (n <=? 57))%nat then Some (Z.of_nat n - 48) else None.

Fixpoint parse_digits (l : list ascii) (acc : Z) : Z * list ascii :=
  match l with
  | c :: rest =>
      match digit_of c with
      | Some d => parse_digits rest (acc * 10 + d)
      | None => (acc, l)
      end
  | [] => (acc, [])
  end.

Definition starts_fraction (l : list ascii) : bool :=
  match l with
  | c :: _ => Ascii.eqb c "." || Ascii.eqb c "e" || Ascii.eqb c "E"
  | [] => false
  end.

Definition parse_natural (l : list ascii) : option (Z * list ascii) :=
  match l with
  | c :: rest =>
      match digit_of c with
      | Some d =>
          let '(n, rest') := if d =? 0 then (0, rest) else parse_digits rest d in
          if starts_fraction rest' then None else Some (n, rest')
      | None => None
      end
  | [] => None
  end.

Definition parse_number (l : list ascii) : option (jsval * list ascii) :=
  match l with
  | c :: rest =>
      if Ascii.eqb c "-" then
        match parse_natural rest with
        | Some (n, rest') => Some (JNum (- n), rest')
        | None => None
        end
      else
        match parse_natural l with
        | Some (n, rest') => Some (JNum n, rest')
        | None => None
        end
  | [] => None
  end.

Fixpoint strip_prefix (p l : list ascii) : option (list ascii) :=
  match p, l with
  | [], _ => Some l
  | a :: p', b :: l' => if Ascii.eqb a b then strip_prefix p' l' else None
  | _ :: _, [] => None
  end.

(** Defining a property: a repeated key keeps its place and takes the
    later value. *)
Fixpoint set_prop (k : string) (v : jsval) (props : list (string * jsval))
  : list (string * jsval) :=
  match props with
  | [] => [(k, v)]
  | (k', v') :: rest =>
      if String.eqb k k' then (k', v) :: rest else (k', v') :: set_prop k v rest
  end.

Section Composite.
Variable parse_value : list ascii -> option (jsval * list ascii).

(** The elements of an array after [[], up to and including []]. *)
Fixpoint parse_elements (n : nat) (l : list ascii) (acc : list jsval)
  : option (jsval * list ascii) :=
  match n with
  | O => None
  | S n' =>
      match parse_value l with
      | Some (v, rest) =>
          match skip_ws rest with
          | c :: rest' =>
              if Ascii.eqb c "," then parse_elements n' rest' (v :: acc)
              else if Ascii.eqb c "]" then Some (JArr (rev (v :: acc)), rest')
              else None
          | [] => None
          end
      | None => None
      end
  end.

(** The members of an object after [{], up to and including [}]. *)
Fixpoint parse_members (n : nat) (l : list ascii)
    (acc : list (string * jsval)) : option (jsval * list ascii) :=
  match n with
  | O => None
  | S n' =>
      match skip_ws l with
      | q :: rest =>
          if Ascii.eqb q QUOTE then
            match parse_chars rest [] with
            | Some (k, rest1) =>
                match skip_ws rest1 with
                | c :: rest2 =>
                    if Ascii.eqb c ":" then
                      match parse_value rest2 with
                      | Some (v, rest3) =>
                          match skip_ws rest3 with
                          | d :: rest4 =>
                              if Ascii.eqb d "," then
                                parse_members n' rest4 (set_prop k v acc)
                              else if Ascii.eqb d "}" then
                                Some (JObj (set_prop k v acc), rest4)
                              else None
                          | [] => None
                          end
                      | None => None
                      end
                    else None
                | [] => None
                end
            | None => None
            end
          else None
      | [] => None
      end
  end.
End Composite.

(** One JSON value, with leading white space; [fuel] bounds the nesting. *)
Fixpoint parse_value (fuel : nat) (l : list ascii)
  : option (jsval * list ascii) :=
  match fuel with
  | O => None
  | S fuel' =>
      match skip_ws l with
      | [] => None
      | c :: rest =>
          if Ascii.eqb c "{" then
            match skip_ws rest with
            | d :: rest' =>
                if Ascii.eqb d "}" then Some (JObj [], rest')
                else parse_members (parse_value fuel') (length rest) rest []
            | [] => None
            end
          else if Ascii.eqb c "[" then
            match skip_ws rest with
            | d :: rest' =>
                if Ascii.eqb d "]" then Some (JArr [], rest')
                else parse_elements (parse_value fuel') (length rest) rest []
            | [] => None
            end
          else if Ascii.eqb c QUOTE then
            match parse_chars rest [] with
            | Some (s, rest') => Some (JStr s, rest')
            | None => None
            end
          else if Ascii.eqb c "t" then
            match strip_prefix (list_ascii_of_string "rue") rest with
            | Some rest' => Some (JBool true, rest')
            | None => None
            end
          else if Ascii.eqb c "f" then
            match strip_prefix (list_ascii_of_string "alse") rest with
            | Some rest' => Some (JBool false, rest')
            | None => None
            end
          else if Ascii.eqb c "n" then
            match strip_prefix (list_ascii_of_string "ull") rest with
            | Some rest' => Some (JNull, rest')
            | None => None
            end
          else parse_number (c :: rest)
      end
  end.

Definition parse (s : string) : option jsval :=
  match parse_value (S (String.length s)) (list_ascii_of_string s) with
  | Some (v, rest) =>
      match skip_ws rest with
      | [] => Some v
      | _ :: _ => None
      end
  | None => None
  end.

(** *** JSON.stringify *)

Definition hex_digit (n : nat) : ascii :=
  if (n <? 10)%nat then ch (48 + n) else ch (87 + n).

Definition escape_char (c : ascii) : list ascii :=
  let n := nat_of_ascii c in
  if Ascii.eqb c QUOTE then [BACKSLASH; QUOTE]
  else if Ascii.eqb c BACKSLASH then [BACKSLASH; BACKSLASH]
  else if (n =? 8)%nat then [BACKSLASH; "b"%char]
  else if (n =? 9)%nat then [BACKSLASH; "t"%char]
  else if (n =? 10)%nat then [BACKSLASH; "n"%char]
  else if (n =? 12)%nat then [BACKSLASH; "f"%char]
  else if (n =? 13)%nat then [BACKSLASH; "r"%char]
  else if (n <? 32)%nat then
    [BACKSLASH; "u"%char; "0"%char; "0"%char;
     hex_digit (n / 16); hex_digit (n mod 16)]
  else [c].

Definition quote (s : string) : string :=
  string_of_list_ascii
    (QUOTE :: flat_map escape_char (list_ascii_of_string s) ++ [QUOTE]).

Fixpoint join (sep : string) (l : list string) : string :=
  match l with
  | [] => ""
  | [x] => x
  | x :: rest => (x ++ sep ++ join sep rest)%string
  end.

Definition is_undefined (v : jsval) : bool :=
  match v with
  | JUndefined => true
  | _ => false
  end.

(** A property whose value is [undefined] is left out of an object; an
    [undefined] array element is written [null]. *)
Fixpoint stringify (v : jsval) : string :=
  match v with
  | JUndefined | JNull => "null"
  | JBool true => "true"
  | JBool false => "false"
  | JNum n => pretty n
  | JStr s => quote s
  | JArr items => ("[" ++ join "," (map stringify items) ++ "]")%string
  | JObj props =>
      ("{" ++ join ","
                (flat_map (fun p => let '(k, x) := p in
                                    if is_undefined x then []
                                    else [(quote k ++ ":" ++ stringify x)%string])
                          props)
           ++ "}")%string
  end.

(** *** Date *)

Fixpoint take_digits (n : nat) (l : list ascii) (acc : Z)
  : option (Z * list ascii) :=
  match n with
  | O => Some (acc, l)
  | S n' =>
      match l with
      | c :: rest =>
          match digit_of c with
          | Some d => take_digits n' rest (acc * 10 + d)
          | None => None
          end
      | [] => None
      end
  end.

Definition expect (c : ascii) (l : list ascii) : option (list ascii) :=
  match l with
  | x :: rest => if Ascii.eqb x c then Some rest else None
  | [] => None
  end.

Definition is_leap (y : Z) : bool :=
  ((y mod 4 =? 0) && negb (y mod 100 =? 0)) || (y mod 400 =? 0).

Definition days_in_month (y m : Z) : Z :=
  if m =? 2 then (if is_leap y then 29 else 28)
  else if (m =? 4) || (m =? 6) || (m =? 9) || (m =? 11) then 30
  else 31.

(** Days from 1970-01-01 to the civil date [y-m-d]. *)
Definition days_from_civil (y m d : Z) : Z :=
  let y' := if m <=? 2 then y - 1 else y in
  let era := y' / 400 in
  let yoe := y' - era * 400 in
  let mp := (m + 9) mod 12 in
  let doy := (153 * mp + 2) / 5 + d - 1 in
  let doe := yoe * 365 + yoe / 4 - yoe / 100 + doy in
  era * 146097 + doe - 719468.

(** The civil date [(y, m, d)] of a day number. *)
Definition civil_from_days (z0 : Z) : Z * Z * Z :=
  let z := z0 + 719468 in
  let era := z / 146097 in
  let doe := z - era * 146097 in
  let yoe := (doe - doe / 1460 + doe / 36524 - doe / 146096) / 365 in
  let doy := doe - (365 * yoe + yoe / 4 - yoe / 100) in
  let mp := (5 * doy + 2) / 153 in
  let d := doy - (153 * mp + 2) / 5 + 1 in
  let m := if mp <? 10 then mp + 3 else mp - 9 in
  let y := yoe + era * 400 in
  (if m <=? 2 then y + 1 else y, m, d).

Definition parse_iso (s : string) : option Z :=
  '(y, l) ← take_digits 4 (list_ascii_of_string s) 0;
  l ← expect "-" l;
  '(mo, l) ← take_digits 2 l 0;
  l ← expect "-" l;
  '(d, l) ← take_digits 2 l 0;
  l ← expect "T" l;
  '(h, l) ← take_digits 2 l 0;
  l ← expect ":" l;
  '(mi, l) ← take_digits 2 l 0;
  l ← expect ":" l;
  '(sec, l) ← take_digits 2 l 0;
  '(ms, l) ← match expect "." l with
             | Some l' => take_digits 3 l' 0
             | None => Some (0, l)
             end;
  l ← expect "Z" l;
  match l with
  | [] =>
      if (1 <=? mo) && (mo <=? 12) && (1 <=? d) && (d <=? days_in_month y mo)
         && (h <=? 23) && (mi <=? 59) && (sec <=? 59)
      then Some ((((days_from_civil y mo d * 24 + h) * 60 + mi) * 60 + sec)
                 * 1000 + ms)
      else None
  | _ :: _ => None
  end.

Definition getTime (v : jsval) : option Z :=
  match v with
  | JStr s => parse_iso s
  | JNum n => if Z.abs n <=? 8640000000000000 then Some n else None
  | JNull => Some 0
  | JBool b => Some (if b then 1 else 0)
  | JUndefined | JArr _ | JObj _ => None
  end.

Fixpoint zeros (n : nat) : string :=
  match n with
  | O => ""
  | S n' => ("0" ++ zeros n')%string
  end.

Definition pad (width : nat) (s : string) : string :=
  (zeros (width - String.length s) ++ s)%string.

Definition toISOString (ms : Z) : string :=
  let days := ms / 86400000 in
  let rest := ms mod 86400000 in
  let '(y, m, d) := civil_from_days days in
  (pad 4 (pretty y) ++ "-" ++ pad 2 (pretty m) ++ "-" ++ pad 2 (pretty d)
   ++ "T" ++ pad 2 (pretty (rest / 3600000))
   ++ ":" ++ pad 2 (pretty (rest / 60000 mod 60))
   ++ ":" ++ pad 2 (pretty (rest / 1000 mod 60))
   ++ "." ++ pad 3 (pretty (rest mod 1000)) ++ "Z")%string.

(** *** String.prototype.trim *)

Definition is_space (c : ascii) : bool :=
  let n := nat_of_ascii c in
  ((n =? 32) || ((9 <=? n) && (n <=? 13)))%nat.

Fixpoint trim_start (l : list ascii) : list ascii :=
  match l with
  | c :: rest => if is_space c then trim_start rest else l
  | [] => []
  end.

Definition trim (s : string) : string :=
  string_of_list_ascii
    (rev (trim_start (rev (trim_start (list_ascii_of_string s))))).

#[export] Instance runtime : JsRuntime := {|
  JSON_parse := parse;
  JSON_stringify := stringify;
  Date_getTime := getTime;
  Date_toISOString := toISOString;
  String_trim := trim
|}.
End Engine.

(** ** Vocabulary of the statements *)

Definition TREASURY_KEY : string := "EXPO_PUBLIC_TREASURY_CONTRACT_ADDRESS".

(** An operation whose [k]-th invocation has the outcome [outcomes k]; each
    invocation is recorded in the trace. *)
Definition operation_of {T} (outcomes : nat -> Outcome T) : M T :=
  fun w => (outcomes (noperation w),
            mkWorld (state w) (nquery w) (nexecute w) (S (noperation w))
                    (nclock w) (trace w ++ [EvOperation (noperation w)])).

(** What [retryOperation] leaves in the trace for the failed attempts
    [i, i+1, ..., i+k-1], each followed by its log line and its backoff. *)
Fixpoint failed_attempts (delay : Z) (first : nat) (i k : nat) : list Event :=
  match k with
  | O => []
  | S k' =>
      [EvOperation (first + i);
       EvLog ("Attempt " ++ pretty (i + 1)%nat ++ " failed:");
       EvSleep (delay * 2 ^ Z.of_nat i)]
      ++ failed_attempts delay first (S i) k'
  end.

Definition is_alert (e : Event) : bool :=
  match e with
  | EvAlert _ _ => true
  | _ => false
  end.

(** The alerts shown to the user. *)
Definition alerts (t : list Event) : list Event := List.filter is_alert t.

Definition is_remote (e : Event) : bool :=
  match e with
  | EvQuery _ _ | EvExecute _ _ _ | EvSleep _ => true
  | _ => false
  end.

(** The remote calls and the timers of a trace, in order. *)
Definition timeline (t : list Event) : list Event := List.filter is_remote t.

(** [k] polls of the listing, two seconds apart. *)
Fixpoint poll_timeline (q : Event) (k : nat) : list Event :=
  match k with
  | O => []
  | S O => [q]
  | S k' => q :: EvSleep 2000 :: poll_timeline q k'
  end.

(** Whether the [j]-th call of the listing query shows the key [todoId]. *)
Definition poll_sees (qc : QueryClient) (address : option string)
    (owner todoId : string) (j : nat) : bool :=
  match queryContractSmart qc j address (UserDocuments owner "todos") with
  | Ok (Some (mkResponse (Some docs))) => listed todoId docs
  | _ => false
  end.

(** The fields of a document as they stand in a parsed payload object. *)
Definition todo_of_object (key : string) (props : list (string * jsval)) : Todo :=
  mkTodo key (lookup_prop "title" props) (lookup_prop "text" props)
         (lookup_prop "completed" props) (lookup_prop "created_at" props).

Definition is_true (v : jsval) : bool :=
  match v with
  | JBool true => true
  | _ => false
  end.

(** [completed] holds a boolean, as the type [Todo] declares. *)
Definition boolean_completed (t : Todo) : Prop :=
  exists b, completed t = JBool b.

(** The summary agrees with the cache. *)
Definition summary_consistent (s : ScreenState) : Prop :=
  s_completed (summary s) + pending (summary s) = total (summary s)
  /\ total (summary s) = len (todos s)
  /\ s_completed (summary s)
     = len (List.filter (fun t => truthy (completed t)) (todos s))
  /\ (Forall boolean_completed (todos s) ->
      s_completed (summary s)
      = len (List.filter (fun t => is_true (completed t)) (todos s))).

(** The world after a refresh: the call [q] and the lines [log] are added
    to the trace, the cache and the summary are replaced. *)
Definition refreshed (w : World) (q : Event) (log : list Event)
    (l : list Todo) (x : TodoSummary) : World :=
  mkWorld (mkState (loading (state w)) (loadingAction (state w))
                   (refreshing (state w)) l x (newTodoText (state w)))
          (S (nquery w)) (nexecute w) (noperation w) (nclock w)
          (trace w ++ q :: log).

Definition listing_query (r : Render) (acct : Account) : Event :=
  EvQuery (env r !! DOCUSTORE_KEY) (UserDocuments (bech32Address acct) "todos").

(** The answer the listing query gives when called in the world [w]. *)
Definition listing_answer (r : Render) (qc : QueryClient) (acct : Account)
    (w : World) : Outcome (option Response) :=
  queryContractSmart qc (nquery w) (env r !! DOCUSTORE_KEY)
                     (UserDocuments (bech32Address acct) "todos").

(** The world after [toggleTodo] or [deleteTodo]: one mutation call, the
    events [events], the busy marker cleared, the cache and summary as given. *)
Definition mutated (w : World) (events : list Event)
    (l : list Todo) (x : TodoSummary) : World :=
  mkWorld (mkState (loading (state w)) None (refreshing (state w)) l x
                   (newTodoText (state w)))
          (nquery w) (S (nexecute w)) (noperation w) (nclock w)
          (trace w ++ events).

(** The mutation call of [toggleTodo] and its answer in the world [w]. *)
Definition update_message `{JsRuntime} (todo : Todo) : ExecuteMsg :=
  MsgUpdate "todos" (id todo) (JSON_stringify (todo_to_js (toggled todo))).

Definition delete_message (todoId : string) : ExecuteMsg :=
  MsgDelete "todos" todoId.

Definition mutation_call (r : Render) (acct : Account) (msg : ExecuteMsg) : Event :=
  EvExecute (bech32Address acct) (env r !! DOCUSTORE_KEY) msg.

Definition mutation_answer (r : Render) (c : SigningClient) (acct : Account)
    (msg : ExecuteMsg) (w : World) : Outcome unit :=
  execute c (nexecute w) (bech32Address acct) (env r !! DOCUSTORE_KEY) msg.

(** The claim of the configuration section, as it is worded: a missing
    document-store or treasury address makes start-up raise, and start-up
    does not raise when both are there. *)
Definition fails_fast_on_store_or_treasury (e : gmap string string) : Prop :=
  (env_missing e DOCUSTORE_KEY = true \/ env_missing e TREASURY_KEY = true ->
   startup_raises e = true)
  /\ (env_missing e DOCUSTORE_KEY = false /\ env_missing e TREASURY_KEY = false ->
      startup_raises e = false).

(** The creation time the sort compares, for a todo whose [created_at]
    is a valid date. *)
Definition dated `{JsRuntime} (t : Todo) : Prop :=
  Date_getTime (created_at t) <> None.

Definition timestamp `{JsRuntime} (t : Todo) : Z :=
  match Date_getTime (created_at t) with
  | Some ms => ms
  | None => 0
  end.

(** A listed document whose payload is the JSON text of an object, and the
    todo it stands for. *)
Definition deserializes `{JsRuntime} (entry : string * Doc) (t : Todo) : Prop :=
  exists s props,
    data (snd entry) = JStr s
    /\ JSON_parse s = Some (JObj props)
    /\ t = todo_of_object (fst entry) props.

(** The claim about unparseable documents, as it is worded: the refresh does
    not throw and every listed document that parses is in the cache. *)
Definition keeps_parseable_documents `{JsRuntime} (r : Render) (w : World)
    (docs : list (string * Doc)) : Prop :=
  fst (fetchTodos r w) = Ok tt
  /\ forall entry t, In entry docs -> parse_document entry = Ok t ->
                     In t (todos (state (snd (fetchTodos r w)))).

(** The document [addTodo] writes, from its two readings of the clock. *)
Definition new_todo `{JsRuntime} (r : Render) (w : World) : Todo :=
  let trimmed := String_trim (newTodoText (snapshot r)) in
  mkTodo (pretty (Date_now r (nclock w))) (JStr trimmed) (JStr trimmed)
         (JBool false)
         (JStr (Date_toISOString (Date_now r (S (nclock w))))).

Definition set_message `{JsRuntime} (r : Render) (w : World) : ExecuteMsg :=
  MsgSet "todos" (id (new_todo r w))
         (JSON_stringify (todo_to_js (new_todo r w))).

(** The world in which [addTodo] enters its [try] block: the clock has
    been read twice and the busy flag is set. *)
Definition entering (w : World) : World :=
  mkWorld (mkState true (loadingAction (state w)) (refreshing (state w))
                   (todos (state w)) (summary (state w))
                   (newTodoText (state w)))
          (nquery w) (nexecute w) (noperation w) (S (S (nclock w))) (trace w).

(** The world after [count] invocations of the retried operation. *)
Definition attempted (w : World) (count : nat) (events : list Event) : World :=
  mkWorld (state w) (nquery w) (nexecute w) (noperation w + count)%nat
          (nclock w) (trace w ++ events).

(** ** Concrete inputs *)

Module Demo.
Definition owner : Account := mkAccount "xion1owner".

Definition environment : gmap string string :=
  {[ USER_MAP_KEY := "xion1usermap"; DOCUSTORE_KEY := "xion1docustore" ]}.

(** The environment file of the README plus the document-store address:
    no user-map address. *)
Definition environment_without_user_map : gmap string string :=
  {[ DOCUSTORE_KEY := "xion1docustore"; TREASURY_KEY := "xion1treasury" ]}.

Definition environment_without_treasury : gmap string string := environment.

Definition older : Todo :=
  mkTodo "42" (JStr "x") (JStr "x") (JBool false) (JStr "2024-01-01T00:00:00Z").
Definition newer : Todo :=
  mkTodo "43" (JStr "y") (JStr "y") (JBool true)
         (JStr "2024-03-05T10:30:00.000Z").

(** A document as the store lists it: the key and the serialised todo. *)
Definition stored (t : Todo) : string * Doc :=
  (id t, mkDoc (JStr (Engine.stringify (todo_to_js t)))).

(** A document whose payload is not JSON. *)
Definition corrupt : string * Doc := ("44", mkDoc (JStr "{bad")).

(** The text of a listed payload. *)
Definition data_text (entry : string * Doc) : string :=
  match data (snd entry) with
  | JStr s => s
  | _ => ""
  end.

Definition listing (docs : list (string * Doc)) : QueryClient :=
  mkQueryClient (fun _ _ _ => Ok (Some (mkResponse (Some docs)))).

Definition unreachable : QueryClient :=
  mkQueryClient (fun _ _ _ => Throw (JsError "Error" "Network request failed")).

(** A store whose listing shows [after] from the [n]-th call on. *)
Definition visible_after (n : nat) (before after : list (string * Doc))
  : QueryClient :=
  mkQueryClient (fun j _ _ =>
    Ok (Some (mkResponse (Some (if (j <? n)%nat then before else after))))).

Definition accepting : SigningClient :=
  mkSigningClient (fun _ _ _ _ => Ok tt).

Definition rejecting : SigningClient :=
  mkSigningClient (fun _ _ _ _ => Throw (JsError "Error" "out of gas")).

Definition clock (k : nat) : Z := 1704067200000 + Z.of_nat k.

Definition screen (cache : list Todo) (typed : string) : ScreenState :=
  mkState false None false cache
          (mkSummary (len cache) (countCompleted cache)
                     (len cache - countCompleted cache)) typed.

Definition render (c : SigningClient) (qc : QueryClient)
    (cache : list Todo) (typed : string) : Render :=
  mkRender (Some owner) (Some c) (Some qc) environment (screen cache typed) clock.

Definition start (cache : list Todo) (typed : string) : World :=
  mkWorld (screen cache typed) 0 0 0 0 [].

(** The document [addTodo] writes when it runs at [clock 0] with the text
    [buy milk], as the store lists it once the write has landed. *)
Definition created : string * Doc :=
  stored (mkTodo "1704067200000" (JStr "buy milk") (JStr "buy milk")
                 (JBool false) (JStr "2024-01-01T00:00:00.001Z")).

(** An operation that fails [k] times and then answers [v]. *)
Definition flaky (k : nat) (v : Z) : nat -> Outcome Z :=
  fun j => if (j <? k)%nat
           then Throw (JsError "Error" ("timeout " ++ pretty j))
           else Ok v.
End Demo.

(** ** Vocabulary of the further properties *)

(** The time asked of the timers in a trace, in milliseconds. *)
Fixpoint slept (t : list Event) : Z :=
  match t with
  | [] => 0
  | EvSleep ms :: rest => ms + slept rest
  | _ :: rest => slept rest
  end.

Definition is_mutation (e : Event) : bool :=
  match e with
  | EvExecute _ _ _ => true
  | _ => false
  end.

(** The mutation calls of a trace. *)
Definition mutations (t : list Event) : list Event := List.filter is_mutation t.

(** The cache and the summary a refresh leaves when its listing query is
    the [j]-th call made to the query client. *)
Definition refresh_at `{JsRuntime} (r : Render) (j : nat) : list Todo * TodoSummary :=
  let w' := snd (fetchTodos r (mkWorld initialState j 0 0 0 [])) in
  (todos (state w'), summary (state w')).

(** The number of cached todos stored under a key. *)
Definition occurrences (key : string) (l : list Todo) : nat :=
  length (List.filter (fun t => String.eqb (id t) key) l).

(** The document a mutation message writes, as the store will list it. *)
Definition written (msg : ExecuteMsg) : option (string * Doc) :=
  match msg with
  | MsgSet _ key payload | MsgUpdate _ key payload =>
      Some (key, mkDoc (JStr payload))
  | MsgDelete _ _ => None
  end.

(** The engine reads back the object of a todo from its JSON text. *)
Definition reads_back `{JsRuntime} (t : Todo) : Prop :=
  JSON_parse (JSON_stringify (todo_to_js t)) = Some (todo_to_js t).

(** ** The profile and settings screens (profile.tsx, settings.tsx)

    These screens keep other state cells than the todos screen.  Their
    handlers run over a pair of the screen's own cells and a [World], of
    which they use the call counters and the trace; the collaborators and
    the console are those of the todos screen, lifted with [run]. *)

Section ScreenMonad.
Context {S : Type}.

Definition Handler (A : Type) : Type := S * World -> Outcome A * (S * World).

Definition hret {A} (a : A) : Handler A := fun sw => (Ok a, sw).

Definition hbind {A B} (m : Handler A) (k : A -> Handler B) : Handler B :=
  fun sw => match m sw with
            | (Ok a, sw') => k a sw'
            | (Throw e, sw') => (Throw e, sw')
            end.

Definition hthrow {A} (e : exn) : Handler A := fun sw => (Throw e, sw).

(** [try { m } catch (error) { h error }]. *)
Definition hcatch {A} (m : Handler A) (h : exn -> Handler A) : Handler A :=
  fun sw => match m sw with
            | (Ok a, sw') => (Ok a, sw')
            | (Throw e, sw') => h e sw'
            end.

(** [try { m } finally { f }]. *)
Definition hfinally {A} (m : Handler A) (f : Handler unit) : Handler A :=
  fun sw => match m sw with
            | (o, sw') => match f sw' with
                          | (Ok _, sw'') => (o, sw'')
                          | (Throw e, sw'') => (Throw e, sw'')
                          end
            end.

(** A call to a collaborator or to the console. *)
Definition run {A} (m : M A) : Handler A :=
  fun sw => match m (snd sw) with
            | (o, w') => (o, (fst sw, w'))
            end.

(** A state setter of the screen. *)
Definition set_cells (f : S -> S) : Handler unit :=
  fun sw => (Ok tt, (f (fst sw), snd sw)).
End ScreenMonad.

Declare Scope screen_scope.
Delimit Scope screen_scope with screen.
Notation "x <- m ;; k" := (hbind m (fun x => k))
  (at level 100, m at next level, k at level 200, right associativity)
  : screen_scope.
Notation "m ;;; k" := (hbind m (fun _ => k))
  (at level 100, k at level 200, right associativity) : screen_scope.

(** [account?.bech32Address] when it is truthy. *)
Definition connected_address (a : option Account) : option string :=
  match a with
  | Some acct =>
      if String.eqb (bech32Address acct) "" then None
      else Some (bech32Address acct)
  | None => None
  end.

Definition is_nullish (v : jsval) : bool :=
  match v with
  | JUndefined | JNull => true
  | _ => false
  end.

(** ToString, which [JSON.parse] applies to its argument (integers in
    decimal notation). *)
Fixpoint ToString (v : jsval) : string :=
  match v with
  | JUndefined => "undefined"
  | JNull => "null"
  | JBool true => "true"
  | JBool false => "false"
  | JNum n => pretty n
  | JStr s => s
  | JArr items =>
      Engine.join "," (map (fun x => if is_nullish x then "" else ToString x)
                           items)
  | JObj _ => "[object Object]"
  end.

(** [JSON.parse(doc.data)], as the profile and settings screens call it:
    without the [typeof] test of the todos screen. *)
Definition parse_payload `{JsRuntime} {S : Type} (doc : Doc) : @Handler S jsval :=
  fun sw => match JSON_parse (ToString (data doc)) with
            | Some v => (Ok v, sw)
            | None => (Throw (JsError "SyntaxError" "JSON Parse error"), sw)
            end.

(** [documents.find(([id]) => id === address)]. *)
Definition find_document (address : string) (docs : list (string * Doc))
  : option (string * Doc) :=
  List.find (fun entry => String.eqb (fst entry) address) docs.

(** The own enumerable properties an object spread [{...v}] copies. *)
Fixpoint indexed (i : nat) (items : list jsval) : list (string * jsval) :=
  match items with
  | [] => []
  | x :: rest => (pretty i, x) :: indexed (S i) rest
  end.

Definition spread (v : jsval) : list (string * jsval) :=
  match v with
  | JObj props => props
  | JArr items => indexed 0 items
  | JStr s =>
      indexed 0 (map (fun c => JStr (String c EmptyString))
                     (list_ascii_of_string s))
  | _ => []
  end.

(** [{ ...v, key: x }]. *)
Definition with_prop (v : jsval) (key : string) (x : jsval) : jsval :=
  JObj (Engine.set_prop key x (spread v)).

(** [queryClient && account?.bech32Address]. *)
Definition wallet_ready (r : Render) : bool :=
  match queryClient r, connected_address (account r) with
  | Some _, Some _ => true
  | _, _ => false
  end.

Module Profile.
Local Open Scope screen_scope.

(** The [useState] cells of [Profile] (profile.tsx, lines 36-44). *)
Record State : Type := mkState {
  loading : bool;
  isEditing : bool;
  profile : jsval;
  editedProfile : jsval
}.

Definition emptyProfile : jsval :=
  JObj [("displayName", JStr ""); ("bio", JStr ""); ("avatar", JStr "");
        ("socialLinks", JObj [])].

Definition initialState : State := mkState true false JNull emptyProfile.

Definition setLoading (b : bool) : @Handler State unit :=
  set_cells (fun s => mkState b (isEditing s) (profile s) (editedProfile s)).
Definition setIsEditing (b : bool) : @Handler State unit :=
  set_cells (fun s => mkState (loading s) b (profile s) (editedProfile s)).
Definition setProfile (p : jsval) : @Handler State unit :=
  set_cells (fun s => mkState (loading s) (isEditing s) p (editedProfile s)).
Definition setEditedProfile (p : jsval) : @Handler State unit :=
  set_cells (fun s => mkState (loading s) (isEditing s) (profile s) p).

Section Handlers.
Context `{JsRuntime}.

(** [fetchProfile] (profile.tsx, lines 47-122). *)
Definition fetchProfile (r : Render) : @Handler State unit :=
  match queryClient r with
  | None =>
      run (console_log "Query client not initialized");;;
      setLoading false
  | Some qc =>
      match connected_address (account r) with
      | None =>
          run (console_log "Account address not available");;;
          setLoading false
      | Some address =>
          let contractAddress := env r !! DOCUSTORE_KEY in
          setLoading true;;;
          hfinally
            (hcatch
               (run (console_log "Fetching profile for address:");;;
                run (console_log "Using contract address:");;;
                response <- run (call_query qc contractAddress
                                   (UserDocuments address "profiles"));;
                run (console_log "Profile response:");;;
                match response with
                | Some (mkResponse (Some docs)) =>
                    match find_document address docs with
                    | Some profileDoc =>
                        profileData <- parse_payload (snd profileDoc);;
                        run (console_log "Found profile data:");;;
                        setProfile profileData;;;
                        setEditedProfile profileData
                    | None =>
                        run (console_log
                               "No profile document found, initializing empty profile");;;
                        setProfile emptyProfile;;;
                        setEditedProfile emptyProfile
                    end
                | _ =>
                    run (console_log
                           "No documents in response, initializing empty profile");;;
                    setProfile emptyProfile;;;
                    setEditedProfile emptyProfile
                end)
               (fun error =>
                  run (console_error "Error fetching profile:");;;
                  setProfile emptyProfile;;;
                  setEditedProfile emptyProfile))
            (setLoading false)
      end
  end.

(** [updateProfile] (profile.tsx, lines 125-152); [edited] is the
    [editedProfile] of the render the handler belongs to. *)
Definition updateProfile (r : Render) (edited : jsval) : @Handler State unit :=
  match client r, account r with
  | Some c, Some acct =>
      let contractAddress := env r !! DOCUSTORE_KEY in
      setLoading true;;;
      hfinally
        (hcatch
           (run (call_execute c (bech32Address acct) contractAddress
                   (MsgSet "profiles" (bech32Address acct)
                           (JSON_stringify edited)));;;
            setProfile edited;;;
            setIsEditing false;;;
            run (Alert_alert "Success" "Profile updated successfully!"))
           (fun error =>
              run (console_error "Error updating profile:");;;
              run (Alert_alert "Error" "Failed to update profile. Please try again.")))
        (setLoading false)
  | _, _ => hret tt
  end.

(** The effect on account changes (profile.tsx, lines 155-174). *)
Definition accountEffect (r : Render) (isConnected : bool) : @Handler State unit :=
  run (console_log "Account changed, fetching profile");;;
  run (console_log "Account:");;;
  run (console_log "Is connected:");;;
  run (console_log "Query client:");;;
  if negb isConnected then setLoading false
  else if wallet_ready r then fetchProfile r
  else setLoading false.

(** The listener on application state changes (profile.tsx, lines 177-187). *)
Definition appStateListener (r : Render) (isConnected : bool)
    (nextAppState : string) : @Handler State unit :=
  if String.eqb nextAppState "active" && isConnected && wallet_ready r then
    run (console_log "App became active, refreshing profile");;;
    fetchProfile r
  else hret tt.
End Handlers.

(** The text inputs of the edit form (profile.tsx, lines 220, 231, 244):
    [edited] is the [editedProfile] of the render. *)
Definition changeField (field : string) (edited : jsval) (text : string)
  : @Handler State unit :=
  setEditedProfile (with_prop edited field (JStr text)).

(** The social link inputs (lines 255-282).  [editedProfile.socialLinks]
    is read inside the object literal: reading it throws a TypeError when
    [editedProfile] is [null]. *)
Definition changeSocialLink (link : string) (edited : jsval) (text : string)
  : @Handler State unit :=
  match get_prop edited "socialLinks" with
  | Ok links =>
      setEditedProfile
        (with_prop edited "socialLinks" (with_prop links link (JStr text)))
  | Throw e => hthrow e
  end.

(** The Cancel button (lines 295-298): [saved] and [edited] are the
    [profile] and the [editedProfile] of the render. *)
Definition cancelEdit (saved edited : jsval) : @Handler State unit :=
  setIsEditing false;;;
  setEditedProfile (if truthy saved then saved else edited).

(** The Edit Profile button (line 364). *)
Definition startEdit : @Handler State unit := setIsEditing true.
End Profile.

Module Settings.
Local Open Scope screen_scope.

(** The [useState] cells of [Settings] (settings.tsx, lines 32-44). *)
Record State : Type := mkState {
  loading : bool;
  settings : jsval;
  editedSettings : jsval
}.

Definition settingsObject (darkMode notifications : bool)
    (language timezone : string) : jsval :=
  JObj [("darkMode", JBool darkMode); ("notifications", JBool notifications);
        ("language", JStr language); ("timezone", JStr timezone)].

(** The settings the cells start with, and the ones a fetch falls back to. *)
Definition startSettings : jsval := settingsObject true true "en" "UTC".
Definition defaultSettings : jsval := settingsObject false true "en" "UTC".

Definition initialState : State := mkState true startSettings startSettings.

Definition setLoading (b : bool) : @Handler State unit :=
  set_cells (fun s => mkState b (settings s) (editedSettings s)).
Definition setSettings (x : jsval) : @Handler State unit :=
  set_cells (fun s => mkState (loading s) x (editedSettings s)).
Definition setEditedSettings (x : jsval) : @Handler State unit :=
  set_cells (fun s => mkState (loading s) (settings s) x).

Section Handlers.
Context `{JsRuntime}.

(** [fetchSettings] (settings.tsx, lines 47-122). *)
Definition fetchSettings (r : Render) : @Handler State unit :=
  match queryClient r with
  | None =>
      run (console_log "Query client not initialized");;;
      setLoading false
  | Some qc =>
      match connected_address (account r) with
      | None =>
          run (console_log "Account address not available");;;
          setLoading false
      | Some address =>
          let contractAddress := env r !! DOCUSTORE_KEY in
          setLoading true;;;
          hfinally
            (hcatch
               (run (console_log "Fetching settings for address:");;;
                run (console_log "Using contract address:");;;
                response <- run (call_query qc contractAddress
                                   (UserDocuments address "settings"));;
                run (console_log "Settings response:");;;
                match response with
                | Some (mkResponse (Some docs)) =>
                    match find_document address docs with
                    | Some settingsDoc =>
                        settingsData <- parse_payload (snd settingsDoc);;
                        run (console_log "Found settings data:");;;
                        setSettings settingsData;;;
                        setEditedSettings settingsData
                    | None =>
                        run (console_log
                               "No settings document found, initializing default settings");;;
                        setSettings defaultSettings;;;
                        setEditedSettings defaultSettings
                    end
                | _ =>
                    run (console_log
                           "No documents in response, initializing default settings");;;
                    setSettings defaultSettings;;;
                    setEditedSettings defaultSettings
                end)
               (fun error =>
                  run (console_error "Error fetching settings:");;;
                  setSettings defaultSettings;;;
                  setEditedSettings defaultSettings))
            (setLoading false)
      end
  end.

(** [updateSettings] (settings.tsx, lines 125-151). *)
Definition updateSettings (r : Render) (newSettings : jsval)
  : @Handler State unit :=
  match client r, account r with
  | Some c, Some acct =>
      let contractAddress := env r !! DOCUSTORE_KEY in
      setLoading true;;;
      hfinally
        (hcatch
           (run (call_execute c (bech32Address acct) contractAddress
                   (MsgSet "settings" (bech32Address acct)
                           (JSON_stringify newSettings)));;;
            setSettings newSettings;;;
            run (Alert_alert "Success" "Settings updated successfully!"))
           (fun error =>
              run (console_error "Error updating settings:");;;
              run (Alert_alert "Error"
                               "Failed to update settings. Please try again.")))
        (setLoading false)
  | _, _ => hret tt
  end.

(** The switches (settings.tsx, lines 225 and 242):
    [updateSettings({ ...settings, darkMode: value })]; [current] is the
    [settings] of the render. *)
Definition switchSetting (r : Render) (current : jsval) (name : string)
    (value : bool) : @Handler State unit :=
  updateSettings r (with_prop current name (JBool value)).

(** The effect on account changes (settings.tsx, lines 154-173). *)
Definition accountEffect (r : Render) (isConnected : bool) : @Handler State unit :=
  run (console_log "Account changed, fetching settings");;;
  run (console_log "Account:");;;
  run (console_log "Is connected:");;;
  run (console_log "Query client:");;;
  if negb isConnected then setLoading false
  else if wallet_ready r then fetchSettings r
  else setLoading false.

(** The listener on application state changes (settings.tsx, lines 176-186). *)
Definition appStateListener (r : Render) (isConnected : bool)
    (nextAppState : string) : @Handler State unit :=
  if String.eqb nextAppState "active" && isConnected && wallet_ready r then
    run (console_log "App became active, refreshing settings");;;
    fetchSettings r
  else hret tt.
End Handlers.
End Settings.

(** *** Vocabulary for the two screens *)

(** What a fetch of a single-document screen makes of the answer of its
    listing query: the value it stores, and the console lines after the
    query.  [noun] is "profile" or "settings" as it appears in the messages,
    [fallback] the value stored when no document can be used. *)
Definition fetch_result `{JsRuntime} (Noun noun what : string) (fallback : jsval)
    (address : string) (answer : Outcome (option Response))
  : jsval * list Event :=
  match answer with
  | Ok (Some (mkResponse (Some docs))) =>
      match find_document address docs with
      | Some doc =>
          match JSON_parse (ToString (data (snd doc))) with
          | Some v =>
              (v, [EvLog (Noun ++ " response:");
                   EvLog ("Found " ++ noun ++ " data:")])
          | None =>
              (fallback, [EvLog (Noun ++ " response:");
                          EvError ("Error fetching " ++ noun ++ ":")])
          end
      | None =>
          (fallback, [EvLog (Noun ++ " response:");
                      EvLog ("No " ++ noun ++ " document found, initializing "
                             ++ what)])
      end
  | Ok _ =>
      (fallback, [EvLog (Noun ++ " response:");
                  EvLog ("No documents in response, initializing " ++ what)])
  | Throw _ => (fallback, [EvError ("Error fetching " ++ noun ++ ":")])
  end.

(** The world after a fetch of a single-document screen. *)
Definition fetched_world (w : World) (noun : string) (q : Event)
    (log : list Event) : World :=
  mkWorld (state w) (S (nquery w)) (nexecute w) (noperation w) (nclock w)
          (trace w ++ [EvLog ("Fetching " ++ noun ++ " for address:");
                       EvLog "Using contract address:"; q] ++ log).

(** The world after an update of a single-document screen. *)
Definition updated_world (w : World) (events : list Event) : World :=
  mkWorld (state w) (nquery w) (S (nexecute w)) (noperation w) (nclock w)
          (trace w ++ events).

(** The listing queries of the two screens. *)
Definition profile_query (r : Render) (address : string) : Event :=
  EvQuery (env r !! DOCUSTORE_KEY) (UserDocuments address "profiles").

Definition settings_query (r : Render) (address : string) : Event :=
  EvQuery (env r !! DOCUSTORE_KEY) (UserDocuments address "settings").

(** The engine reads a value back from its JSON text. *)
Definition value_reads_back `{JsRuntime} (v : jsval) : Prop :=
  JSON_parse (JSON_stringify v) = Some v.

(** ** Further concrete inputs *)

Module Samples.
(** A render with no wallet at all. *)
Definition signed_out : Render :=
  mkRender None None None Demo.environment (Demo.screen [] "buy milk") Demo.clock.

Definition alice : jsval :=
  JObj [("displayName", JStr "Alice"); ("bio", JStr "hello");
        ("avatar", JStr "");
        ("socialLinks", JObj [("twitter", JStr "https://x.com/alice")])].

(** A document stored under a key, holding the JSON text of a value. *)
Definition document (key : string) (v : jsval) : string * Doc :=
  (key, mkDoc (JStr (Engine.stringify v))).

Definition stranger : string * Doc :=
  document "xion1other" (JObj [("displayName", JStr "Bob")]).

(** A document under the owner's address whose payload is not JSON. *)
Definition garbled : string * Doc := ("xion1owner", mkDoc (JStr "{bad")).

Definition dark_off : jsval := Settings.settingsObject false true "en" "UTC".

Definition profile_cells : Profile.State :=
  Profile.mkState false true JNull alice.

Definition settings_cells : Settings.State := Settings.initialState.
End Samples.

(** ** Facts about the sort *)

Section ArraySortFacts.
Context {A : Type} (comparefn : A -> A -> option Z).

Lemma sort_insert_perm (x : A) (l : list A) :
  Permutation (x :: l) (sort_insert comparefn x l).
Proof.
  induction l as [|y rest IH]; simpl.
  - reflexivity.
  - destruct (SortCompare comparefn x y <=? 0).
    + reflexivity.
    + rewrite perm_swap. now apply perm_skip.
Qed.

Lemma array_sort_perm (l : list A) : Permutation l (array_sort comparefn l).
Proof.
  induction l as [|x rest IH]; simpl.
  - reflexivity.
  - etransitivity; [apply perm_skip, IH | apply sort_insert_perm].
Qed.

(** The comparator orders by a key, descending, on the elements [ok]. *)
Context (key : A -> Z) (ok : A -> Prop).
Hypothesis comparefn_key :
  forall x y, ok x -> ok y -> comparefn x y = Some (key y - key x).

Let newer_first (a b : A) : Prop := key b <= key a.

Lemma sort_insert_sorted (x : A) (l : list A) :
  ok x -> Forall ok l -> StronglySorted newer_first l ->
  StronglySorted newer_first (sort_insert comparefn x l).
Proof.
  intros Hx Hl Hs. induction Hs as [|y rest Hs IH Hy]; simpl.
  - constructor; [constructor | constructor].
  - inversion Hl as [|? ? Hoky Hrest]; subst.
    unfold SortCompare. rewrite (comparefn_key x y Hx Hoky).
    destruct (key y - key x <=? 0) eqn:E.
    + apply Z.leb_le in E.
      constructor; [constructor; assumption|].
      constructor; [unfold newer_first; lia|].
      eapply Forall_impl; [exact Hy|].
      unfold newer_first; simpl; intros; lia.
    + apply Z.leb_gt in E.
      constructor; [auto|].
      eapply Permutation_Forall; [apply sort_insert_perm|].
      constructor; [unfold newer_first; lia | exact Hy].
Qed.

Lemma array_sort_sorted (l : list A) :
  Forall ok l -> StronglySorted newer_first (array_sort comparefn l).
Proof.
  induction l as [|x rest IH]; simpl; intros Hl.
  - constructor.
  - inversion Hl; subst. apply sort_insert_sorted; auto.
    eapply Permutation_Forall; [apply array_sort_perm | assumption].
Qed.

Lemma sort_insert_stable (x : A) (l : list A) (v : Z) :
  ok x -> Forall ok l ->
  List.filter (fun a => key a =? v) (sort_insert comparefn x l)
  = List.filter (fun a => key a =? v) (x :: l).
Proof.
  intros Hx Hl. induction Hl as [|y rest Hy Hrest IH]; [reflexivity|].
  cbn [sort_insert]. unfold SortCompare. rewrite (comparefn_key x y Hx Hy).
  destruct (key y - key x <=? 0) eqn:E; [reflexivity|].
  apply Z.leb_gt in E. cbn [List.filter] in *. rewrite IH.
  destruct (key x =? v) eqn:Ex, (key y =? v) eqn:Ey; try reflexivity.
  apply Z.eqb_eq in Ex, Ey. lia.
Qed.

Lemma array_sort_stable (l : list A) (v : Z) :
  Forall ok l ->
  List.filter (fun a => key a =? v) (array_sort comparefn l)
  = List.filter (fun a => key a =? v) l.
Proof.
  induction l as [|x rest IH]; intros Hl; [reflexivity|].
  inversion Hl; subst. cbn [array_sort fold_right].
  rewrite sort_insert_stable; auto.
  - cbn [List.filter]. fold (array_sort comparefn rest). now rewrite IH.
  - eapply Permutation_Forall; [apply array_sort_perm | assumption].
Qed.
End ArraySortFacts.

(** ** Running the handlers *)

Section HandlerFacts.
Context `{JsRuntime}.

Lemma fetchTodos_run (r : Render) (w : World) qc acct :
  queryClient r = Some qc -> account r = Some acct ->
  fetchTodos r w =
  match listing_answer r qc acct w with
  | Ok (Some (mkResponse (Some docs))) =>
      match map_outcome parse_document docs with
      | Ok ts =>
          let sorted := array_sort compareCreatedAt ts in
          (Ok tt, refreshed w (listing_query r acct) [EvLog "Sorted todos:"]
                    sorted
                    (mkSummary (len sorted) (countCompleted sorted)
                               (len sorted - countCompleted sorted)))
      | Throw _ =>
          (Ok tt, refreshed w (listing_query r acct)
                    [EvError "Error fetching todos:"] [] zeroSummary)
      end
  | Ok _ => (Ok tt, refreshed w (listing_query r acct) [] [] zeroSummary)
  | Throw _ =>
      (Ok tt, refreshed w (listing_query r acct)
                [EvError "Error fetching todos:"] [] zeroSummary)
  end.
Proof.
  intros Hqc Hacct. unfold fetchTodos, listing_answer. rewrite Hqc, Hacct.
  unfold try_catch, bind, call_query.
  destruct (queryContractSmart qc (nquery w) _ _) as [[[[docs|]]|]|e];
    try (unfold refreshed; cbn; rewrite <- ?app_assoc; reflexivity).
  unfold lift. destruct (map_outcome parse_document docs) as [ts|e];
    unfold refreshed; cbn; rewrite <- ?app_assoc; reflexivity.
Qed.
End HandlerFacts.

(** ** Module initialisation *)

Lemma raises_index (e : gmap string string) :
  raises (index_module_init e)
  = env_missing e USER_MAP_KEY || env_missing e DOCUSTORE_KEY.
Proof.
  unfold index_module_init.
  destruct (env_missing e USER_MAP_KEY), (env_missing e DOCUSTORE_KEY);
    reflexivity.
Qed.

Lemma raises_profile (e : gmap string string) :
  raises (profile_module_init e) = env_missing e DOCUSTORE_KEY.
Proof.
  unfold profile_module_init. destruct (env_missing e DOCUSTORE_KEY); reflexivity.
Qed.

Lemma raises_settings (e : gmap string string) :
  raises (settings_module_init e) = env_missing e DOCUSTORE_KEY.
Proof.
  unfold settings_module_init. destruct (env_missing e DOCUSTORE_KEY); reflexivity.
Qed.

Lemma env_missing_other (e : gmap string string) (k k' : string) (v : string) :
  k <> k' -> env_missing (<[k := v]> e) k' = env_missing e k'.
Proof. intros Hk. unfold env_missing. now rewrite lookup_insert_ne. Qed.

Lemma env_missing_delete_other (e : gmap string string) (k k' : string) :
  k <> k' -> env_missing (delete k e) k' = env_missing e k'.
Proof. intros Hk. unfold env_missing. now rewrite lookup_delete_ne. Qed.

(** C9, as the guards are written.  Loading the three tab screens raises
    exactly when the user-map address or the document-store address is unset
    or empty: the todos screen checks both, the profile and settings screens
    check the document-store address.  The treasury address is not looked at:
    setting it, changing it or removing it changes nothing. *)
Theorem startup_guards (e : gmap string string) :
  raises (index_module_init e)
  = env_missing e USER_MAP_KEY || env_missing e DOCUSTORE_KEY
  /\ raises (profile_module_init e) = env_missing e DOCUSTORE_KEY
  /\ raises (settings_module_init e) = env_missing e DOCUSTORE_KEY
  /\ startup_raises e
     = env_missing e USER_MAP_KEY || env_missing e DOCUSTORE_KEY
  /\ (forall v, startup_raises (<[TREASURY_KEY := v]> e) = startup_raises e)
  /\ startup_raises (delete TREASURY_KEY e) = startup_raises e.
Proof.
  assert (Hs : forall e', startup_raises e'
               = env_missing e' USER_MAP_KEY || env_missing e' DOCUSTORE_KEY).
  { intros e'. unfold startup_raises.
    rewrite raises_index, raises_profile, raises_settings.
    destruct (env_missing e' USER_MAP_KEY), (env_missing e' DOCUSTORE_KEY);
      reflexivity. }
  repeat split.
  - apply raises_index.
  - apply raises_profile.
  - apply raises_settings.
  - apply Hs.
  - intros v. rewrite !Hs, !env_missing_other; [reflexivity| |]; discriminate.
  - rewrite !Hs, !env_missing_delete_other; [reflexivity| |]; discriminate.
Qed.

(** C9, as worded, fails on the guards.  With the document-store and the
    treasury addresses both set and no user-map address, the todos screen
    raises at load; and with the user-map and document-store addresses set
    and no treasury address, no guard raises. *)
Lemma startup_guards_counterexample :
  ~ fails_fast_on_store_or_treasury Demo.environment_without_user_map
  /\ ~ fails_fast_on_store_or_treasury Demo.environment_without_treasury.
Proof.
  split; intros [Hmissing Hpresent].
  - assert (E : startup_raises Demo.environment_without_user_map = false)
      by (apply Hpresent; split; vm_compute; reflexivity).
    vm_compute in E. discriminate.
  - assert (E : startup_raises Demo.environment_without_treasury = true)
      by (apply Hmissing; right; vm_compute; reflexivity).
    vm_compute in E. discriminate.
Qed.

(** ** The cache rewrites *)

Section CacheFacts.
Context `{JsRuntime}.

Lemma replaceTodo_length key payload (l : list Todo) :
  length (replaceTodo key payload l) = length l.
Proof. unfold replaceTodo. apply length_map. Qed.

Lemma replaceTodo_lookup key payload (l : list Todo) (i : nat) (t : Todo) :
  l !! i = Some t ->
  replaceTodo key payload l !! i
  = Some (if String.eqb (id t) key then payload else t).
Proof.
  intros Hi. unfold replaceTodo. rewrite list_lookup_fmap_Some.
  exists t. split; [reflexivity | exact Hi].
Qed.

Lemma truthy_boolean (t : Todo) :
  boolean_completed t -> truthy (completed t) = is_true (completed t).
Proof. intros [b Hb]. rewrite Hb. destruct b; reflexivity. Qed.

Lemma filter_truthy_boolean (l : list Todo) :
  Forall boolean_completed l ->
  List.filter (fun t => truthy (completed t)) l
  = List.filter (fun t => is_true (completed t)) l.
Proof.
  induction 1 as [|t rest Ht Hrest IH]; [reflexivity|].
  cbn [List.filter]. rewrite (truthy_boolean t Ht), IH. reflexivity.
Qed.

(** A summary computed as [fetchTodos] computes it agrees with its list. *)
Lemma summary_consistent_counted (s : ScreenState) :
  summary s = mkSummary (len (todos s)) (countCompleted (todos s))
                        (len (todos s) - countCompleted (todos s)) ->
  summary_consistent s.
Proof.
  intros Hs. unfold summary_consistent. rewrite Hs. cbn.
  repeat split; try reflexivity; try lia.
  intros Hb. unfold countCompleted. now rewrite filter_truthy_boolean.
Qed.

(** The count taken by [toggleTodo] over the old list is the count of
    completed todos of the rewritten list. *)
Lemma update_count key payload (l : list Todo) :
  len (List.filter (fun t => truthy (completed t)) (replaceTodo key payload l))
  = len (List.filter (fun t => if String.eqb (id t) key
                               then truthy (completed payload)
                               else truthy (completed t)) l).
Proof.
  unfold len, replaceTodo. f_equal.
  induction l as [|t rest IH]; [reflexivity|].
  simpl. destruct (String.eqb (id t) key).
  - destruct (truthy (completed payload)); simpl; rewrite IH; reflexivity.
  - destruct (truthy (completed t)); simpl; rewrite IH; reflexivity.
Qed.

(** The count taken by [deleteTodo] is the count of completed todos of the
    filtered list. *)
Lemma delete_count todoId (l : list Todo) :
  List.filter (fun t => truthy (completed t)) (removeTodo todoId l)
  = List.filter (fun t => negb (String.eqb (id t) todoId)
                          && truthy (completed t)) l.
Proof.
  unfold removeTodo.
  induction l as [|t rest IH]; [reflexivity|].
  simpl. destruct (String.eqb (id t) todoId); simpl.
  - exact IH.
  - destruct (truthy (completed t)); rewrite IH; reflexivity.
Qed.

(** Removing a key that occurs once shortens the list by one. *)
Lemma removeTodo_length todoId (l : list Todo) :
  len (removeTodo todoId l)
  = len l - len (List.filter (fun t => String.eqb (id t) todoId) l).
Proof.
  unfold len, removeTodo.
  induction l as [|t rest IH]; [reflexivity|].
  simpl. destruct (String.eqb (id t) todoId); simpl; lia.
Qed.

(** Runs a handler made of one mutation call inside try/catch/finally, by
    cases on the answer of the call. *)
Ltac run_mutation c w :=
  unfold try_finally, try_catch, bind, call_execute, setLoadingAction,
    modify_state; cbn;
  destruct (execute c (nexecute w) _ _ _) as [[]|?];
  unfold mutated, mutation_call; cbn; rewrite <- ?app_assoc; reflexivity.

Lemma toggleTodo_run (r : Render) (todo : Todo) (w : World) c acct :
  client r = Some c -> account r = Some acct ->
  toggleTodo r todo w =
  match mutation_answer r c acct (update_message todo) w with
  | Ok _ =>
      (Ok tt, mutated w [mutation_call r acct (update_message todo)]
                (replaceTodo (id todo) (toggled todo) (todos (snapshot r)))
                (summaryAfterUpdate (id todo) (toggled todo)
                                    (todos (snapshot r))))
  | Throw _ =>
      (Ok tt, mutated w [mutation_call r acct (update_message todo);
                         EvError "Error toggling todo:";
                         EvAlert "Error" "Failed to update todo. Please try again."]
                (todos (state w)) (summary (state w)))
  end.
Proof.
  intros Hc Hacct. unfold toggleTodo, mutation_answer, update_message.
  rewrite Hc, Hacct. run_mutation c w.
Qed.

Lemma deleteTodo_run (r : Render) (todoId : string) (w : World) c acct :
  client r = Some c -> account r = Some acct ->
  deleteTodo r todoId w =
  match mutation_answer r c acct (delete_message todoId) w with
  | Ok _ =>
      (Ok tt, mutated w [mutation_call r acct (delete_message todoId)]
                (removeTodo todoId (todos (snapshot r)))
                (summaryAfterDelete todoId (todos (snapshot r))))
  | Throw _ =>
      (Ok tt, mutated w [mutation_call r acct (delete_message todoId);
                         EvError "Error deleting todo:";
                         EvAlert "Error" "Failed to delete todo. Please try again."]
                (todos (state w)) (summary (state w)))
  end.
Proof.
  intros Hc Hacct. unfold deleteTodo, mutation_answer, delete_message.
  rewrite Hc, Hacct. run_mutation c w.
Qed.
End CacheFacts.

(** ** Refresh *)

Section RefreshFacts.
Context `{JsRuntime}.

Lemma parse_document_object (entry : string * Doc) (t : Todo) :
  deserializes entry t -> parse_document entry = Ok t.
Proof.
  destruct entry as [key doc]. intros (s & props & Hs & Hp & ->).
  unfold parse_document. cbn in Hs. rewrite Hs, Hp. reflexivity.
Qed.

Lemma map_outcome_all {A B} (f : A -> Outcome B) (l : list A) (l' : list B) :
  Forall2 (fun x y => f x = Ok y) l l' -> map_outcome f l = Ok l'.
Proof.
  induction 1 as [|x y l l' Hxy _ IH]; [reflexivity|].
  cbn. rewrite Hxy. cbn. rewrite IH. reflexivity.
Qed.

Lemma map_outcome_some_throw {A B} (f : A -> Outcome B) (l : list A) :
  Exists (fun x => exists e, f x = Throw e) l ->
  exists e, map_outcome f l = Throw e.
Proof.
  induction 1 as [x l [e He]|x l _ [e IH]]; cbn.
  - rewrite He. exists e. reflexivity.
  - destruct (f x) as [y|e']; cbn.
    + rewrite IH. exists e. reflexivity.
    + exists e'. reflexivity.
Qed.

Lemma compareCreatedAt_dated (a b : Todo) :
  dated a -> dated b -> compareCreatedAt a b = Some (timestamp b - timestamp a).
Proof.
  unfold dated, timestamp, compareCreatedAt. intros Ha Hb.
  destruct (Date_getTime (created_at a)); [|congruence].
  destruct (Date_getTime (created_at b)); [|congruence].
  reflexivity.
Qed.

Lemma alerts_app (t t' : list Event) : alerts (t ++ t') = alerts t ++ alerts t'.
Proof. unfold alerts. apply List.filter_app. Qed.

(** C1. A refresh whose listing query answers with documents that all hold
    the JSON text of an object returns normally and leaves in the cache
    exactly the todos these documents stand for (listing key as [id], the
    four payload fields), as a permutation; when every [created_at] is a
    valid date the cache is in descending order of creation time, and
    todos with the same creation time keep their listing order. *)
Theorem refresh_mirrors_listing (r : Render) (w : World) qc acct
    (docs : list (string * Doc)) (ts : list Todo) :
  queryClient r = Some qc -> account r = Some acct ->
  listing_answer r qc acct w = Ok (Some (mkResponse (Some docs))) ->
  Forall2 deserializes docs ts ->
  let cache := todos (state (snd (fetchTodos r w))) in
  fst (fetchTodos r w) = Ok tt
  /\ Permutation ts cache
  /\ (Forall dated ts ->
      StronglySorted (fun a b => timestamp b <= timestamp a) cache
      /\ forall v, List.filter (fun t => timestamp t =? v) cache
                   = List.filter (fun t => timestamp t =? v) ts).
Proof.
  intros Hqc Hacct Hq Hdocs. cbn zeta.
  rewrite (fetchTodos_run r w qc acct Hqc Hacct), Hq.
  rewrite (map_outcome_all parse_document docs ts).
  2:{ eapply Forall2_impl; [exact Hdocs|].
      intros entry t Ht. now apply parse_document_object. }
  cbn. split; [reflexivity|]. split; [apply array_sort_perm|].
  intros Hdated. split.
  - apply (array_sort_sorted compareCreatedAt timestamp dated);
      [apply compareCreatedAt_dated | exact Hdated].
  - intros v.
    apply (array_sort_stable compareCreatedAt timestamp dated);
      [apply compareCreatedAt_dated | exact Hdated].
Qed.

(** C2, as the handler is written.  When the listing query answers with
    documents and the payload of one of them fails to parse (or parses to
    [null]), the refresh does not throw: the failure is logged with
    [console.error], no alert is shown, and the whole cache is replaced by
    the empty list with a zero summary. *)
Theorem refresh_parse_failure_empties_cache (r : Render) (w : World) qc acct
    (docs : list (string * Doc)) :
  queryClient r = Some qc -> account r = Some acct ->
  listing_answer r qc acct w = Ok (Some (mkResponse (Some docs))) ->
  Exists (fun entry => exists e, parse_document entry = Throw e) docs ->
  let w' := snd (fetchTodos r w) in
  fst (fetchTodos r w) = Ok tt
  /\ todos (state w') = []
  /\ summary (state w') = zeroSummary
  /\ trace w' = trace w ++ [listing_query r acct; EvError "Error fetching todos:"]
  /\ alerts (trace w') = alerts (trace w).
Proof.
  intros Hqc Hacct Hq Hbad. cbn zeta.
  rewrite (fetchTodos_run r w qc acct Hqc Hacct), Hq.
  destruct (map_outcome_some_throw parse_document docs Hbad) as [e ->].
  cbn. repeat split. rewrite alerts_app. cbn. apply app_nil_r.
Qed.

(** C6. When the listing query throws, or answers with nothing, with no
    document list or with an empty one, the refresh returns normally with
    an empty cache and a zero summary; no alert is shown, and a thrown
    query leaves one [console.error] line in the trace. *)
Theorem refresh_failure_gives_empty (r : Render) (w : World) qc acct :
  queryClient r = Some qc -> account r = Some acct ->
  (exists e, listing_answer r qc acct w = Throw e)
  \/ listing_answer r qc acct w = Ok None
  \/ listing_answer r qc acct w = Ok (Some (mkResponse None))
  \/ listing_answer r qc acct w = Ok (Some (mkResponse (Some []))) ->
  let w' := snd (fetchTodos r w) in
  fst (fetchTodos r w) = Ok tt
  /\ todos (state w') = []
  /\ summary (state w') = zeroSummary
  /\ alerts (trace w') = alerts (trace w)
  /\ ((exists e, listing_answer r qc acct w = Throw e) ->
      trace w' = trace w ++ [listing_query r acct;
                             EvError "Error fetching todos:"]).
Proof.
  intros Hqc Hacct Hq. cbn zeta.
  rewrite (fetchTodos_run r w qc acct Hqc Hacct).
  destruct Hq as [[e Hq]|[Hq|[Hq|Hq]]]; rewrite Hq; cbn;
    rewrite alerts_app; cbn; rewrite app_nil_r;
    repeat split; try reflexivity; intros [e' He']; congruence.
Qed.
End RefreshFacts.

(** *** The refresh on concrete listings *)

Section RefreshExamples.
Import Demo.
Existing Instance Engine.runtime.

(** The scenario of the specification: one stored todo, not completed. *)
Example refresh_scenario :
  fetchTodos (render accepting (listing [stored older]) [] "") (start [] "")
  = (Ok tt, refreshed (start [] "")
              (EvQuery (Some "xion1docustore") (UserDocuments "xion1owner" "todos"))
              [EvLog "Sorted todos:"] [older] (mkSummary 1 0 1)).
Proof. vm_compute. reflexivity. Qed.

Lemma stored_deserializes (t : Todo) (props : list (string * jsval)) :
  Engine.parse (Engine.stringify (todo_to_js t)) = Some (JObj props) ->
  todo_of_object (id t) props = t ->
  deserializes (stored t) t.
Proof.
  intros Hp Ht. exists (Engine.stringify (todo_to_js t)), props.
  repeat split; [exact Hp | symmetry; exact Ht].
Qed.

Lemma refresh_mirrors_listing_witness :
  let cache :=
    todos (state (snd (fetchTodos
                         (render accepting (listing [stored older; stored newer]) [] "")
                         (start [] "")))) in
  Permutation [older; newer] cache
  /\ StronglySorted (fun a b => timestamp b <= timestamp a) cache
  /\ cache = [newer; older].
Proof.
  assert (Hdocs : Forall2 deserializes [stored older; stored newer] [older; newer]).
  { repeat constructor; eapply stored_deserializes; vm_compute; reflexivity. }
  assert (Hdated : Forall dated [older; newer]).
  { repeat constructor; vm_compute; discriminate. }
  destruct (refresh_mirrors_listing
              (render accepting (listing [stored older; stored newer]) [] "")
              (start [] "") (listing [stored older; stored newer]) owner
              [stored older; stored newer] [older; newer]
              eq_refl eq_refl eq_refl Hdocs) as (_ & Hperm & Hsorted).
  destruct (Hsorted Hdated) as [Hs _].
  split; [exact Hperm|]. split; [exact Hs|]. vm_compute. reflexivity.
Defined.

(** C2 fails as worded: the listing holds one todo that parses and one
    payload that is not JSON; the refresh returns normally but the cache
    is left empty, so the todo that parses is not in it. *)
Lemma refresh_parse_failure_counterexample :
  let r := render accepting (listing [stored older; corrupt]) [] "" in
  listing_answer r (listing [stored older; corrupt]) owner (start [] "")
  = Ok (Some (mkResponse (Some [stored older; corrupt])))
  /\ parse_document corrupt = Throw (JsError "SyntaxError" "JSON Parse error")
  /\ parse_document (stored older) = Ok older
  /\ todos (state (snd (fetchTodos r (start [] "")))) = []
  /\ ~ keeps_parseable_documents r (start [] "") [stored older; corrupt].
Proof.
  cbn zeta. repeat split; try (vm_compute; reflexivity).
  intros [_ Hkeep].
  specialize (Hkeep (stored older) older (or_introl eq_refl)).
  assert (Hp : parse_document (stored older) = Ok older)
    by (vm_compute; reflexivity).
  specialize (Hkeep Hp). vm_compute in Hkeep. exact Hkeep.
Qed.

Lemma refresh_parse_failure_empties_cache_witness :
  let w' := snd (fetchTodos (render accepting (listing [stored older; corrupt])
                                    [newer] "")
                            (start [newer] "")) in
  todos (state w') = [] /\ summary (state w') = zeroSummary
  /\ alerts (trace w') = [].
Proof.
  assert (Hbad : Exists (fun entry => exists e, parse_document entry = Throw e)
                        [stored older; corrupt]).
  { right. left. eexists. vm_compute. reflexivity. }
  destruct (refresh_parse_failure_empties_cache
              (render accepting (listing [stored older; corrupt]) [newer] "")
              (start [newer] "") (listing [stored older; corrupt]) owner
              [stored older; corrupt] eq_refl eq_refl eq_refl Hbad)
    as (_ & Hcache & Hsummary & _ & Halerts).
  split; [exact Hcache|]. split; [exact Hsummary | exact Halerts].
Defined.

Lemma refresh_failure_gives_empty_witness :
  let w' := snd (fetchTodos (render accepting unreachable [older] "")
                            (start [older] "")) in
  fst (fetchTodos (render accepting unreachable [older] "") (start [older] ""))
  = Ok tt
  /\ todos (state w') = []
  /\ trace w' = [EvQuery (Some "xion1docustore")
                         (UserDocuments "xion1owner" "todos");
                 EvError "Error fetching todos:"].
Proof.
  assert (Hq : exists e, listing_answer (render accepting unreachable [older] "")
                           unreachable owner (start [older] "") = Throw e)
    by (eexists; reflexivity).
  destruct (refresh_failure_gives_empty
              (render accepting unreachable [older] "") (start [older] "")
              unreachable owner eq_refl eq_refl (or_introl Hq))
    as (Hok & Hcache & _ & _ & Htrace).
  split; [exact Hok|]. split; [exact Hcache|]. exact (Htrace Hq).
Defined.
End RefreshExamples.

(** ** Toggle and delete *)

Section MutationFacts.
Context `{JsRuntime}.

(** C4. When the mutation call of [toggleTodo] returns, the handler
    returns normally and the cache is the list the handler's render saw
    (the [todos] of its closure) with every entry under the todo's key
    replaced by the fully updated document (the todo with [completed]
    negated, all other fields kept); the other entries and the length are
    unchanged.  This holds for every toggle, whatever the cache held when
    the handler ran, also when it ran from a render that is no longer the
    current one.  So every entry the new cache holds under the key is the
    updated document, and there is one when the todo was on the screen.
    The only remote call made is the mutation itself: no listing query is
    issued. *)
Theorem toggle_updates_cache (r : Render) (todo : Todo) (w : World) c acct :
  client r = Some c -> account r = Some acct ->
  mutation_answer r c acct (update_message todo) w = Ok tt ->
  let w' := snd (toggleTodo r todo w) in
  fst (toggleTodo r todo w) = Ok tt
  /\ (forall i t, todos (snapshot r) !! i = Some t ->
                  String.eqb (id t) (id todo) = true ->
                  todos (state w') !! i = Some (toggled todo))
  /\ (forall i t, todos (snapshot r) !! i = Some t ->
                  String.eqb (id t) (id todo) = false ->
                  todos (state w') !! i = Some t)
  /\ length (todos (state w')) = length (todos (snapshot r))
  /\ (forall t, In t (todos (state w')) -> id t = id todo ->
                t = toggled todo)
  /\ (In todo (todos (snapshot r)) -> In (toggled todo) (todos (state w')))
  /\ toggled todo = mkTodo (id todo) (title todo) (text todo)
                           (JBool (negb (truthy (completed todo))))
                           (created_at todo)
  /\ trace w' = trace w ++ [mutation_call r acct (update_message todo)]
  /\ nquery w' = nquery w.
Proof.
  intros Hc Hacct Hex. cbn zeta.
  rewrite (toggleTodo_run r todo w c acct Hc Hacct), Hex. cbn.
  split; [reflexivity|].
  split.
  { intros i t Hi Hid.
    rewrite (replaceTodo_lookup _ _ _ i t Hi), Hid. reflexivity. }
  split.
  { intros i t Hi Hid.
    rewrite (replaceTodo_lookup _ _ _ i t Hi), Hid. reflexivity. }
  split; [apply replaceTodo_length|].
  split.
  { intros t Hin Hid. unfold replaceTodo in Hin.
    apply in_map_iff in Hin. destruct Hin as (x & Hx & _).
    destruct (String.eqb (id x) (id todo)) eqn:Hkey.
    - symmetry. exact Hx.
    - subst x. apply String.eqb_neq in Hkey. contradiction. }
  split.
  { intros Hin. unfold replaceTodo.
    apply in_map_iff. exists todo.
    rewrite String.eqb_refl. split; [reflexivity | exact Hin]. }
  repeat split.
Qed.

(** C5. When the mutation call of [toggleTodo] or of [deleteTodo] throws,
    the handler catches it: the cache and the summary are what they were,
    and exactly one alert is shown to the user. *)
Theorem failed_mutation_keeps_cache (r : Render) (w : World) c acct (e : exn) :
  client r = Some c -> account r = Some acct ->
  (forall todo,
      mutation_answer r c acct (update_message todo) w = Throw e ->
      let w' := snd (toggleTodo r todo w) in
      fst (toggleTodo r todo w) = Ok tt
      /\ todos (state w') = todos (state w)
      /\ summary (state w') = summary (state w)
      /\ alerts (trace w')
         = alerts (trace w)
           ++ [EvAlert "Error" "Failed to update todo. Please try again."])
  /\ (forall todoId,
      mutation_answer r c acct (delete_message todoId) w = Throw e ->
      let w' := snd (deleteTodo r todoId w) in
      fst (deleteTodo r todoId w) = Ok tt
      /\ todos (state w') = todos (state w)
      /\ summary (state w') = summary (state w)
      /\ alerts (trace w')
         = alerts (trace w)
           ++ [EvAlert "Error" "Failed to delete todo. Please try again."]).
Proof.
  intros Hc Hacct. split.
  - intros todo Hex. cbn zeta.
    rewrite (toggleTodo_run r todo w c acct Hc Hacct), Hex. cbn.
    rewrite alerts_app. repeat split.
  - intros todoId Hex. cbn zeta.
    rewrite (deleteTodo_run r todoId w c acct Hc Hacct), Hex. cbn.
    rewrite alerts_app. repeat split.
Qed.

Lemma update_count_again key payload (l : list Todo) :
  let counted t := if String.eqb (id t) key
                   then truthy (completed payload)
                   else truthy (completed t) in
  List.filter counted (replaceTodo key payload l)
  = replaceTodo key payload (List.filter counted l).
Proof.
  cbn zeta. unfold replaceTodo.
  induction l as [|t rest IH]; [reflexivity|].
  simpl. destruct (String.eqb (id t) key) eqn:E.
  - destruct (String.eqb (id payload) key);
      destruct (truthy (completed payload)); simpl; rewrite ?E, IH;
      reflexivity.
  - rewrite E. destruct (truthy (completed t)); simpl; rewrite ?E, IH;
      reflexivity.
Qed.

(** C8. The cache rewrite of an update is idempotent: done twice with the
    same key and the same payload it gives the list it gives when done
    once; so does the summary that goes with it. *)
Theorem update_cache_idempotent (key : string) (payload : Todo) (l : list Todo) :
  replaceTodo key payload (replaceTodo key payload l)
  = replaceTodo key payload l
  /\ summaryAfterUpdate key payload (replaceTodo key payload l)
     = summaryAfterUpdate key payload l.
Proof.
  split.
  - unfold replaceTodo. induction l as [|t rest IH]; [reflexivity|].
    simpl. rewrite IH. f_equal.
    destruct (String.eqb (id t) key) eqn:E; [|now rewrite E].
    destruct (String.eqb (id payload) key); reflexivity.
  - unfold summaryAfterUpdate.
    pose proof (update_count_again key payload l) as Hc. cbn zeta in Hc.
    rewrite Hc. unfold len. rewrite !replaceTodo_length. reflexivity.
Qed.

Lemma summary_consistent_refreshed (w : World) q log (l : list Todo) :
  summary_consistent
    (state (refreshed w q log l
              (mkSummary (len l) (countCompleted l) (len l - countCompleted l)))).
Proof. apply summary_consistent_counted. reflexivity. Qed.

(** C10. After a refresh (whatever the listing query answered), after a
    toggle whose mutation call returned, and after a delete whose mutation
    call returned and whose key was in the cache exactly once, the summary
    agrees with the cache: completed + pending = total, total is the
    number of cached todos, and completed is the number of cached todos
    whose [completed] is truthy, which is the number of those whose
    [completed] is [true] when the field holds a boolean in every todo. *)
Theorem summary_matches_cache (r : Render) (w : World) :
  (forall qc acct,
      queryClient r = Some qc -> account r = Some acct ->
      summary_consistent (state (snd (fetchTodos r w))))
  /\ (forall c acct todo,
      client r = Some c -> account r = Some acct ->
      mutation_answer r c acct (update_message todo) w = Ok tt ->
      summary_consistent (state (snd (toggleTodo r todo w))))
  /\ (forall c acct todoId,
      client r = Some c -> account r = Some acct ->
      mutation_answer r c acct (delete_message todoId) w = Ok tt ->
      length (List.filter (fun t => String.eqb (id t) todoId)
                          (todos (snapshot r))) = 1%nat ->
      summary_consistent (state (snd (deleteTodo r todoId w)))).
Proof.
  split; [|split].
  - intros qc acct Hqc Hacct.
    rewrite (fetchTodos_run r w qc acct Hqc Hacct).
    destruct (listing_answer r qc acct w) as [[[[docs|]]|]|e];
      try (apply (summary_consistent_refreshed w _ _ [])).
    destruct (map_outcome parse_document docs) as [ts|e].
    + apply summary_consistent_refreshed.
    + apply (summary_consistent_refreshed w _ _ []).
  - intros c acct todo Hc Hacct Hex.
    rewrite (toggleTodo_run r todo w c acct Hc Hacct), Hex.
    apply summary_consistent_counted. cbn. unfold summaryAfterUpdate.
    unfold countCompleted. rewrite update_count.
    unfold len. rewrite replaceTodo_length. reflexivity.
  - intros c acct todoId Hc Hacct Hex Honce.
    rewrite (deleteTodo_run r todoId w c acct Hc Hacct), Hex.
    apply summary_consistent_counted. cbn. unfold summaryAfterDelete.
    unfold countCompleted. rewrite delete_count, removeTodo_length.
    assert (Hone : len (List.filter (fun t => String.eqb (id t) todoId)
                                    (todos (snapshot r))) = 1)
      by (unfold len; rewrite Honce; reflexivity).
    rewrite Hone. reflexivity.
Qed.
End MutationFacts.

(** ** Create *)

Lemma bind_ok {A B} (m : M A) (k : A -> M B) (w w1 : World) (a : A) :
  m w = (Ok a, w1) -> bind m k w = k a w1.
Proof. intros Hm. unfold bind. now rewrite Hm. Qed.

Lemma bind_throw {A B} (m : M A) (k : A -> M B) (w w1 : World) (e : exn) :
  m w = (Throw e, w1) -> bind m k w = (Throw e, w1).
Proof. intros Hm. unfold bind. now rewrite Hm. Qed.

Lemma timeline_app (t t' : list Event) :
  timeline (t ++ t') = timeline t ++ timeline t'.
Proof. unfold timeline. apply List.filter_app. Qed.

Lemma poll_timeline_next (q : Event) (k : nat) :
  (1 <= k)%nat ->
  q :: EvSleep 2000 :: poll_timeline q k = poll_timeline q (S k).
Proof. destruct k; [lia | reflexivity]. Qed.

Section CreateFacts.
Context `{JsRuntime}.
Context (qc : QueryClient) (address : option string) (owner todoId : string).

Let q : Event := EvQuery address (UserDocuments owner "todos").
Let sees : nat -> bool := poll_sees qc address owner todoId.

(** The confirmation loop with [rem] iterations left makes between one and
    [rem] polls, two seconds apart, stops at the first poll that shows the
    key, touches neither the state nor the alerts, and never throws. *)
Lemma confirmation_loop_polls (rem : nat) :
  forall w, (1 <= rem <= poll_maxRetries)%nat ->
  exists w' k,
    confirmation_loop qc address owner todoId rem w = (Ok tt, w')
    /\ (1 <= k <= rem)%nat
    /\ state w' = state w
    /\ nquery w' = (nquery w + k)%nat
    /\ nexecute w' = nexecute w
    /\ timeline (trace w') = timeline (trace w) ++ poll_timeline q k
    /\ alerts (trace w') = alerts (trace w)
    /\ (forall j, (j < k - 1)%nat -> sees (nquery w + j)%nat = false)
    /\ (sees (nquery w + (k - 1))%nat = true \/ k = rem).
Proof.
  induction rem as [|rem IH]; intros w Hrem; [lia|].
  cbn [confirmation_loop].
  set (w1 log := mkWorld (state w) (S (nquery w)) (nexecute w) (noperation w)
                         (nclock w) (trace w ++ q :: log)).
  assert (Hstep : exists log,
    try_catch
      (response <- call_query qc address (UserDocuments owner "todos");;
       match response with
       | Some (mkResponse (Some docs)) => ret (listed todoId docs)
       | _ => ret false
       end)
      (fun _ =>
         console_log ("Attempt " ++ pretty (poll_maxRetries - S rem + 1)%nat
                      ++ " failed:");;;
         ret false) w
    = (Ok (sees (nquery w)), w1 log)
    /\ timeline log = [] /\ alerts log = []).
  { unfold try_catch, bind, call_query, sees, poll_sees, w1, q.
    destruct (queryContractSmart qc (nquery w) address _)
      as [[[[docs|]]|]|e]; cbn.
    - exists nil. repeat split.
    - exists nil. repeat split.
    - exists nil. repeat split.
    - eexists (cons _ nil). rewrite <- app_assoc. repeat split. }
  destruct Hstep as (log & Hstep & Htl & Hal).
  rewrite (bind_ok _ _ _ _ _ Hstep).
  assert (Htl1 : timeline (trace (w1 log)) = timeline (trace w) ++ [q]).
  { unfold w1. cbn [trace]. rewrite timeline_app.
    change (q :: log) with ([q] ++ log). rewrite timeline_app, Htl.
    now rewrite app_nil_r. }
  assert (Hal1 : alerts (trace (w1 log)) = alerts (trace w)).
  { unfold w1. cbn [trace]. rewrite alerts_app.
    change (q :: log) with ([q] ++ log). rewrite alerts_app, Hal.
    cbn. now rewrite app_nil_r. }
  destruct (sees (nquery w)) eqn:Hsees.
  - exists (w1 log), 1%nat. repeat split; try (cbn; lia); auto.
    left. now rewrite Nat.add_0_r.
  - destruct rem as [|rem'].
    + exists (w1 log), 1%nat. unfold poll_maxRetries in *. cbn.
      repeat split; try lia; auto.
    + assert (Hlt : (S (poll_maxRetries - S (S rem')) <? poll_maxRetries)%nat
                    = true) by (apply Nat.ltb_lt; unfold poll_maxRetries in *; lia).
      rewrite Hlt.
      set (w2 := mkWorld (state w) (S (nquery w)) (nexecute w) (noperation w)
                         (nclock w) (trace (w1 log) ++ [EvSleep poll_delay])).
      assert (Hsleep : sleep poll_delay (w1 log) = (Ok tt, w2)) by reflexivity.
      rewrite (bind_ok _ _ _ _ _ Hsleep).
      destruct (IH w2) as (w' & k & Hrun & Hk & Hst & Hnq & Hne & Htl' & Hal'
                           & Hbefore & Hlast); [lia|].
      exists w', (S k). rewrite Hrun. repeat split; try lia.
      * exact Hst.
      * rewrite Hnq. cbn. lia.
      * exact Hne.
      * rewrite Htl'. unfold w2. cbn [trace]. rewrite timeline_app, Htl1.
        cbn. rewrite <- !app_assoc. cbn.
        now rewrite poll_timeline_next by lia.
      * rewrite Hal'. unfold w2. cbn [trace]. rewrite alerts_app, Hal1.
        cbn. now rewrite app_nil_r.
      * intros j Hj. destruct j as [|j].
        -- now rewrite Nat.add_0_r.
        -- specialize (Hbefore j). cbn [nquery w2] in Hbefore.
           replace (nquery w + S j)%nat with (S (nquery w) + j)%nat by lia.
           apply Hbefore. lia.
      * destruct Hlast as [Hlast|Hlast]; [left|right; lia].
        cbn [nquery w2] in Hlast.
        replace (nquery w + (S k - 1))%nat with (S (nquery w) + (k - 1))%nat
          by lia.
        exact Hlast.
Qed.
End CreateFacts.

Lemma try_catch_ok {A} (m : M A) (h : exn -> M A) (w w1 : World) (a : A) :
  m w = (Ok a, w1) -> try_catch m h w = (Ok a, w1).
Proof. intros Hm. unfold try_catch. now rewrite Hm. Qed.

Lemma try_catch_throw {A} (m : M A) (h : exn -> M A) (w w1 : World) (e : exn) :
  m w = (Throw e, w1) -> try_catch m h w = h e w1.
Proof. intros Hm. unfold try_catch. now rewrite Hm. Qed.

Lemma try_finally_run {A} (m : M A) (f : M unit) (w w1 w2 : World)
    (o : Outcome A) :
  m w = (o, w1) -> f w1 = (Ok tt, w2) -> try_finally m f w = (o, w2).
Proof. intros Hm Hf. unfold try_finally. now rewrite Hm, Hf. Qed.

Section AddTodoFacts.
Context `{JsRuntime}.

(** A refresh never throws; it makes one listing query, shows no alert
    and leaves the counters of the other collaborators alone. *)
Lemma fetchTodos_effect (r : Render) (w : World) qc acct :
  queryClient r = Some qc -> account r = Some acct ->
  exists w',
    fetchTodos r w = (Ok tt, w')
    /\ timeline (trace w') = timeline (trace w) ++ [listing_query r acct]
    /\ alerts (trace w') = alerts (trace w)
    /\ nquery w' = S (nquery w)
    /\ newTodoText (state w') = newTodoText (state w).
Proof.
  intros Hqc Hacct. rewrite (fetchTodos_run r w qc acct Hqc Hacct).
  destruct (listing_answer r qc acct w) as [[[[docs|]]|]|e];
    [destruct (map_outcome parse_document docs) as [ts|e]| | |];
    eexists; (split; [reflexivity|]);
    unfold refreshed; cbn [trace nquery state newTodoText];
    rewrite timeline_app, alerts_app; cbn; rewrite ?app_nil_r; auto.
Qed.

Lemma addTodo_run (r : Render) (w : World) c acct qc :
  client r = Some c -> account r = Some acct -> queryClient r = Some qc ->
  String_trim (newTodoText (snapshot r)) <> "" ->
  addTodo r w =
  try_finally
    (try_catch
       (call_execute c (bech32Address acct) (env r !! DOCUSTORE_KEY)
                     (set_message r w);;;
        confirmation_loop qc (env r !! DOCUSTORE_KEY) (bech32Address acct)
                          (id (new_todo r w)) poll_maxRetries;;;
        setNewTodoText "";;;
        fetchTodos r)
       (fun _ =>
          console_error "Error adding todo:";;;
          Alert_alert "Error" "Failed to add todo. Please try again."))
    (setLoading false) (entering w).
Proof.
  intros Hc Hacct Hqc Htext. unfold addTodo. rewrite Hc, Hacct, Hqc.
  destruct (String.eqb (String_trim (newTodoText (snapshot r))) "") eqn:E;
    [apply String.eqb_eq in E; contradiction|].
  reflexivity.
Qed.

(** C3. [addTodo] always returns normally.  When the mutation call
    returns, the handler polls the listing [k] times, with 1 <= k <= 10 and
    two seconds between two polls, stopping at the first poll that shows
    the new key or after the tenth; it then makes exactly one more listing
    query (the final refresh) and shows no alert.  When the mutation call
    throws, no listing query is made and one alert is shown. *)
Theorem create_polls_then_refreshes (r : Render) (w : World) c acct qc :
  client r = Some c -> account r = Some acct -> queryClient r = Some qc ->
  String_trim (newTodoText (snapshot r)) <> "" ->
  let w' := snd (addTodo r w) in
  let sees := poll_sees qc (env r !! DOCUSTORE_KEY) (bech32Address acct)
                        (id (new_todo r w)) in
  fst (addTodo r w) = Ok tt
  /\ (mutation_answer r c acct (set_message r w) w = Ok tt ->
      exists k,
        (1 <= k <= 10)%nat
        /\ timeline (trace w')
           = timeline (trace w)
             ++ mutation_call r acct (set_message r w)
                :: poll_timeline (listing_query r acct) k
             ++ [listing_query r acct]
        /\ (forall j, (j < k - 1)%nat -> sees (nquery w + j)%nat = false)
        /\ (sees (nquery w + (k - 1))%nat = true \/ k = 10%nat)
        /\ alerts (trace w') = alerts (trace w))
  /\ (forall e,
      mutation_answer r c acct (set_message r w) w = Throw e ->
      timeline (trace w')
      = timeline (trace w) ++ [mutation_call r acct (set_message r w)]
      /\ alerts (trace w')
         = alerts (trace w)
           ++ [EvAlert "Error" "Failed to add todo. Please try again."]
      /\ todos (state w') = todos (state w)).
Proof.
  intros Hc Hacct Hqc Htext. cbn zeta.
  rewrite (addTodo_run r w c acct qc Hc Hacct Hqc Htext).
  set (w1 := mkWorld (state (entering w)) (nquery w) (S (nexecute w))
                     (noperation w) (S (S (nclock w)))
                     (trace w ++ [mutation_call r acct (set_message r w)])).
  assert (Hcall : call_execute c (bech32Address acct) (env r !! DOCUSTORE_KEY)
                    (set_message r w) (entering w)
                  = (mutation_answer r c acct (set_message r w) w, w1))
    by reflexivity.
  destruct (mutation_answer r c acct (set_message r w) w) as [[]|e] eqn:Hex.
  - destruct (confirmation_loop_polls qc (env r !! DOCUSTORE_KEY)
                (bech32Address acct) (id (new_todo r w)) poll_maxRetries w1)
      as (w2 & k & Hloop & Hk & Hst & Hnq & Hne & Htl & Hal & Hbefore & Hlast);
      [unfold poll_maxRetries; lia|].
    set (w3 := mkWorld (mkState (loading (state w2)) (loadingAction (state w2))
                                (refreshing (state w2)) (todos (state w2))
                                (summary (state w2)) "")
                       (nquery w2) (nexecute w2) (noperation w2) (nclock w2)
                       (trace w2)).
    assert (Hclear : setNewTodoText "" w2 = (Ok tt, w3)) by reflexivity.
    destruct (fetchTodos_effect r w3 qc acct Hqc Hacct)
      as (w4 & Hfetch & Htl4 & Hal4 & Hnq4 & Htext4).
    assert (Hbody :
      (call_execute c (bech32Address acct) (env r !! DOCUSTORE_KEY)
                    (set_message r w);;;
       confirmation_loop qc (env r !! DOCUSTORE_KEY) (bech32Address acct)
                         (id (new_todo r w)) poll_maxRetries;;;
       setNewTodoText "";;;
       fetchTodos r) (entering w) = (Ok tt, w4)).
    { rewrite (bind_ok _ _ _ _ _ Hcall), (bind_ok _ _ _ _ _ Hloop),
        (bind_ok _ _ _ _ _ Hclear). exact Hfetch. }
    erewrite try_finally_run;
      [|apply try_catch_ok; exact Hbody | reflexivity].
    cbn [fst snd]. split; [reflexivity|].
    split; [|intros e He; discriminate].
    intros _. exists k. unfold poll_maxRetries in Hk, Hlast.
    split; [exact Hk|].
    cbn [trace setLoading modify_state].
    rewrite Htl4, Hal4. cbn [trace w3]. rewrite Htl, Hal.
    unfold w1 in *. cbn [trace nquery] in *.
    rewrite timeline_app, alerts_app. cbn.
    rewrite app_nil_r, <- !app_assoc.
    repeat split; auto.
  - erewrite try_finally_run;
      [|erewrite try_catch_throw;
        [reflexivity | rewrite (bind_throw _ _ _ _ _ Hcall); reflexivity]
       | reflexivity].
    cbn [fst snd]. split; [reflexivity|].
    split; [intros He; discriminate|].
    intros e' _. cbn.
    rewrite !timeline_app, !alerts_app. cbn. rewrite ?app_nil_r.
    repeat split.
Qed.
End AddTodoFacts.

(** ** The retry primitive *)

Section RetryFacts.
Context {T : Type} (outcomes : nat -> Outcome T) (n : nat) (delay : Z).
Context (first : nat).

Let operation : M T := operation_of outcomes.

Lemma retry_loop_step (rem i : nat) (lastError : exn) :
  retry_loop operation n delay (S rem) i lastError
  = try_catch operation
      (fun error =>
         console_log ("Attempt " ++ pretty (i + 1)%nat ++ " failed:");;;
         (if Z.of_nat i <? Z.of_nat n - 1
          then sleep (delay * 2 ^ Z.of_nat i)
          else ret tt);;;
         retry_loop operation n delay rem (S i) error).
Proof. reflexivity. Qed.

Lemma retry_loop_succeeds (k : nat) (v : T) :
  forall rem i lastError w,
    (i + rem = n)%nat -> (k < rem)%nat -> noperation w = (first + i)%nat ->
    (forall j, (j < k)%nat -> exists e, outcomes (first + i + j)%nat = Throw e) ->
    outcomes (first + i + k)%nat = Ok v ->
    retry_loop operation n delay rem i lastError w
    = (Ok v, attempted w (S k)
               (failed_attempts delay first i k
                ++ [EvOperation (first + i + k)])).
Proof.
  induction k as [|k IH]; intros rem i lastError w Hn Hk Hw Hfail Hok;
    (destruct rem as [|rem]; [lia|]); rewrite retry_loop_step;
    unfold try_catch, operation, operation_of; rewrite Hw.
  - rewrite Nat.add_0_r in Hok. rewrite Hok. unfold attempted. cbn.
    rewrite Hw, !Nat.add_0_r. do 2 f_equal. lia.
  - destruct (Hfail 0%nat ltac:(lia)) as [e He].
    rewrite Nat.add_0_r in He. rewrite He.
    assert (Hlt : (Z.of_nat i <? Z.of_nat n - 1) = true)
      by (apply Z.ltb_lt; lia).
    unfold bind at 1. cbn [console_log emit]. unfold bind at 1. rewrite Hlt.
    cbn [sleep emit].
    rewrite (IH rem (S i) e); cbn [noperation trace state nquery nexecute nclock];
      try lia.
    + unfold attempted. cbn. rewrite Hw, <- !app_assoc. cbn.
      replace (first + S i + k)%nat with (first + i + S k)%nat by lia.
      do 2 f_equal. lia.
    + intros j Hj. destruct (Hfail (S j) ltac:(lia)) as [e' He'].
      exists e'. rewrite <- He'. f_equal. lia.
    + rewrite <- Hok. f_equal. lia.
Qed.

Lemma retry_loop_exhausts (e : exn) :
  forall rem i lastError w,
    (i + S rem = n)%nat -> noperation w = (first + i)%nat ->
    (forall j, (j < S rem)%nat -> exists e', outcomes (first + i + j)%nat = Throw e') ->
    outcomes (first + i + rem)%nat = Throw e ->
    retry_loop operation n delay (S rem) i lastError w
    = (Throw e, attempted w (S rem)
                  (failed_attempts delay first i rem
                   ++ [EvOperation (first + i + rem);
                       EvLog ("Attempt " ++ pretty (i + rem + 1)%nat
                              ++ " failed:")])).
Proof.
  induction rem as [|rem IH]; intros i lastError w Hn Hw Hfail Hlast;
    rewrite retry_loop_step; unfold try_catch, operation, operation_of;
    rewrite Hw.
  - rewrite Nat.add_0_r in Hlast. rewrite Hlast.
    assert (Hge : (Z.of_nat i <? Z.of_nat n - 1) = false)
      by (apply Z.ltb_ge; lia).
    unfold bind at 1. cbn [console_log emit]. unfold bind at 1. rewrite Hge.
    unfold attempted. cbn. rewrite Hw, !Nat.add_0_r, <- app_assoc.
    do 2 f_equal. lia.
  - destruct (Hfail 0%nat ltac:(lia)) as [e0 He0].
    rewrite Nat.add_0_r in He0. rewrite He0.
    assert (Hlt : (Z.of_nat i <? Z.of_nat n - 1) = true)
      by (apply Z.ltb_lt; lia).
    unfold bind at 1. cbn [console_log emit]. unfold bind at 1. rewrite Hlt.
    cbn [sleep emit].
    rewrite (IH (S i) e0); cbn [noperation trace state nquery nexecute nclock];
      try lia.
    + unfold attempted. cbn. rewrite Hw, <- !app_assoc. cbn.
      replace (first + S i + rem)%nat with (first + i + S rem)%nat by lia.
      replace (S (i + rem + 1)) with (i + S rem + 1)%nat by lia.
      do 2 f_equal. lia.
    + intros j Hj. destruct (Hfail (S j) ltac:(lia)) as [e' He'].
      exists e'. rewrite <- He'. f_equal. lia.
    + rewrite <- Hlast. f_equal. lia.
Qed.
End RetryFacts.

(** C7. [retryOperation] with [n >= 1] attempts and base delay [d], run on
    an operation whose invocations have the outcomes [outcomes first],
    [outcomes (first+1)], ...: when the first [k < n] invocations throw and
    the next one returns [v], it returns [v] after [k+1] invocations, having
    logged each failure and slept [d * 2^i] after the [i]-th one
    (i = 0, ..., k-1); when all [n] invocations throw, it throws what the
    last one threw, after exactly [n] invocations, with the same log and
    sleeps after the first [n-1] failures and no sleep after the last. *)
Theorem retry_backoff {T : Type} (outcomes : nat -> Outcome T) (n : nat) (d : Z)
    (w : World) :
  (1 <= n)%nat ->
  let first := noperation w in
  let run := retryOperation (operation_of outcomes) n d w in
  (forall k v,
      (k < n)%nat ->
      (forall j, (j < k)%nat -> exists e, outcomes (first + j)%nat = Throw e) ->
      outcomes (first + k)%nat = Ok v ->
      fst run = Ok v
      /\ trace (snd run)
         = trace w ++ failed_attempts d first 0 k ++ [EvOperation (first + k)]
      /\ noperation (snd run) = (first + (k + 1))%nat)
  /\ (forall e,
      (forall j, (j < n)%nat -> exists e', outcomes (first + j)%nat = Throw e') ->
      outcomes (first + (n - 1))%nat = Throw e ->
      fst run = Throw e
      /\ trace (snd run)
         = trace w ++ failed_attempts d first 0 (n - 1)
           ++ [EvOperation (first + (n - 1));
               EvLog ("Attempt " ++ pretty n ++ " failed:")]
      /\ noperation (snd run) = (first + n)%nat).
Proof.
  intros Hn. cbn zeta. unfold retryOperation. split.
  - intros k v Hk Hfail Hok.
    rewrite (retry_loop_succeeds outcomes n d (noperation w) k v);
      try lia.
    + cbn. rewrite !Nat.add_0_r. repeat split; lia.
    + intros j Hj. rewrite Nat.add_0_r. now apply Hfail.
    + rewrite Nat.add_0_r. exact Hok.
  - intros e Hfail Hlast. destruct n as [|m]; [lia|].
    replace (S m - 1)%nat with m in * by lia.
    rewrite (retry_loop_exhausts outcomes (S m) d (noperation w) e);
      try lia.
    + cbn. rewrite !Nat.add_0_r. replace (m + 1)%nat with (S m) by lia.
      repeat split; lia.
    + intros j Hj. rewrite Nat.add_0_r. now apply Hfail.
    + rewrite Nat.add_0_r. exact Hlast.
Qed.

(** ** The handlers on concrete inputs *)

Section HandlerExamples.
Import Demo.
Existing Instance Engine.runtime.

(** The scenario of the specification, second half: toggling the todo
    ["42"] shows it completed at once. *)
Example toggle_scenario :
  todos (state (snd (toggleTodo (render accepting (listing []) [older] "")
                                older (start [older] ""))))
  = [mkTodo "42" (JStr "x") (JStr "x") (JBool true)
            (JStr "2024-01-01T00:00:00Z")].
Proof. vm_compute. reflexivity. Qed.

Lemma toggle_updates_cache_witness :
  let w' := snd (toggleTodo (render accepting (listing []) [older; newer] "")
                            older (start [older; newer] "")) in
  let stale := snd (toggleTodo (render accepting (listing []) [older; newer] "")
                               newer (start [toggled older; newer] "")) in
  (todos (state w') !! 0%nat = Some (toggled older)
   /\ todos (state w') !! 1%nat = Some newer
   /\ nquery w' = 0%nat)
  /\ (todos (state stale) !! 1%nat = Some (toggled newer)
      /\ In (toggled newer) (todos (state stale))
      /\ nquery stale = 0%nat).
Proof.
  split.
  - destruct (toggle_updates_cache
                (render accepting (listing []) [older; newer] "") older
                (start [older; newer] "") accepting owner
                eq_refl eq_refl eq_refl)
      as (_ & Hhit & Hmiss & _ & _ & _ & _ & _ & Hnq).
    split; [apply (Hhit 0%nat older); reflexivity|].
    split; [apply (Hmiss 1%nat newer); reflexivity | exact Hnq].
  - destruct (toggle_updates_cache
                (render accepting (listing []) [older; newer] "") newer
                (start [toggled older; newer] "") accepting owner
                eq_refl eq_refl eq_refl)
      as (_ & Hhit & _ & _ & _ & Hin & _ & _ & Hnq).
    split; [apply (Hhit 1%nat newer); reflexivity|].
    split; [apply Hin; simpl; right; left; reflexivity | exact Hnq].
Defined.

Lemma failed_mutation_keeps_cache_witness :
  let r := render rejecting (listing []) [older; newer] "" in
  let w := start [older; newer] "" in
  (todos (state (snd (toggleTodo r older w))) = [older; newer]
   /\ alerts (trace (snd (toggleTodo r older w)))
      = [EvAlert "Error" "Failed to update todo. Please try again."])
  /\ (todos (state (snd (deleteTodo r "43" w))) = [older; newer]
      /\ alerts (trace (snd (deleteTodo r "43" w)))
         = [EvAlert "Error" "Failed to delete todo. Please try again."]).
Proof.
  destruct (failed_mutation_keeps_cache
              (render rejecting (listing []) [older; newer] "")
              (start [older; newer] "") rejecting owner
              (JsError "Error" "out of gas") eq_refl eq_refl)
    as [Htoggle Hdelete].
  split.
  - destruct (Htoggle older eq_refl) as (_ & Hcache & _ & Halert).
    split; [exact Hcache | exact Halert].
  - destruct (Hdelete "43" eq_refl) as (_ & Hcache & _ & Halert).
    split; [exact Hcache | exact Halert].
Defined.

Lemma summary_matches_cache_witness :
  let r := render accepting (listing [stored older; stored newer])
                  [older; newer] "" in
  let w := start [older; newer] "" in
  summary_consistent (state (snd (fetchTodos r w)))
  /\ summary_consistent (state (snd (toggleTodo r older w)))
  /\ summary_consistent (state (snd (deleteTodo r "43" w))).
Proof.
  destruct (summary_matches_cache
              (render accepting (listing [stored older; stored newer])
                      [older; newer] "")
              (start [older; newer] ""))
    as (Hfetch & Htoggle & Hdelete).
  split; [exact (Hfetch _ owner eq_refl eq_refl)|].
  split; [exact (Htoggle accepting owner older eq_refl eq_refl eq_refl)|].
  exact (Hdelete accepting owner "43" eq_refl eq_refl eq_refl eq_refl).
Defined.

(** The summaries these three operations leave. *)
Example summaries_scenario :
  let r := render accepting (listing [stored older; stored newer])
                  [older; newer] "" in
  let w := start [older; newer] "" in
  summary (state (snd (fetchTodos r w))) = mkSummary 2 1 1
  /\ summary (state (snd (toggleTodo r older w))) = mkSummary 2 2 0
  /\ summary (state (snd (deleteTodo r "43" w))) = mkSummary 1 0 1.
Proof. vm_compute. repeat split. Qed.

(** A create whose key shows up at the fourth poll: four polls, three
    waits, the final refresh, no alert. *)
Example create_scenario :
  let r := render accepting (visible_after 3 [] [created]) [] "  buy milk " in
  let w' := snd (addTodo r (start [] "  buy milk ")) in
  let q := EvQuery (Some "xion1docustore") (UserDocuments "xion1owner" "todos") in
  timeline (trace w')
  = [EvExecute "xion1owner" (Some "xion1docustore")
               (MsgSet "todos" "1704067200000" (data_text created));
     q; EvSleep 2000; q; EvSleep 2000; q; EvSleep 2000; q; q]
  /\ alerts (trace w') = []
  /\ List.map id (todos (state w')) = ["1704067200000"].
Proof. vm_compute. repeat split. Qed.

Lemma create_polls_then_refreshes_witness :
  let r := render accepting (visible_after 3 [] [created]) [] "  buy milk " in
  let w := start [] "  buy milk " in
  fst (addTodo r w) = Ok tt
  /\ exists k, (1 <= k <= 10)%nat
               /\ timeline (trace (snd (addTodo r w)))
                  = timeline (trace w)
                    ++ mutation_call r owner (set_message r w)
                       :: poll_timeline (listing_query r owner) k
                    ++ [listing_query r owner]
               /\ alerts (trace (snd (addTodo r w))) = alerts (trace w).
Proof.
  assert (Htext : String_trim "  buy milk " <> "")
    by (vm_compute; discriminate).
  destruct (create_polls_then_refreshes
              (render accepting (visible_after 3 [] [created]) [] "  buy milk ")
              (start [] "  buy milk ") accepting owner
              (visible_after 3 [] [created]) eq_refl eq_refl eq_refl Htext)
    as (Hok & Hsuccess & _).
  split; [exact Hok|].
  destruct (Hsuccess eq_refl) as (k & Hk & Htl & _ & _ & Hal).
  exists k. split; [exact Hk|]. split; [exact Htl | exact Hal].
Defined.

(** A create whose key never shows up: ten polls, nine waits, the final
    refresh, no alert, and the handler returns normally. *)
Example create_budget_exhausted :
  let r := render accepting (listing []) [] "buy milk" in
  let run := addTodo r (start [] "buy milk") in
  let q := EvQuery (Some "xion1docustore") (UserDocuments "xion1owner" "todos") in
  fst run = Ok tt
  /\ List.tl (timeline (trace (snd run)))
     = poll_timeline q 10 ++ [q]
  /\ alerts (trace (snd run)) = [].
Proof. vm_compute. repeat split. Qed.

Lemma retry_backoff_witness :
  (fst (retryOperation (operation_of (flaky 2 7)) 3 1000 (start [] "")) = Ok 7
   /\ trace (snd (retryOperation (operation_of (flaky 2 7)) 3 1000 (start [] "")))
      = [EvOperation 0; EvLog "Attempt 1 failed:"; EvSleep 1000;
         EvOperation 1; EvLog "Attempt 2 failed:"; EvSleep 2000;
         EvOperation 2])
  /\ (fst (retryOperation (operation_of (flaky 5 7)) 3 1000 (start [] ""))
      = Throw (JsError "Error" "timeout 2")
      /\ trace (snd (retryOperation (operation_of (flaky 5 7)) 3 1000
                                    (start [] "")))
         = [EvOperation 0; EvLog "Attempt 1 failed:"; EvSleep 1000;
            EvOperation 1; EvLog "Attempt 2 failed:"; EvSleep 2000;
            EvOperation 2; EvLog "Attempt 3 failed:"]).
Proof.
  split.
  - destruct (retry_backoff (flaky 2 7) 3 1000 (start [] "") ltac:(lia))
      as [Hsucc _].
    destruct (Hsucc 2%nat 7 ltac:(lia)) as (Hv & Ht & _).
    + intros j Hj. destruct j as [|[|j]]; [eexists; reflexivity ..|lia].
    + reflexivity.
    + split; [exact Hv | exact Ht].
  - destruct (retry_backoff (flaky 5 7) 3 1000 (start [] "") ltac:(lia))
      as [_ Hfail].
    destruct (Hfail (JsError "Error" "timeout 2")) as (Hv & Ht & _).
    + intros j Hj. destruct j as [|[|[|j]]]; [eexists; reflexivity ..|lia].
    + reflexivity.
    + split; [exact Hv | exact Ht].
Defined.
End HandlerExamples.

(** ** Further properties of the todos screen *)

Lemma slept_app (t t' : list Event) : slept (t ++ t') = slept t + slept t'.
Proof.
  induction t as [|e t IH]; [reflexivity|].
  destruct e; cbn; rewrite IH; lia.
Qed.

Lemma mutations_app (t t' : list Event) :
  mutations (t ++ t') = mutations t ++ mutations t'.
Proof. unfold mutations. apply List.filter_app. Qed.

Lemma slept_timeline (t : list Event) : slept (timeline t) = slept t.
Proof.
  unfold timeline. induction t as [|e t IH]; [reflexivity|].
  destruct e; cbn; rewrite ?IH; reflexivity.
Qed.

Lemma mutations_timeline (t : list Event) : mutations (timeline t) = mutations t.
Proof.
  unfold mutations, timeline. induction t as [|e t IH]; [reflexivity|].
  destruct e; cbn; rewrite ?IH; reflexivity.
Qed.

Section FurtherRefreshFacts.
Context `{JsRuntime}.

Lemma fetchTodos_quiet (r : Render) (w : World) :
  let w' := snd (fetchTodos r w) in
  fst (fetchTodos r w) = Ok tt
  /\ nexecute w' = nexecute w
  /\ mutations (trace w') = mutations (trace w)
  /\ (nquery w' = nquery w \/ nquery w' = S (nquery w))
  /\ alerts (trace w') = alerts (trace w)
  /\ slept (trace w') = slept (trace w)
  /\ loading (state w') = loading (state w)
  /\ loadingAction (state w') = loadingAction (state w)
  /\ refreshing (state w') = refreshing (state w)
  /\ newTodoText (state w') = newTodoText (state w).
Proof.
  cbn zeta.
  destruct (queryClient r) as [qc|] eqn:Hqc, (account r) as [acct|] eqn:Hacct;
    try solve [unfold fetchTodos; rewrite Hqc, ?Hacct; cbn; repeat split; auto].
  rewrite (fetchTodos_run r w qc acct Hqc Hacct).
  destruct (listing_answer r qc acct w) as [[[[docs|]]|]|e];
    [destruct (map_outcome parse_document docs) as [ts|e]| | |];
    unfold refreshed; cbn [fst snd trace nquery nexecute state loading
                           loadingAction refreshing newTodoText];
    rewrite mutations_app, alerts_app, slept_app; cbn; rewrite ?app_nil_r;
    repeat split; auto; lia.
Qed.

(** X1. A refresh is read-only and quiet: whatever the wallet hooks hold
    and whatever the listing query answers, [fetchTodos] returns normally,
    makes no mutation call and at most one listing query, shows no alert,
    starts no timer, and leaves the busy flags and the typed text alone. *)
Theorem refresh_is_read_only (r : Render) (w : World) :
  let w' := snd (fetchTodos r w) in
  fst (fetchTodos r w) = Ok tt
  /\ nexecute w' = nexecute w
  /\ mutations (trace w') = mutations (trace w)
  /\ (nquery w' = nquery w \/ nquery w' = S (nquery w))
  /\ alerts (trace w') = alerts (trace w)
  /\ slept (trace w') = slept (trace w)
  /\ loading (state w') = loading (state w)
  /\ loadingAction (state w') = loadingAction (state w)
  /\ refreshing (state w') = refreshing (state w)
  /\ newTodoText (state w') = newTodoText (state w).
Proof. exact (fetchTodos_quiet r w). Qed.

(** The cache a refresh leaves depends on the index of its listing query
    only. *)
Lemma fetchTodos_refresh_at (r : Render) (w : World) qc acct :
  queryClient r = Some qc -> account r = Some acct ->
  (todos (state (snd (fetchTodos r w))), summary (state (snd (fetchTodos r w))))
  = refresh_at r (nquery w).
Proof.
  intros Hqc Hacct. unfold refresh_at.
  rewrite !(fetchTodos_run r _ qc acct Hqc Hacct).
  unfold listing_answer. cbn [nquery].
  destruct (queryContractSmart qc (nquery w) _ _) as [[[[docs|]]|]|e];
    [destruct (map_outcome parse_document docs) as [ts|e]| | |]; reflexivity.
Qed.

(** X2. Pull-to-refresh always returns normally with the refreshing flag
    cleared, although [onRefresh] has no [finally]: the cache and the summary
    it leaves are those [fetchTodos] leaves, and no alert is shown. *)
Theorem onRefresh_clears_flag (r : Render) (w : World) :
  let w' := snd (onRefresh r w) in
  fst (onRefresh r w) = Ok tt
  /\ refreshing (state w') = false
  /\ todos (state w') = todos (state (snd (fetchTodos r w)))
  /\ summary (state w') = summary (state (snd (fetchTodos r w)))
  /\ alerts (trace w') = alerts (trace w).
Proof.
  cbn zeta. unfold onRefresh.
  set (w1 := mkWorld (mkState (loading (state w)) (loadingAction (state w)) true
                              (todos (state w)) (summary (state w))
                              (newTodoText (state w)))
                     (nquery w) (nexecute w) (noperation w) (nclock w) (trace w)).
  assert (Hset : setRefreshing true w = (Ok tt, w1)) by reflexivity.
  rewrite (bind_ok _ _ _ _ _ Hset).
  destruct (queryClient r) as [qc|] eqn:Hqc, (account r) as [acct|] eqn:Hacct;
    try solve [unfold fetchTodos; rewrite Hqc, ?Hacct; cbn; repeat split; auto].
  unfold bind. rewrite !(fetchTodos_run r _ qc acct Hqc Hacct).
  change (listing_answer r qc acct w1) with (listing_answer r qc acct w).
  destruct (listing_answer r qc acct w) as [[[[docs|]]|]|e];
    [destruct (map_outcome parse_document docs) as [ts|e]| | |];
    cbn; rewrite alerts_app; cbn; rewrite ?app_nil_r; repeat split; auto.
Qed.
End FurtherRefreshFacts.

Section FurtherMutationFacts.
Context `{JsRuntime}.

(** X3. Toggle and delete always return normally.  With a wallet they
    make exactly one mutation call and no listing query, and they end with
    the busy marker cleared whether the call returned or threw; the loading
    and refreshing flags and the typed text are not touched.  Without a
    signing client or an account they change nothing at all. *)
Theorem mutation_handlers_settle (r : Render) (w : World) (todo : Todo)
    (todoId : string) :
  let wt := snd (toggleTodo r todo w) in
  let wd := snd (deleteTodo r todoId w) in
  fst (toggleTodo r todo w) = Ok tt
  /\ fst (deleteTodo r todoId w) = Ok tt
  /\ (client r = None \/ account r = None -> wt = w /\ wd = w)
  /\ (client r <> None -> account r <> None ->
      loadingAction (state wt) = None /\ loadingAction (state wd) = None
      /\ nexecute wt = S (nexecute w) /\ nexecute wd = S (nexecute w)
      /\ nquery wt = nquery w /\ nquery wd = nquery w
      /\ loading (state wt) = loading (state w)
      /\ loading (state wd) = loading (state w)
      /\ newTodoText (state wt) = newTodoText (state w)
      /\ newTodoText (state wd) = newTodoText (state w)).
Proof.
  cbn zeta.
  destruct (client r) as [c|] eqn:Hc, (account r) as [acct|] eqn:Hacct;
    try solve [unfold toggleTodo, deleteTodo; rewrite Hc, ?Hacct; cbn;
               split; [reflexivity|]; split; [reflexivity|];
               split; [intros _; split; reflexivity | congruence]].
  rewrite (toggleTodo_run r todo w c acct Hc Hacct),
    (deleteTodo_run r todoId w c acct Hc Hacct).
  destruct (mutation_answer r c acct (update_message todo) w) as [[]|e1],
    (mutation_answer r c acct (delete_message todoId) w) as [[]|e2];
    cbn; (split; [reflexivity|]); (split; [reflexivity|]);
    (split; [intros [?|?]; congruence | intros _ _; repeat split]).
Qed.

Lemma removeTodo_sublist (todoId : string) (l : list Todo) :
  sublist (removeTodo todoId l) l.
Proof.
  unfold removeTodo. induction l as [|t rest IH]; [constructor|].
  simpl. destruct (String.eqb (id t) todoId); simpl.
  - now apply sublist_cons.
  - now apply sublist_skip.
Qed.

(** X4. After a delete whose mutation call returned, the cache is the list
    the handler saw with every entry under the key removed: a todo is
    cached exactly when it was in that list under another key, the remaining
    todos keep their order, and the key no longer occurs. *)
Theorem delete_removes_key (r : Render) (w : World) c acct (todoId : string) :
  client r = Some c -> account r = Some acct ->
  mutation_answer r c acct (delete_message todoId) w = Ok tt ->
  let cache := todos (state (snd (deleteTodo r todoId w))) in
  (forall t, In t cache <-> In t (todos (snapshot r)) /\ id t <> todoId)
  /\ sublist cache (todos (snapshot r))
  /\ occurrences todoId cache = 0%nat
  /\ len cache = len (todos (snapshot r))
                 - Z.of_nat (occurrences todoId (todos (snapshot r))).
Proof.
  intros Hc Hacct Hex. cbn zeta.
  rewrite (deleteTodo_run r todoId w c acct Hc Hacct), Hex. cbn.
  split; [|split; [|split]].
  - intros t. unfold removeTodo. rewrite List.filter_In, negb_true_iff.
    rewrite String.eqb_neq. reflexivity.
  - apply removeTodo_sublist.
  - unfold occurrences, removeTodo.
    induction (todos (snapshot r)) as [|t rest IH]; [reflexivity|].
    simpl. destruct (String.eqb (id t) todoId) eqn:E; simpl; [exact IH|].
    rewrite E. exact IH.
  - apply removeTodo_length.
Qed.

(** X5. The summary a successful delete writes takes one off the total
    whatever the cache held, so it agrees with the new cache exactly when
    the key was cached once.  Deleting a key that is not cached leaves the
    cache as it was and still lowers the total by one. *)
Theorem delete_summary_consistent_iff (r : Render) (w : World) c acct
    (todoId : string) :
  client r = Some c -> account r = Some acct ->
  mutation_answer r c acct (delete_message todoId) w = Ok tt ->
  let w' := snd (deleteTodo r todoId w) in
  total (summary (state w')) = len (todos (snapshot r)) - 1
  /\ (summary_consistent (state w')
      <-> occurrences todoId (todos (snapshot r)) = 1%nat)
  /\ (occurrences todoId (todos (snapshot r)) = 0%nat ->
      todos (state w') = todos (snapshot r)).
Proof.
  intros Hc Hacct Hex. cbn zeta.
  rewrite (deleteTodo_run r todoId w c acct Hc Hacct), Hex. cbn.
  split; [reflexivity|]. split; [split|].
  - intros (_ & Htotal & _). cbn in Htotal.
    rewrite removeTodo_length in Htotal. unfold occurrences, len in *. lia.
  - intros Honce. apply summary_consistent_counted. cbn.
    unfold summaryAfterDelete, countCompleted.
    rewrite delete_count, removeTodo_length.
    unfold occurrences in Honce. unfold len at 2 4.
    assert (Hone : Z.of_nat (length (List.filter
                     (fun t => String.eqb (id t) todoId) (todos (snapshot r)))) = 1)
      by (rewrite Honce; reflexivity).
    rewrite ?Hone. unfold len. rewrite ?Hone. reflexivity.
  - unfold occurrences, removeTodo.
    induction (todos (snapshot r)) as [|t rest IH]; [reflexivity|].
    simpl. destruct (String.eqb (id t) todoId); simpl; [discriminate|].
    intros Hz. now rewrite IH.
Qed.

Lemma unique_by_id (l : list Todo) (t x : Todo) :
  NoDup (map id l) -> In t l -> In x l -> id x = id t -> x = t.
Proof.
  induction l as [|a rest IH]; intros Hnd Ht Hx Hid; [contradiction|].
  cbn in Hnd. apply NoDup_cons in Hnd as [Ha Hnd].
  destruct Ht as [->|Ht], Hx as [->|Hx]; auto.
  - exfalso. apply Ha. rewrite <- Hid. apply list_elem_of_In.
    apply in_map. exact Hx.
  - exfalso. apply Ha. rewrite Hid. apply list_elem_of_In.
    apply in_map. exact Ht.
Qed.

Lemma replaceTodo_fixed (key : string) (t : Todo) (l : list Todo) :
  (forall x, In x l -> id x = key -> x = t) -> replaceTodo key t l = l.
Proof.
  unfold replaceTodo. induction l as [|a rest IH]; intros Hl; [reflexivity|].
  simpl. rewrite IH by (intros x Hx; apply Hl; now right). f_equal.
  destruct (String.eqb (id a) key) eqn:E; [|reflexivity].
  symmetry. apply Hl; [now left | now apply String.eqb_eq].
Qed.

Lemma replaceTodo_twice (key : string) (t t' : Todo) (l : list Todo) :
  id t' = key ->
  replaceTodo key t (replaceTodo key t' l) = replaceTodo key t l.
Proof.
  intros Hid. unfold replaceTodo. induction l as [|a rest IH]; [reflexivity|].
  simpl. rewrite IH. f_equal.
  destruct (String.eqb (id a) key) eqn:E; [|now rewrite E].
  rewrite Hid, String.eqb_refl. reflexivity.
Qed.

Lemma toggled_toggled (t : Todo) : boolean_completed t -> toggled (toggled t) = t.
Proof.
  destruct t as [i ti tx c ca]. intros [b Hb]. cbn in Hb. subst c.
  unfold toggled. cbn. now rewrite negb_involutive.
Qed.

Lemma count_without_key (key : string) (flag : bool) (l : list Todo) :
  (forall x, In x l -> id x <> key) ->
  List.filter (fun x => if String.eqb (id x) key then flag
                        else truthy (completed x)) l
  = List.filter (fun x => truthy (completed x)) l.
Proof.
  induction l as [|a rest IH]; intros Hl; [reflexivity|].
  simpl. rewrite IH by (intros x Hx; apply Hl; now right).
  assert (E : String.eqb (id a) key = false)
    by (apply String.eqb_neq, Hl; now left).
  now rewrite E.
Qed.

Lemma count_after_update (t : Todo) (flag : bool) (l : list Todo) :
  NoDup (map id l) -> In t l ->
  len (List.filter (fun x => if String.eqb (id x) (id t) then flag
                             else truthy (completed x)) l)
  = countCompleted l + Z.b2z flag - Z.b2z (truthy (completed t)).
Proof.
  unfold countCompleted, len.
  induction l as [|a rest IH]; intros Hnd Ht; [contradiction|].
  cbn in Hnd. apply NoDup_cons in Hnd as [Ha Hnd]. simpl.
  destruct Ht as [->|Ht].
  - rewrite String.eqb_refl, count_without_key.
    + destruct flag, (truthy (completed t)); simpl length; cbn [Z.b2z]; lia.
    + intros x Hx Hid. apply Ha. rewrite <- Hid. apply list_elem_of_In.
      apply in_map. exact Hx.
  - assert (E : String.eqb (id a) (id t) = false).
    { apply String.eqb_neq. intros Hid. apply Ha. rewrite Hid.
      apply list_elem_of_In. apply in_map. exact Ht. }
    rewrite E. specialize (IH Hnd Ht).
    destruct (truthy (completed a)); simpl length; lia.
Qed.

(** X6. When the keys of the todos the handler saw are pairwise distinct
    and the toggled todo is one of them, a toggle whose mutation call
    returned moves exactly one todo between completed and pending: the total
    is unchanged, completed goes up by one if the todo was pending and down
    by one if it was completed, and pending moves the other way. *)
Theorem toggle_moves_one_todo (r : Render) (w : World) c acct (todo : Todo) :
  client r = Some c -> account r = Some acct ->
  mutation_answer r c acct (update_message todo) w = Ok tt ->
  NoDup (map id (todos (snapshot r))) -> In todo (todos (snapshot r)) ->
  let s := summary (state (snd (toggleTodo r todo w))) in
  let l := todos (snapshot r) in
  let step := if truthy (completed todo) then -1 else 1 in
  total s = len l
  /\ s_completed s = countCompleted l + step
  /\ pending s = len l - countCompleted l - step.
Proof.
  intros Hc Hacct Hex Hnd Hin. cbn zeta.
  rewrite (toggleTodo_run r todo w c acct Hc Hacct), Hex. cbn.
  rewrite (count_after_update todo _ _ Hnd Hin).
  destruct (truthy (completed todo)); cbn; repeat split; lia.
Qed.

(** X7. Toggling a todo and then toggling the updated todo from the next
    render puts the cache back: when the keys are pairwise distinct, the
    todo is cached and its [completed] is a boolean, the cache after the
    second toggle is the list the first toggle started from. *)
Theorem toggle_twice_restores (r1 r2 : Render) (w : World) c1 c2 acct1 acct2
    (todo : Todo) :
  client r1 = Some c1 -> account r1 = Some acct1 ->
  client r2 = Some c2 -> account r2 = Some acct2 ->
  let w1 := snd (toggleTodo r1 todo w) in
  let w2 := snd (toggleTodo r2 (toggled todo) w1) in
  mutation_answer r1 c1 acct1 (update_message todo) w = Ok tt ->
  mutation_answer r2 c2 acct2 (update_message (toggled todo)) w1 = Ok tt ->
  todos (snapshot r2) = todos (state w1) ->
  NoDup (map id (todos (snapshot r1))) -> In todo (todos (snapshot r1)) ->
  boolean_completed todo ->
  todos (state w2) = todos (snapshot r1).
Proof.
  intros Hc1 Hacct1 Hc2 Hacct2. cbn zeta. intros Hex1 Hex2 Hsnap Hnd Hin Hbool.
  rewrite (toggleTodo_run r2 _ _ c2 acct2 Hc2 Hacct2), Hex2.
  unfold mutated at 1. cbn [fst snd state todos]. rewrite Hsnap.
  rewrite (toggleTodo_run r1 todo w c1 acct1 Hc1 Hacct1), Hex1.
  unfold mutated at 1. cbn [fst snd state todos].
  change (id (toggled todo)) with (id todo).
  rewrite replaceTodo_twice by reflexivity.
  rewrite toggled_toggled by exact Hbool.
  apply replaceTodo_fixed. intros x Hx Hid.
  now apply (unique_by_id (todos (snapshot r1))).
Qed.
End FurtherMutationFacts.

Lemma slept_poll_timeline (q : Event) (k : nat) :
  is_remote q = true -> slept [q] = 0 -> (1 <= k)%nat ->
  slept (poll_timeline q k) = 2000 * (Z.of_nat k - 1).
Proof.
  intros _ Hq Hk. induction k as [|k IH]; [lia|].
  destruct k as [|k].
  - exact Hq.
  - change (poll_timeline q (S (S k)))
      with ([q] ++ EvSleep 2000 :: poll_timeline q (S k)).
    rewrite slept_app, Hq. cbn [slept]. rewrite IH by lia. lia.
Qed.

Section FurtherCreateFacts.
Context `{JsRuntime}.

Lemma addTodo_idle (r : Render) (w : World) :
  client r = None \/ account r = None \/ queryClient r = None
  \/ String_trim (newTodoText (snapshot r)) = "" ->
  addTodo r w = (Ok tt, w).
Proof.
  intros Hidle. unfold addTodo.
  destruct (client r); [|reflexivity].
  destruct (account r); [|reflexivity].
  destruct (queryClient r); [|reflexivity].
  destruct Hidle as [?|[?|[?|Hblank]]]; try discriminate.
  rewrite Hblank. reflexivity.
Qed.

Lemma addTodo_rejected (r : Render) (w : World) c acct qc (e : exn) :
  client r = Some c -> account r = Some acct -> queryClient r = Some qc ->
  String_trim (newTodoText (snapshot r)) <> "" ->
  mutation_answer r c acct (set_message r w) w = Throw e ->
  addTodo r w =
  (Ok tt,
   mkWorld (mkState false (loadingAction (state w)) (refreshing (state w))
                    (todos (state w)) (summary (state w))
                    (newTodoText (state w)))
           (nquery w) (S (nexecute w)) (noperation w) (S (S (nclock w)))
           (trace w ++ [mutation_call r acct (set_message r w);
                        EvError "Error adding todo:";
                        EvAlert "Error" "Failed to add todo. Please try again."])).
Proof.
  intros Hc Hacct Hqc Htext Hex.
  rewrite (addTodo_run r w c acct qc Hc Hacct Hqc Htext).
  unfold try_finally, try_catch, bind, call_execute.
  unfold mutation_answer in Hex. cbn [entering nexecute]. rewrite Hex.
  cbn. rewrite <- !app_assoc. reflexivity.
Qed.

Lemma addTodo_accepted (r : Render) (w : World) c acct qc :
  client r = Some c -> account r = Some acct -> queryClient r = Some qc ->
  String_trim (newTodoText (snapshot r)) <> "" ->
  mutation_answer r c acct (set_message r w) w = Ok tt ->
  let sees := poll_sees qc (env r !! DOCUSTORE_KEY) (bech32Address acct)
                        (id (new_todo r w)) in
  exists k w',
    (1 <= k <= 10)%nat
    /\ addTodo r w = (Ok tt, w')
    /\ nquery w' = (nquery w + k + 1)%nat
    /\ nexecute w' = S (nexecute w)
    /\ timeline (trace w')
       = timeline (trace w)
         ++ mutation_call r acct (set_message r w)
            :: poll_timeline (listing_query r acct) k
         ++ [listing_query r acct]
    /\ alerts (trace w') = alerts (trace w)
    /\ loading (state w') = false
    /\ newTodoText (state w') = ""
    /\ loadingAction (state w') = loadingAction (state w)
    /\ refreshing (state w') = refreshing (state w)
    /\ (todos (state w'), summary (state w')) = refresh_at r (nquery w + k)
    /\ (forall j, (j < k - 1)%nat -> sees (nquery w + j)%nat = false)
    /\ (sees (nquery w + (k - 1))%nat = true \/ k = 10%nat).
Proof.
  intros Hc Hacct Hqc Htext Hex. cbn zeta.
  set (w1 := mkWorld (state (entering w)) (nquery w) (S (nexecute w))
                     (noperation w) (S (S (nclock w)))
                     (trace w ++ [mutation_call r acct (set_message r w)])).
  assert (Hcall : call_execute c (bech32Address acct) (env r !! DOCUSTORE_KEY)
                    (set_message r w) (entering w) = (Ok tt, w1)).
  { unfold call_execute. unfold mutation_answer in Hex.
    cbn [entering nexecute]. rewrite Hex. reflexivity. }
  destruct (confirmation_loop_polls qc (env r !! DOCUSTORE_KEY)
              (bech32Address acct) (id (new_todo r w)) poll_maxRetries w1)
    as (w2 & k & Hloop & Hk & Hst & Hnq & Hne & Htl & Hal & Hbefore & Hlast);
    [unfold poll_maxRetries; lia|].
  set (w3 := mkWorld (mkState (loading (state w2)) (loadingAction (state w2))
                              (refreshing (state w2)) (todos (state w2))
                              (summary (state w2)) "")
                     (nquery w2) (nexecute w2) (noperation w2) (nclock w2)
                     (trace w2)).
  assert (Hclear : setNewTodoText "" w2 = (Ok tt, w3)) by reflexivity.
  destruct (fetchTodos_effect r w3 qc acct Hqc Hacct)
    as (w4 & Hfetch & Htl4 & Hal4 & Hnq4 & Htext4).
  pose proof (fetchTodos_quiet r w3) as Hquiet. cbn zeta in Hquiet.
  pose proof (fetchTodos_refresh_at r w3 qc acct Hqc Hacct) as Hat.
  rewrite Hfetch in Hquiet, Hat. cbn [fst snd] in Hquiet, Hat.
  destruct Hquiet as (_ & Hne4 & _ & _ & _ & _ & Hld4 & Hla4 & Hrf4 & _).
  assert (Hbody :
    (call_execute c (bech32Address acct) (env r !! DOCUSTORE_KEY)
                  (set_message r w);;;
     confirmation_loop qc (env r !! DOCUSTORE_KEY) (bech32Address acct)
                       (id (new_todo r w)) poll_maxRetries;;;
     setNewTodoText "";;;
     fetchTodos r) (entering w) = (Ok tt, w4)).
  { rewrite (bind_ok _ _ _ _ _ Hcall), (bind_ok _ _ _ _ _ Hloop),
      (bind_ok _ _ _ _ _ Hclear). exact Hfetch. }
  set (w5 := mkWorld (mkState false (loadingAction (state w4))
                              (refreshing (state w4)) (todos (state w4))
                              (summary (state w4)) (newTodoText (state w4)))
                     (nquery w4) (nexecute w4) (noperation w4) (nclock w4)
                     (trace w4)).
  assert (Hrun : addTodo r w = (Ok tt, w5)).
  { rewrite (addTodo_run r w c acct qc Hc Hacct Hqc Htext).
    erewrite try_finally_run;
      [reflexivity | apply try_catch_ok; exact Hbody | reflexivity]. }
  exists k, w5. unfold poll_maxRetries in Hk, Hlast.
  assert (Hst2 : state w2 = state (entering w)) by exact Hst.
  assert (Htr1 : trace w1 = trace w ++ [mutation_call r acct (set_message r w)])
    by reflexivity.
  assert (Hnq1 : nquery w1 = nquery w) by reflexivity.
  assert (Hne1 : nexecute w1 = S (nexecute w)) by reflexivity.
  assert (Hnq3 : nquery w3 = nquery w2) by reflexivity.
  assert (Hne3 : nexecute w3 = nexecute w2) by reflexivity.
  assert (Htr3 : trace w3 = trace w2) by reflexivity.
  assert (Hla3 : loadingAction (state w3) = loadingAction (state w))
    by (unfold w3; cbn; rewrite Hst2; reflexivity).
  assert (Hrf3 : refreshing (state w3) = refreshing (state w))
    by (unfold w3; cbn; rewrite Hst2; reflexivity).
  assert (Htx3 : newTodoText (state w3) = "") by reflexivity.
  assert (Hw5 : nquery w5 = nquery w4 /\ nexecute w5 = nexecute w4
                /\ trace w5 = trace w4 /\ loading (state w5) = false
                /\ newTodoText (state w5) = newTodoText (state w4)
                /\ loadingAction (state w5) = loadingAction (state w4)
                /\ refreshing (state w5) = refreshing (state w4)
                /\ todos (state w5) = todos (state w4)
                /\ summary (state w5) = summary (state w4))
    by (repeat split).
  destruct Hw5 as (E1 & E2 & E3 & E4 & E5 & E6 & E7 & E8 & E9).
  clearbody w1 w3 w5.
  rewrite E1, E2, E3, E4, E5, E6, E7, E8, E9.
  clear Hclear Hbody Hfetch Hloop Hcall.
  rewrite Hnq3 in *. rewrite Hne3 in *. rewrite Htr3 in *.
  rewrite Hnq1 in *. rewrite Hne1 in *. rewrite Htr1 in *.
  split; [exact Hk|]. split; [exact Hrun|].
  split; [rewrite Hnq4, Hnq; lia|].
  split; [rewrite Hne4, Hne; reflexivity|].
  split.
  { rewrite Htl4, Htl, timeline_app. cbn. rewrite <- !app_assoc. reflexivity. }
  split.
  { rewrite Hal4, Hal, alerts_app. cbn. now rewrite app_nil_r. }
  split; [reflexivity|]. split; [congruence|].
  split; [congruence|]. split; [congruence|].
  split; [rewrite Hat, Hnq; reflexivity|].
  split; [exact Hbefore | exact Hlast].
Qed.

(** X8. [addTodo] is bounded: whatever the wallet, the typed text and the
    store do, it returns normally after at most one mutation call, at most
    eleven listing queries (ten polls and the final refresh) and at most
    eighteen seconds of timers. *)
Theorem add_is_bounded (r : Render) (w : World) :
  let w' := snd (addTodo r w) in
  fst (addTodo r w) = Ok tt
  /\ (nexecute w' <= S (nexecute w))%nat
  /\ (nquery w' <= nquery w + 11)%nat
  /\ slept (trace w) <= slept (trace w') <= slept (trace w) + 18000.
Proof.
  cbn zeta.
  destruct (client r) as [c|] eqn:Hc;
    [|rewrite addTodo_idle by auto; cbn; repeat split; lia].
  destruct (account r) as [acct|] eqn:Hacct;
    [|rewrite addTodo_idle by auto; cbn; repeat split; lia].
  destruct (queryClient r) as [qc|] eqn:Hqc;
    [|rewrite addTodo_idle by auto; cbn; repeat split; lia].
  destruct (String.eqb (String_trim (newTodoText (snapshot r))) "") eqn:E.
  { apply String.eqb_eq in E.
    rewrite addTodo_idle by auto. cbn. repeat split; lia. }
  apply String.eqb_neq in E.
  destruct (mutation_answer r c acct (set_message r w) w) as [[]|e] eqn:Hex.
  - destruct (addTodo_accepted r w c acct qc Hc Hacct Hqc E Hex)
      as (k & w' & Hk & Hrun & Hnq & Hne & Htl & _).
    rewrite Hrun. cbn [fst snd].
    assert (Hs : slept (trace w') = slept (trace w) + 2000 * (Z.of_nat k - 1)).
    { rewrite <- (slept_timeline (trace w')), Htl, slept_app, slept_timeline.
      change (?a :: ?l ++ ?m) with ([a] ++ l ++ m).
      rewrite !slept_app, slept_poll_timeline by (reflexivity || lia).
      cbn. lia. }
    repeat split; lia.
  - rewrite (addTodo_rejected r w c acct qc e Hc Hacct Hqc E Hex).
    cbn [fst snd nexecute nquery trace]. rewrite slept_app. cbn.
    repeat split; lia.
Qed.

(** X9. With a wallet and a text that is not blank, [addTodo] always ends
    with the loading flag cleared.  The typed text is cleared only when the
    mutation call returned, and the cache is then the one a refresh leaves
    at the last listing query; when the mutation call threw, the text, the
    cache and the summary are kept and no listing query is made. *)
Theorem add_keeps_text_on_failure (r : Render) (w : World) c acct qc :
  client r = Some c -> account r = Some acct -> queryClient r = Some qc ->
  String_trim (newTodoText (snapshot r)) <> "" ->
  let w' := snd (addTodo r w) in
  loading (state w') = false
  /\ (mutation_answer r c acct (set_message r w) w = Ok tt ->
      newTodoText (state w') = ""
      /\ (todos (state w'), summary (state w'))
         = refresh_at r (nquery w' - 1))
  /\ (forall e, mutation_answer r c acct (set_message r w) w = Throw e ->
      newTodoText (state w') = newTodoText (state w)
      /\ todos (state w') = todos (state w)
      /\ summary (state w') = summary (state w)
      /\ nquery w' = nquery w).
Proof.
  intros Hc Hacct Hqc Htext. cbn zeta.
  destruct (mutation_answer r c acct (set_message r w) w) as [[]|e] eqn:Hex.
  - destruct (addTodo_accepted r w c acct qc Hc Hacct Hqc Htext Hex)
      as (k & w' & Hk & Hrun & Hnq & _ & _ & _ & Hld & Htx & _ & _ & Hat & _).
    rewrite Hrun. cbn [fst snd].
    split; [exact Hld|]. split; [|intros e He; discriminate].
    intros _. split; [exact Htx|].
    rewrite Hat, Hnq. f_equal. lia.
  - rewrite (addTodo_rejected r w c acct qc e Hc Hacct Hqc Htext Hex).
    cbn. split; [reflexivity|]. split; [intros He; discriminate|].
    intros e' _. repeat split.
Qed.

Lemma parse_document_reads_back (t : Todo) :
  reads_back t ->
  parse_document (id t, mkDoc (JStr (JSON_stringify (todo_to_js t)))) = Ok t.
Proof.
  unfold reads_back. intros Hrt. unfold parse_document. cbn [data].
  rewrite Hrt. destruct t. reflexivity.
Qed.

(** X10. What the handlers write, a refresh reads back.  When the engine
    reads the object of a todo back from its JSON text, the document written
    by [addTodo] is deserialized by [fetchTodos] into the todo [addTodo]
    built, and the document written by [toggleTodo] into the updated todo
    the handler put in the cache. *)
Theorem written_documents_read_back (r : Render) (w : World) (todo : Todo) :
  (reads_back (new_todo r w) ->
   exists entry, written (set_message r w) = Some entry
                 /\ fst entry = id (new_todo r w)
                 /\ parse_document entry = Ok (new_todo r w))
  /\ (reads_back (toggled todo) ->
      exists entry, written (update_message todo) = Some entry
                    /\ fst entry = id todo
                    /\ parse_document entry = Ok (toggled todo)).
Proof.
  split; intros Hrt; eexists; (split; [reflexivity|]); (split; [reflexivity|]).
  - exact (parse_document_reads_back _ Hrt).
  - exact (parse_document_reads_back _ Hrt).
Qed.

Lemma map_outcome_In {A B} (f : A -> Outcome B) (l : list A) (l' : list B)
    (x : A) (y : B) :
  map_outcome f l = Ok l' -> In x l -> f x = Ok y -> In y l'.
Proof.
  revert l'. induction l as [|a rest IH]; intros l' Hmap Hx Hy; [contradiction|].
  cbn in Hmap. destruct (f a) as [b|e] eqn:Ea; [|discriminate]. cbn in Hmap.
  destruct (map_outcome f rest) as [ys|e] eqn:Er; [|discriminate].
  cbn in Hmap. injection Hmap as <-.
  destruct Hx as [->|Hx].
  - left. congruence.
  - right. now apply (IH ys).
Qed.

Lemma map_outcome_total {A B} (f : A -> Outcome B) (l : list A) :
  Forall (fun x => exists y, f x = Ok y) l -> exists l', map_outcome f l = Ok l'.
Proof.
  induction 1 as [|a rest [y Hy] _ [ys IH]]; [now exists nil|].
  exists (y :: ys). cbn. now rewrite Hy; cbn; rewrite IH.
Qed.

Lemma listed_In (key : string) (entry : string * Doc) (docs : list (string * Doc)) :
  In entry docs -> fst entry = key -> listed key docs = true.
Proof.
  intros Hin Hkey. unfold listed. apply existsb_exists.
  exists entry. split; [exact Hin|]. now apply String.eqb_eq.
Qed.

(** X11. A create against a store that lists the written document at once:
    when every listing query answers with the same documents, all of which
    deserialize, and the document [addTodo] wrote is among them, the handler
    polls once, starts no timer, and ends with the new todo in the cache. *)
Theorem create_then_listed (r : Render) (w : World) c acct qc
    (docs : list (string * Doc)) (entry : string * Doc) :
  client r = Some c -> account r = Some acct -> queryClient r = Some qc ->
  String_trim (newTodoText (snapshot r)) <> "" ->
  mutation_answer r c acct (set_message r w) w = Ok tt ->
  (forall j, queryContractSmart qc j (env r !! DOCUSTORE_KEY)
               (UserDocuments (bech32Address acct) "todos")
             = Ok (Some (mkResponse (Some docs)))) ->
  Forall (fun d => exists t, parse_document d = Ok t) docs ->
  written (set_message r w) = Some entry -> In entry docs ->
  reads_back (new_todo r w) ->
  let w' := snd (addTodo r w) in
  In (new_todo r w) (todos (state w'))
  /\ nquery w' = (nquery w + 2)%nat
  /\ slept (trace w') = slept (trace w)
  /\ total (summary (state w')) = len docs.
Proof.
  intros Hc Hacct Hqc Htext Hex Hall Hparse Hwritten Hin Hrt. cbn zeta.
  injection Hwritten as <-.
  destruct (addTodo_accepted r w c acct qc Hc Hacct Hqc Htext Hex)
    as (k & w' & Hk & Hrun & Hnq & _ & Htl & _ & _ & _ & _ & _ & Hat
        & Hbefore & _).
  assert (Hk1 : k = 1%nat).
  { destruct k as [|[|k]]; [lia|reflexivity|].
    specialize (Hbefore 0%nat ltac:(lia)).
    unfold poll_sees in Hbefore. rewrite Hall in Hbefore.
    rewrite (listed_In (id (new_todo r w)) _ docs Hin eq_refl) in Hbefore.
    discriminate. }
  subst k. rewrite Hrun. cbn [fst snd].
  destruct (map_outcome_total parse_document docs Hparse) as [ts Hts].
  unfold refresh_at in Hat.
  rewrite (fetchTodos_run r _ qc acct Hqc Hacct) in Hat.
  unfold listing_answer in Hat. rewrite Hall, Hts in Hat.
  cbn in Hat. injection Hat as Htodos Hsummary.
  split; [|split; [|split]].
  - rewrite Htodos.
    eapply Permutation_in; [apply array_sort_perm|].
    eapply map_outcome_In; [exact Hts | exact Hin |].
    exact (parse_document_reads_back _ Hrt).
  - rewrite Hnq. lia.
  - rewrite <- (slept_timeline (trace w')), Htl, slept_app, slept_timeline.
    cbn. lia.
  - rewrite Hsummary. cbn. unfold len.
    rewrite <- (Permutation_length (array_sort_perm compareCreatedAt ts)).
    f_equal. clear -Hts. revert ts Hts.
    induction docs as [|d rest IH]; intros ts Hts.
    + cbn in Hts. now injection Hts as <-.
    + cbn in Hts. destruct (parse_document d); [|discriminate]. cbn in Hts.
      destruct (map_outcome parse_document rest) as [ys|]; [|discriminate].
      cbn in Hts. injection Hts as <-. cbn. f_equal. now apply IH.
Qed.
End FurtherCreateFacts.

(** ** Further properties of the retry primitive *)

Section FurtherRetryFacts.
Context {T : Type} (outcomes : nat -> Outcome T) (n : nat) (delay : Z).
Context (first : nat).

Lemma pow2_succ (i : nat) : 2 ^ Z.of_nat (S i) = 2 * 2 ^ Z.of_nat i.
Proof. rewrite Nat2Z.inj_succ, Z.pow_succ_r by lia. reflexivity. Qed.

(** What a run of the loop from attempt [i] returns, how often it invoked
    the operation and how long it slept. *)
Lemma retry_loop_sound (rem : nat) :
  forall i lastError w,
    (i + rem = n)%nat -> noperation w = (first + i)%nat ->
    let run := retry_loop (operation_of outcomes) n delay rem i lastError w in
    match fst run with
    | Ok v =>
        exists k, (k < rem)%nat
          /\ (forall j, (j < k)%nat -> raises (outcomes (first + i + j)%nat) = true)
          /\ outcomes (first + i + k)%nat = Ok v
          /\ noperation (snd run) = (first + i + k + 1)%nat
          /\ slept (trace (snd run))
             = slept (trace w) + delay * 2 ^ Z.of_nat i * (2 ^ Z.of_nat k - 1)
    | Throw e =>
        (forall j, (j < rem)%nat -> raises (outcomes (first + i + j)%nat) = true)
        /\ noperation (snd run) = (first + i + rem)%nat
        /\ (rem = 0%nat -> e = lastError)
        /\ ((1 <= rem)%nat -> outcomes (first + i + (rem - 1))%nat = Throw e)
        /\ slept (trace (snd run))
           = slept (trace w)
             + delay * 2 ^ Z.of_nat i * (2 ^ Z.of_nat (rem - 1) - 1)
    end.
Proof.
  induction rem as [|rem IH]; intros i lastError w Hn Hw; cbn zeta.
  - cbn. repeat split; intros; lia.
  - rewrite retry_loop_step.
    set (w1 := mkWorld (state w) (nquery w) (nexecute w) (S (first + i))
                       (nclock w) (trace w ++ [EvOperation (first + i)])).
    assert (Hop : operation_of outcomes w = (outcomes (first + i)%nat, w1))
      by (unfold operation_of; rewrite Hw; reflexivity).
    assert (Hn1 : noperation w1 = S (first + i)) by (cbn; lia).
    assert (Hs1 : slept (trace w1) = slept (trace w))
      by (cbn [w1 trace]; rewrite slept_app; cbn; lia).
    clearbody w1.
    destruct (outcomes (first + i)%nat) as [v|e] eqn:Ho.
    + rewrite (try_catch_ok _ _ _ _ _ Hop). cbn [fst snd].
      exists 0%nat. rewrite !Nat.add_0_r.
      split; [lia|]. split; [intros j Hj; lia|]. split; [exact Ho|].
      split; [lia|]. rewrite Hs1. cbn. lia.
    + rewrite (try_catch_throw _ _ _ _ _ Hop).
      set (w2 := mkWorld (state w1) (nquery w1) (nexecute w1) (noperation w1)
                         (nclock w1)
                         (trace w1 ++ [EvLog ("Attempt " ++ pretty (i + 1)%nat
                                              ++ " failed:")])).
      assert (Hlog : console_log ("Attempt " ++ pretty (i + 1)%nat ++ " failed:")
                                 w1 = (Ok tt, w2)) by reflexivity.
      assert (Hn2 : noperation w2 = S (first + i)) by exact Hn1.
      assert (Hs2 : slept (trace w2) = slept (trace w))
        by (cbn [w2 trace]; rewrite slept_app; cbn; lia).
      clearbody w2. rewrite (bind_ok _ _ _ _ _ Hlog).
      destruct rem as [|rem].
      * assert (Hge : (Z.of_nat i <? Z.of_nat n - 1) = false)
          by (apply Z.ltb_ge; lia).
        rewrite Hge. cbn [bind ret retry_loop throw fst snd].
        split.
        { intros j Hj. assert (j = 0%nat) by lia. subst j.
          rewrite Nat.add_0_r, Ho. reflexivity. }
        split; [lia|]. split; [lia|].
        split; [intros _; rewrite Nat.add_0_r; exact Ho|].
        rewrite Hs2. cbn. lia.
      * assert (Hlt : (Z.of_nat i <? Z.of_nat n - 1) = true)
          by (apply Z.ltb_lt; lia).
        rewrite Hlt.
        set (w3 := mkWorld (state w2) (nquery w2) (nexecute w2) (noperation w2)
                           (nclock w2)
                           (trace w2 ++ [EvSleep (delay * 2 ^ Z.of_nat i)])).
        assert (Hsl : sleep (delay * 2 ^ Z.of_nat i) w2 = (Ok tt, w3))
          by reflexivity.
        assert (Hn3 : noperation w3 = (first + S i)%nat) by (cbn; lia).
        assert (Hs3 : slept (trace w3)
                      = slept (trace w) + delay * 2 ^ Z.of_nat i)
          by (cbn [w3 trace]; rewrite slept_app; cbn; lia).
        clearbody w3. rewrite (bind_ok _ _ _ _ _ Hsl).
        specialize (IH (S i) e w3 ltac:(lia) Hn3). cbn zeta in IH.
        destruct (retry_loop (operation_of outcomes) n delay (S rem) (S i) e w3)
          as [[v|e'] w4]; cbn [fst snd] in *.
        -- destruct IH as (k & Hk & Hbefore & Hok & Hnop & Hslept).
           exists (S k). split; [lia|]. split.
           { intros j Hj. destruct j as [|j].
             - rewrite Nat.add_0_r, Ho. reflexivity.
             - replace (first + i + S j)%nat with (first + S i + j)%nat by lia.
               apply Hbefore. lia. }
           split; [rewrite <- Hok; f_equal; lia|].
           split; [lia|].
           rewrite Hslept, Hs3, !pow2_succ. lia.
        -- destruct IH as (Hall & Hnop & _ & Hlast & Hslept).
           split.
           { intros j Hj. destruct j as [|j].
             - rewrite Nat.add_0_r, Ho. reflexivity.
             - replace (first + i + S j)%nat with (first + S i + j)%nat by lia.
               apply Hall. lia. }
           split; [lia|]. split; [lia|]. split.
           { intros _. specialize (Hlast ltac:(lia)). rewrite <- Hlast.
             f_equal. lia. }
           rewrite Hslept, Hs3.
           replace (S rem - 1)%nat with rem by lia.
           replace (S (S rem) - 1)%nat with (S rem) by lia.
           rewrite !pow2_succ. lia.
Qed.
End FurtherRetryFacts.

(** X12. [retryOperation] is sound for every operation outcome sequence,
    every attempt count and every delay.  It never invokes the operation
    more than [n] times.  A returned value is the value of the first
    invocation that did not throw, and nothing is invoked after it.  It
    throws only after exactly [n] invocations that all threw: what the last
    one threw when [n >= 1], and [null] without invoking when [n = 0]. *)
Theorem retry_is_sound {T : Type} (outcomes : nat -> Outcome T) (n : nat) (d : Z)
    (w : World) :
  let first := noperation w in
  let run := retryOperation (operation_of outcomes) n d w in
  (noperation (snd run) <= first + n)%nat
  /\ (forall v, fst run = Ok v ->
      exists k, (k < n)%nat
        /\ (forall j, (j < k)%nat -> raises (outcomes (first + j)%nat) = true)
        /\ outcomes (first + k)%nat = Ok v
        /\ noperation (snd run) = (first + k + 1)%nat)
  /\ (forall e, fst run = Throw e ->
      (forall j, (j < n)%nat -> raises (outcomes (first + j)%nat) = true)
      /\ noperation (snd run) = (first + n)%nat
      /\ (n = 0%nat -> e = ThrownNull /\ snd run = w)
      /\ ((1 <= n)%nat -> outcomes (first + (n - 1))%nat = Throw e)).
Proof.
  cbn zeta. unfold retryOperation.
  pose proof (retry_loop_sound outcomes n d (noperation w) n 0%nat ThrownNull w
                ltac:(lia) ltac:(lia)) as Hs.
  cbn zeta in Hs.
  destruct (retry_loop (operation_of outcomes) n d n 0 ThrownNull w)
    as [[v|e] w'] eqn:Hrun; cbn [fst snd] in *.
  - destruct Hs as (k & Hk & Hbefore & Hok & Hnop & _).
    rewrite Nat.add_0_r in *. split; [lia|]. split; [|intros e He; discriminate].
    intros v' Hv. injection Hv as <-. exists k.
    split; [exact Hk|]. split; [|split; [exact Hok | exact Hnop]].
    intros j Hj. exact (Hbefore j Hj).
  - destruct Hs as (Hall & Hnop & Hnull & Hlast & _).
    rewrite Nat.add_0_r in *. split; [lia|]. split; [intros v Hv; discriminate|].
    intros e' He. injection He as <-.
    split; [intros j Hj; exact (Hall j Hj)|].
    split; [exact Hnop|]. split; [|exact Hlast].
    intros Hz. split; [now apply Hnull|]. subst n. cbn in Hrun.
    unfold throw in Hrun. congruence.
Qed.

(** X13. The backoff of [retryOperation] doubles from attempt to attempt:
    a run that returns after [k] failed attempts has slept [d * (2^k - 1)]
    in all, and a run whose [n >= 1] attempts all failed has slept
    [d * (2^(n-1) - 1)], the last failure being followed by no wait.  With
    the defaults (3 attempts, 1000 ms) a failing run sleeps 3000 ms. *)
Theorem retry_total_backoff {T : Type} (outcomes : nat -> Outcome T) (n : nat)
    (d : Z) (w : World) :
  let first := noperation w in
  let run := retryOperation (operation_of outcomes) n d w in
  (forall v, fst run = Ok v ->
     slept (trace (snd run))
     = slept (trace w)
       + d * (2 ^ Z.of_nat (noperation (snd run) - first - 1) - 1))
  /\ (forall e, fst run = Throw e ->
      slept (trace (snd run))
      = slept (trace w) + d * (2 ^ Z.of_nat (n - 1) - 1))
  /\ (0 <= d ->
      slept (trace w) <= slept (trace (snd run))
      <= slept (trace w) + d * (2 ^ Z.of_nat (n - 1) - 1)).
Proof.
  cbn zeta. unfold retryOperation.
  pose proof (retry_loop_sound outcomes n d (noperation w) n 0%nat ThrownNull w
                ltac:(lia) ltac:(lia)) as Hs.
  cbn zeta in Hs.
  destruct (retry_loop (operation_of outcomes) n d n 0 ThrownNull w)
    as [[v|e] w'] eqn:Hrun; cbn [fst snd] in *.
  - destruct Hs as (k & Hk & _ & _ & Hnop & Hslept).
    rewrite Nat.add_0_r in *.
    replace (noperation w' - noperation w - 1)%nat with k by lia.
    change (2 ^ Z.of_nat 0) with 1 in Hslept.
    split; [intros _ _; lia|]. split; [intros e He; discriminate|].
    intros Hd. rewrite Hslept.
    assert (Hmono : 2 ^ Z.of_nat k <= 2 ^ Z.of_nat (n - 1))
      by (apply Z.pow_le_mono_r; lia).
    assert (Hpos : 1 <= 2 ^ Z.of_nat k).
    { pose proof (Z.pow_pos_nonneg 2 (Z.of_nat k) ltac:(lia) ltac:(lia)). lia. }
    nia.
  - destruct Hs as (_ & _ & _ & _ & Hslept).
    change (2 ^ Z.of_nat 0) with 1 in Hslept.
    split; [intros v Hv; discriminate|]. split; [intros _ _; lia|].
    intros Hd. rewrite Hslept.
    assert (Hpos : 1 <= 2 ^ Z.of_nat (n - 1)).
    { pose proof (Z.pow_pos_nonneg 2 (Z.of_nat (n - 1)) ltac:(lia) ltac:(lia)).
      lia. }
    nia.
Qed.

(** ** The order of the listing *)

Lemma sorted_perm_unique {A : Type} (key : A -> Z) (l1 l2 : list A) :
  StronglySorted (fun a b => key b <= key a) l1 ->
  StronglySorted (fun a b => key b <= key a) l2 ->
  Permutation l1 l2 -> NoDup (map key l1) -> l1 = l2.
Proof.
  revert l2. induction l1 as [|a l1 IH]; intros l2 Hs1 Hs2 Hp Hnd.
  - now apply Permutation_nil in Hp.
  - destruct l2 as [|b l2]; [now apply Permutation_sym, Permutation_nil in Hp|].
    inversion Hs1 as [|? ? Hs1' Ha]; subst.
    inversion Hs2 as [|? ? Hs2' Hb]; subst.
    cbn in Hnd. apply NoDup_cons in Hnd as [Hfresh Hnd].
    assert (Hab : a = b).
    { assert (Hin_a : In a (b :: l2))
        by (eapply Permutation_in; [exact Hp | now left]).
      assert (Hin_b : In b (a :: l1))
        by (eapply Permutation_in; [symmetry; exact Hp | now left]).
      destruct Hin_a as [->|Hin_a]; [reflexivity|].
      destruct Hin_b as [->|Hin_b]; [reflexivity|].
      exfalso. apply Hfresh.
      rewrite List.Forall_forall in Ha, Hb.
      specialize (Ha b Hin_b). specialize (Hb a Hin_a). cbn in Ha, Hb.
      assert (Hk : key a = key b) by lia. rewrite Hk.
      apply list_elem_of_In. apply in_map. exact Hin_b. }
    subst b. f_equal. apply IH; auto.
    now apply Permutation_cons_inv in Hp.
Qed.

Lemma map_outcome_perm {A B} (f : A -> Outcome B) (l1 l2 : list A) :
  Permutation l1 l2 ->
  forall l1', map_outcome f l1 = Ok l1' ->
  exists l2', map_outcome f l2 = Ok l2' /\ Permutation l1' l2'.
Proof.
  induction 1 as [|x l1 l2 Hp IH|x y l|l1 l2 l3 Hp1 IH1 Hp2 IH2]; intros l1' Hm.
  - exists l1'. split; [exact Hm | reflexivity].
  - cbn in Hm. destruct (f x) as [b|e] eqn:Ex; [|discriminate]. cbn in Hm.
    destruct (map_outcome f l1) as [ys|e] eqn:El; [|discriminate].
    cbn in Hm. injection Hm as <-.
    destruct (IH ys eq_refl) as (zs & Hz & Hpz).
    exists (b :: zs). cbn. rewrite Ex. cbn. rewrite Hz. cbn.
    split; [reflexivity | now apply perm_skip].
  - cbn in Hm. destruct (f y) as [b|e] eqn:Ey; [|discriminate]. cbn in Hm.
    destruct (f x) as [a|e] eqn:Ex; [|discriminate]. cbn in Hm.
    destruct (map_outcome f l) as [ys|e] eqn:El; [|discriminate].
    cbn in Hm. injection Hm as <-.
    exists (a :: b :: ys). cbn. rewrite Ex, Ey. cbn. rewrite El. cbn.
    split; [reflexivity | apply perm_swap].
  - destruct (IH1 l1' Hm) as (l2' & Hm2 & Hp2').
    destruct (IH2 l2' Hm2) as (l3' & Hm3 & Hp3').
    exists l3'. split; [exact Hm3 | now transitivity l2'].
Qed.

Section ListingOrder.
Context `{JsRuntime}.

(** X14. The cache does not depend on the order in which the store lists
    the documents: two refreshes whose listings hold the same documents in
    different orders leave the same cache and the same summary, when the
    documents deserialize to todos with valid and pairwise distinct creation
    times. *)
Theorem refresh_ignores_listing_order (r1 r2 : Render) (w1 w2 : World)
    qc1 acct1 qc2 acct2 (docs1 docs2 : list (string * Doc)) (ts : list Todo) :
  queryClient r1 = Some qc1 -> account r1 = Some acct1 ->
  queryClient r2 = Some qc2 -> account r2 = Some acct2 ->
  listing_answer r1 qc1 acct1 w1 = Ok (Some (mkResponse (Some docs1))) ->
  listing_answer r2 qc2 acct2 w2 = Ok (Some (mkResponse (Some docs2))) ->
  Permutation docs1 docs2 ->
  map_outcome parse_document docs1 = Ok ts ->
  Forall dated ts -> NoDup (map timestamp ts) ->
  todos (state (snd (fetchTodos r1 w1))) = todos (state (snd (fetchTodos r2 w2)))
  /\ summary (state (snd (fetchTodos r1 w1)))
     = summary (state (snd (fetchTodos r2 w2))).
Proof.
  intros Hqc1 Hacct1 Hqc2 Hacct2 Hq1 Hq2 Hperm Hts Hdated Hnd.
  destruct (map_outcome_perm parse_document docs1 docs2 Hperm ts Hts)
    as (ts2 & Hts2 & Hpts).
  rewrite (fetchTodos_run r1 w1 qc1 acct1 Hqc1 Hacct1), Hq1, Hts.
  rewrite (fetchTodos_run r2 w2 qc2 acct2 Hqc2 Hacct2), Hq2, Hts2.
  cbn [fst snd state refreshed todos summary].
  assert (Hsame : array_sort compareCreatedAt ts = array_sort compareCreatedAt ts2).
  { apply (sorted_perm_unique timestamp).
    - apply (array_sort_sorted compareCreatedAt timestamp dated);
        [apply compareCreatedAt_dated | exact Hdated].
    - apply (array_sort_sorted compareCreatedAt timestamp dated);
        [apply compareCreatedAt_dated|].
      eapply Permutation_Forall; [exact Hpts | exact Hdated].
    - rewrite <- (array_sort_perm compareCreatedAt ts).
      rewrite <- (array_sort_perm compareCreatedAt ts2). exact Hpts.
    - eapply NoDup_Permutation_proper; [|exact Hnd].
      apply Permutation_map. symmetry. apply array_sort_perm. }
  rewrite Hsame. split; reflexivity.
Qed.
End ListingOrder.

(** ** The profile screen *)

Section ProfileFacts.
Import Profile.
Context `{JsRuntime}.

Lemma fetchProfile_run (r : Render) (s : State) (w : World) qc address :
  queryClient r = Some qc -> connected_address (account r) = Some address ->
  let answer := queryContractSmart qc (nquery w) (env r !! DOCUSTORE_KEY)
                                   (UserDocuments address "profiles") in
  let result := fetch_result "Profile" "profile" "empty profile" emptyProfile
                             address answer in
  fetchProfile r (s, w)
  = (Ok tt, (mkState false (isEditing s) (fst result) (fst result),
             fetched_world w "profile" (profile_query r address) (snd result))).
Proof.
  intros Hqc Haddr. cbn zeta. unfold fetchProfile. rewrite Hqc, Haddr.
  unfold fetch_result, fetched_world, profile_query.
  unfold hbind, hfinally, hcatch, run, call_query, setLoading, setProfile,
    setEditedProfile, set_cells, parse_payload.
  cbn.
  destruct (queryContractSmart qc (nquery w) _ _) as [[[[docs|]]|]|e];
    [destruct (find_document address docs) as [doc|];
     [destruct (JSON_parse (ToString (data (snd doc)))) as [v|]|]| | |];
    cbn; rewrite <- ?app_assoc; reflexivity.
Qed.

Lemma wallet_ready_true (r : Render) :
  wallet_ready r = true ->
  exists qc address,
    queryClient r = Some qc /\ connected_address (account r) = Some address.
Proof.
  unfold wallet_ready.
  destruct (queryClient r) as [qc|], (connected_address (account r)) as [a|];
    try discriminate.
  intros _. now exists qc, a.
Qed.

Lemma fetchProfile_idle (r : Render) (s : State) (w : World) :
  wallet_ready r = false ->
  exists label,
    fetchProfile r (s, w)
    = (Ok tt, (mkState false (isEditing s) (profile s) (editedProfile s),
               mkWorld (state w) (nquery w) (nexecute w) (noperation w)
                       (nclock w) (trace w ++ [EvLog label]))).
Proof.
  unfold wallet_ready, fetchProfile.
  destruct (queryClient r) as [qc|];
    [destruct (connected_address (account r)) as [a|]; [discriminate|]|];
    intros _; eexists; reflexivity.
Qed.

Lemma fetchProfile_quiet (r : Render) (s : State) (w : World) :
  let s' := fst (snd (fetchProfile r (s, w))) in
  let w' := snd (snd (fetchProfile r (s, w))) in
  fst (fetchProfile r (s, w)) = Ok tt
  /\ loading s' = false
  /\ isEditing s' = isEditing s
  /\ nexecute w' = nexecute w
  /\ mutations (trace w') = mutations (trace w)
  /\ alerts (trace w') = alerts (trace w)
  /\ (wallet_ready r = true ->
      profile s' = editedProfile s' /\ nquery w' = S (nquery w))
  /\ (wallet_ready r = false ->
      profile s' = profile s /\ editedProfile s' = editedProfile s
      /\ nquery w' = nquery w).
Proof.
  cbn zeta. destruct (wallet_ready r) eqn:Hready.
  - destruct (wallet_ready_true r Hready) as (qc & address & Hqc & Haddr).
    rewrite (fetchProfile_run r s w qc address Hqc Haddr).
    cbn [fst snd loading isEditing profile editedProfile fetched_world
         nexecute nquery trace].
    rewrite mutations_app, alerts_app.
    assert (Hquiet : forall answer,
      mutations (snd (fetch_result "Profile" "profile" "empty profile"
                                   emptyProfile address answer)) = []
      /\ alerts (snd (fetch_result "Profile" "profile" "empty profile"
                                   emptyProfile address answer)) = []).
    { intros [[[[docs|]]|]|e]; cbn; auto.
      destruct (find_document address docs) as [doc|]; cbn; auto.
      destruct (JSON_parse (ToString (data (snd doc)))); cbn; auto. }
    change (?a ++ [?x; ?y; ?q] ++ ?l) with (a ++ ([x; y; q] ++ l)).
    rewrite mutations_app, alerts_app.
    destruct (Hquiet (queryContractSmart qc (nquery w) (env r !! DOCUSTORE_KEY)
                        (UserDocuments address "profiles"))) as [-> ->].
    cbn. rewrite !app_nil_r.
    repeat split; auto; discriminate.
  - destruct (fetchProfile_idle r s w Hready) as [label ->].
    cbn. rewrite mutations_app, alerts_app. cbn. rewrite !app_nil_r.
    repeat split; auto; discriminate.
Qed.

(** X15. Loading the profile always settles: whatever the wallet hooks hold
    and whatever the store answers, [fetchProfile] returns normally with the
    loading flag cleared, makes no mutation call, shows no alert and leaves
    the editing flag alone.  With a query client and a non-empty address it
    makes one listing query and leaves the same value in [profile] and in
    [editedProfile]; otherwise it makes no query and keeps both. *)
Theorem fetchProfile_settles (r : Render) (s : State) (w : World) :
  let s' := fst (snd (fetchProfile r (s, w))) in
  let w' := snd (snd (fetchProfile r (s, w))) in
  fst (fetchProfile r (s, w)) = Ok tt
  /\ loading s' = false
  /\ isEditing s' = isEditing s
  /\ nexecute w' = nexecute w
  /\ mutations (trace w') = mutations (trace w)
  /\ alerts (trace w') = alerts (trace w)
  /\ (wallet_ready r = true ->
      profile s' = editedProfile s' /\ nquery w' = S (nquery w))
  /\ (wallet_ready r = false ->
      profile s' = profile s /\ editedProfile s' = editedProfile s
      /\ nquery w' = nquery w).
Proof. exact (fetchProfile_quiet r s w). Qed.

Lemma find_document_first (address : string) (before after : list (string * Doc))
    (entry : string * Doc) :
  Forall (fun d => fst d <> address) before -> fst entry = address ->
  find_document address (before ++ entry :: after) = Some entry.
Proof.
  intros Hbefore Hentry. unfold find_document.
  induction Hbefore as [|d rest Hd _ IH]; cbn.
  - rewrite Hentry, String.eqb_refl. reflexivity.
  - apply String.eqb_neq in Hd. rewrite Hd. exact IH.
Qed.

(** X16. The profile shown is the owner's own document: when the listing
    holds, after any number of documents stored under other keys, a document
    stored under the owner's address whose payload parses, [fetchProfile]
    puts the parsed value in [profile] and in [editedProfile], whatever
    follows it in the listing. *)
Theorem fetchProfile_own_document (r : Render) (s : State) (w : World) qc
    (address : string) (before after : list (string * Doc))
    (entry : string * Doc) (v : jsval) :
  queryClient r = Some qc -> connected_address (account r) = Some address ->
  queryContractSmart qc (nquery w) (env r !! DOCUSTORE_KEY)
                     (UserDocuments address "profiles")
  = Ok (Some (mkResponse (Some (before ++ entry :: after)))) ->
  Forall (fun d => fst d <> address) before -> fst entry = address ->
  JSON_parse (ToString (data (snd entry))) = Some v ->
  let s' := fst (snd (fetchProfile r (s, w))) in
  profile s' = v /\ editedProfile s' = v /\ loading s' = false.
Proof.
  intros Hqc Haddr Hq Hbefore Hentry Hparse. cbn zeta.
  rewrite (fetchProfile_run r s w qc address Hqc Haddr), Hq.
  unfold fetch_result.
  rewrite (find_document_first address before after entry Hbefore Hentry), Hparse.
  repeat split.
Qed.

(** X17. Every failure to load falls back to the empty profile.  When the
    listing query throws, answers nothing, answers without a document list,
    lists no document under the owner's address, or lists one whose payload
    does not parse, [fetchProfile] returns normally, shows no alert and
    leaves the empty profile in [profile] and in [editedProfile]. *)
Theorem fetchProfile_falls_back (r : Render) (s : State) (w : World) qc
    (address : string) :
  queryClient r = Some qc -> connected_address (account r) = Some address ->
  let answer := queryContractSmart qc (nquery w) (env r !! DOCUSTORE_KEY)
                                   (UserDocuments address "profiles") in
  (exists e, answer = Throw e)
  \/ answer = Ok None
  \/ answer = Ok (Some (mkResponse None))
  \/ (exists docs, answer = Ok (Some (mkResponse (Some docs)))
                   /\ (find_document address docs = None
                       \/ exists doc, find_document address docs = Some doc
                            /\ JSON_parse (ToString (data (snd doc))) = None)) ->
  let s' := fst (snd (fetchProfile r (s, w))) in
  fst (fetchProfile r (s, w)) = Ok tt
  /\ profile s' = emptyProfile /\ editedProfile s' = emptyProfile
  /\ loading s' = false.
Proof.
  intros Hqc Haddr. cbn zeta. intros Hfail.
  rewrite (fetchProfile_run r s w qc address Hqc Haddr).
  destruct Hfail as [[e ->]|[->|[->|(docs & -> & [Hnone|(doc & Hdoc & Hparse)])]]];
    unfold fetch_result; rewrite ?Hnone, ?Hdoc, ?Hparse; repeat split.
Qed.

Lemma updateProfile_run (r : Render) (edited : jsval) (s : State) (w : World)
    c acct :
  client r = Some c -> account r = Some acct ->
  let msg := MsgSet "profiles" (bech32Address acct) (JSON_stringify edited) in
  updateProfile r edited (s, w) =
  match mutation_answer r c acct msg w with
  | Ok _ =>
      (Ok tt, (mkState false false edited (editedProfile s),
               updated_world w [mutation_call r acct msg;
                                EvAlert "Success" "Profile updated successfully!"]))
  | Throw _ =>
      (Ok tt, (mkState false (isEditing s) (profile s) (editedProfile s),
               updated_world w [mutation_call r acct msg;
                                EvError "Error updating profile:";
                                EvAlert "Error"
                                        "Failed to update profile. Please try again."]))
  end.
Proof.
  intros Hc Hacct. cbn zeta. unfold updateProfile, mutation_answer.
  rewrite Hc, Hacct.
  unfold hbind, hfinally, hcatch, run, call_execute, setLoading, setProfile,
    setIsEditing, set_cells.
  cbn.
  destruct (execute c (nexecute w) _ _ _) as [[]|e];
    unfold updated_world, mutation_call; cbn; rewrite <- ?app_assoc;
    reflexivity.
Qed.

(** X18. Saving the profile.  [updateProfile] always returns normally with
    the loading flag cleared, after exactly one mutation call that writes the
    edited profile under the owner's address in the collection [profiles],
    and never touches [editedProfile].  When the call returned, [profile] is
    the edited profile, the edit form is closed and one success alert is
    shown; when it threw, [profile] and the editing flag are kept, so the
    form stays open with what was typed, and one error alert is shown. *)
Theorem updateProfile_outcomes (r : Render) (edited : jsval) (s : State)
    (w : World) c acct :
  client r = Some c -> account r = Some acct ->
  let msg := MsgSet "profiles" (bech32Address acct) (JSON_stringify edited) in
  let s' := fst (snd (updateProfile r edited (s, w))) in
  let w' := snd (snd (updateProfile r edited (s, w))) in
  fst (updateProfile r edited (s, w)) = Ok tt
  /\ loading s' = false
  /\ editedProfile s' = editedProfile s
  /\ mutations (trace w') = mutations (trace w) ++ [mutation_call r acct msg]
  /\ nquery w' = nquery w
  /\ (mutation_answer r c acct msg w = Ok tt ->
      profile s' = edited /\ isEditing s' = false
      /\ alerts (trace w')
         = alerts (trace w) ++ [EvAlert "Success" "Profile updated successfully!"])
  /\ (forall e, mutation_answer r c acct msg w = Throw e ->
      profile s' = profile s /\ isEditing s' = isEditing s
      /\ alerts (trace w')
         = alerts (trace w)
           ++ [EvAlert "Error" "Failed to update profile. Please try again."]).
Proof.
  intros Hc Hacct. cbn zeta.
  rewrite (updateProfile_run r edited s w c acct Hc Hacct).
  destruct (mutation_answer r c acct _ w) as [[]|e];
    cbn; rewrite mutations_app, alerts_app; cbn;
    (split; [reflexivity|]); (split; [reflexivity|]); (split; [reflexivity|]);
    (split; [reflexivity|]); (split; [reflexivity|]);
    split; try (intros; discriminate); intros; repeat split.
Qed.

(** X19. What is saved is what is loaded.  After an [updateProfile] whose
    mutation call returned, a [fetchProfile] whose listing shows under the
    owner's address the document that call wrote leaves the edited profile
    in [profile] and in [editedProfile], when the engine reads the edited
    profile back from its JSON text. *)
Theorem profile_save_then_load (r : Render) (edited : jsval) (s : State)
    (w : World) c acct qc (docs : list (string * Doc)) :
  client r = Some c -> account r = Some acct -> queryClient r = Some qc ->
  bech32Address acct <> "" ->
  let msg := MsgSet "profiles" (bech32Address acct) (JSON_stringify edited) in
  mutation_answer r c acct msg w = Ok tt ->
  queryContractSmart qc (nquery w) (env r !! DOCUSTORE_KEY)
                     (UserDocuments (bech32Address acct) "profiles")
  = Ok (Some (mkResponse (Some docs))) ->
  find_document (bech32Address acct) docs = written msg ->
  value_reads_back edited ->
  let saved := snd (updateProfile r edited (s, w)) in
  let loaded := fst (snd (fetchProfile r saved)) in
  profile loaded = edited /\ editedProfile loaded = edited
  /\ loading loaded = false /\ isEditing loaded = false.
Proof.
  intros Hc Hacct Hqc Hne. cbn zeta. intros Hex Hq Hfind Hrt.
  assert (Haddr : connected_address (account r) = Some (bech32Address acct)).
  { unfold connected_address. rewrite Hacct.
    apply String.eqb_neq in Hne. now rewrite Hne. }
  rewrite (updateProfile_run r edited s w c acct Hc Hacct), Hex.
  cbn [snd].
  rewrite (fetchProfile_run r _ _ qc (bech32Address acct) Hqc Haddr).
  cbn [updated_world nquery]. rewrite Hq. unfold fetch_result.
  rewrite Hfind. cbn [written snd data ToString]. rewrite Hrt.
  repeat split.
Qed.
End ProfileFacts.

(** *** The edit form *)

Lemma lookup_set_same (k : string) (v : jsval) (props : list (string * jsval)) :
  lookup_prop k (Engine.set_prop k v props) = v.
Proof.
  induction props as [|[k' v'] rest IH]; cbn.
  - now rewrite String.eqb_refl.
  - destruct (String.eqb k k') eqn:E; cbn; rewrite E; [reflexivity | exact IH].
Qed.

Lemma lookup_set_other (k k' : string) (v : jsval) (props : list (string * jsval)) :
  k' <> k -> lookup_prop k' (Engine.set_prop k v props) = lookup_prop k' props.
Proof.
  intros Hne. induction props as [|[k0 v0] rest IH]; cbn.
  - apply String.eqb_neq in Hne. now rewrite Hne.
  - destruct (String.eqb k k0) eqn:E; cbn.
    + apply String.eqb_eq in E. subst k0.
      apply String.eqb_neq in Hne. now rewrite Hne.
    + destruct (String.eqb k' k0); [reflexivity | exact IH].
Qed.

Lemma get_with_prop_same (v : jsval) (k : string) (x : jsval) :
  get_prop (with_prop v k x) k = Ok x.
Proof. unfold with_prop. cbn. now rewrite lookup_set_same. Qed.

Lemma get_with_prop_other (props : list (string * jsval)) (k k' : string)
    (x : jsval) :
  k' <> k -> get_prop (with_prop (JObj props) k x) k' = get_prop (JObj props) k'.
Proof. intros Hne. unfold with_prop. cbn. now rewrite lookup_set_other. Qed.

Section EditFormFacts.
Import Profile.

(** X20. Typing in the edit form changes one field of [editedProfile] and
    nothing else on the screen.  A text input stores its text under its own
    field and, when the edited profile is an object, keeps every other
    field; a social link input does the same inside [socialLinks] and keeps
    the other top-level fields, and throws a TypeError, changing nothing,
    when the edited profile is [null].  Cancel closes the form and puts the
    saved profile back in it whatever was typed; with no saved profile
    ([null]) the typed values stay. *)
Theorem edit_form_changes_one_field (s : State) (w : World) (edited : jsval)
    (field link text : string) :
  let typed := fst (snd (changeField field edited text (s, w))) in
  let linked := fst (snd (changeSocialLink link edited text (s, w))) in
  (changeField field edited text (s, w)
   = (Ok tt, (mkState (loading s) (isEditing s) (profile s)
                      (editedProfile typed), w))
   /\ get_prop (editedProfile typed) field = Ok (JStr text)
   /\ (forall props other, edited = JObj props -> other <> field ->
       get_prop (editedProfile typed) other = get_prop edited other))
  /\ (forall props, edited = JObj props ->
      changeSocialLink link edited text (s, w)
      = (Ok tt, (mkState (loading s) (isEditing s) (profile s)
                         (editedProfile linked), w))
      /\ (exists links, get_prop (editedProfile linked) "socialLinks" = Ok links
                        /\ get_prop links link = Ok (JStr text)
                        /\ forall lprops other,
                             get_prop edited "socialLinks" = Ok (JObj lprops) ->
                             other <> link ->
                             get_prop links other = get_prop (JObj lprops) other)
      /\ (forall other, other <> "socialLinks" ->
          get_prop (editedProfile linked) other = get_prop edited other))
  /\ (edited = JNull ->
      raises (fst (changeSocialLink link edited text (s, w))) = true
      /\ snd (changeSocialLink link edited text (s, w)) = (s, w))
  /\ (forall saved,
      let cancelled := fst (snd (cancelEdit saved edited (s, w))) in
      isEditing cancelled = false /\ profile cancelled = profile s
      /\ (truthy saved = true -> editedProfile cancelled = saved)
      /\ (saved = JNull -> editedProfile cancelled = edited)).
Proof.
  cbn zeta. split; [|split; [|split]].
  - split; [reflexivity|]. split.
    + cbn [changeField setEditedProfile set_cells fst snd editedProfile].
      apply get_with_prop_same.
    + intros props other -> Hne.
      cbn [changeField setEditedProfile set_cells fst snd editedProfile].
      now apply get_with_prop_other.
  - intros props ->.
    assert (Hrun : changeSocialLink link (JObj props) text (s, w)
                   = (Ok tt, (mkState (loading s) (isEditing s) (profile s)
                                (with_prop (JObj props) "socialLinks"
                                   (with_prop (lookup_prop "socialLinks" props)
                                              link (JStr text))), w)))
      by reflexivity.
    rewrite Hrun. cbn [fst snd editedProfile].
    split; [reflexivity|]. split.
    + eexists. split; [apply get_with_prop_same|].
      split; [apply get_with_prop_same|].
      intros lprops other Hl Hne. cbn in Hl. injection Hl as ->.
      now apply get_with_prop_other.
    + intros other Hne. now apply get_with_prop_other.
  - intros ->. cbn. split; reflexivity.
  - intros saved. cbn. split; [reflexivity|]. split; [reflexivity|].
    split.
    + intros ->. reflexivity.
    + intros ->. reflexivity.
Qed.
End EditFormFacts.

(** ** The settings screen *)

Section SettingsFacts.
Import Settings.
Context `{JsRuntime}.

Lemma fetchSettings_run (r : Render) (s : State) (w : World) qc address :
  queryClient r = Some qc -> connected_address (account r) = Some address ->
  let answer := queryContractSmart qc (nquery w) (env r !! DOCUSTORE_KEY)
                                   (UserDocuments address "settings") in
  let result := fetch_result "Settings" "settings" "default settings"
                             defaultSettings address answer in
  fetchSettings r (s, w)
  = (Ok tt, (mkState false (fst result) (fst result),
             fetched_world w "settings" (settings_query r address) (snd result))).
Proof.
  intros Hqc Haddr. cbn zeta. unfold fetchSettings. rewrite Hqc, Haddr.
  unfold fetch_result, fetched_world, settings_query.
  unfold hbind, hfinally, hcatch, run, call_query, setLoading, setSettings,
    setEditedSettings, set_cells, parse_payload.
  cbn.
  destruct (queryContractSmart qc (nquery w) _ _) as [[[[docs|]]|]|e];
    [destruct (find_document address docs) as [doc|];
     [destruct (JSON_parse (ToString (data (snd doc)))) as [v|]|]| | |];
    cbn; rewrite <- ?app_assoc; reflexivity.
Qed.

Lemma fetchSettings_idle (r : Render) (s : State) (w : World) :
  wallet_ready r = false ->
  exists label,
    fetchSettings r (s, w)
    = (Ok tt, (mkState false (settings s) (editedSettings s),
               mkWorld (state w) (nquery w) (nexecute w) (noperation w)
                       (nclock w) (trace w ++ [EvLog label]))).
Proof.
  unfold wallet_ready, fetchSettings.
  destruct (queryClient r) as [qc|];
    [destruct (connected_address (account r)) as [a|]; [discriminate|]|];
    intros _; eexists; reflexivity.
Qed.

(** X21. Loading the settings: with a query client and a non-empty
    address, [fetchSettings] returns normally with the loading flag cleared
    and the same value in [settings] and in [editedSettings].  That value is
    the parsed payload of the first document listed under the owner's
    address; when the query throws, lists no such document or its payload
    does not parse, it is the default (dark mode off, notifications on,
    "en", "UTC"), which is not the value the cells start with (dark mode
    on). *)
Theorem fetchSettings_own_or_default (r : Render) (s : State) (w : World) qc
    (address : string) :
  queryClient r = Some qc -> connected_address (account r) = Some address ->
  let answer := queryContractSmart qc (nquery w) (env r !! DOCUSTORE_KEY)
                                   (UserDocuments address "settings") in
  let s' := fst (snd (fetchSettings r (s, w))) in
  fst (fetchSettings r (s, w)) = Ok tt
  /\ loading s' = false
  /\ settings s' = editedSettings s'
  /\ (forall before entry after v,
      answer = Ok (Some (mkResponse (Some (before ++ entry :: after)))) ->
      Forall (fun d => fst d <> address) before -> fst entry = address ->
      JSON_parse (ToString (data (snd entry))) = Some v ->
      settings s' = v)
  /\ ((exists e, answer = Throw e)
      \/ answer = Ok None
      \/ answer = Ok (Some (mkResponse None))
      \/ (exists docs, answer = Ok (Some (mkResponse (Some docs)))
            /\ (find_document address docs = None
                \/ exists doc, find_document address docs = Some doc
                     /\ JSON_parse (ToString (data (snd doc))) = None)) ->
      settings s' = defaultSettings)
  /\ defaultSettings <> settings initialState.
Proof.
  intros Hqc Haddr. cbn zeta.
  rewrite (fetchSettings_run r s w qc address Hqc Haddr).
  cbn [fst snd loading settings editedSettings].
  split; [reflexivity|]. split; [reflexivity|]. split; [reflexivity|].
  split; [|split].
  - intros before entry after v Hq Hbefore Hentry Hparse.
    rewrite Hq. unfold fetch_result.
    now rewrite (find_document_first address before after entry Hbefore Hentry),
      Hparse.
  - intros [[e ->]|[->|[->|(docs & -> & [Hnone|(doc & Hdoc & Hparse)])]]];
      unfold fetch_result; rewrite ?Hnone, ?Hdoc, ?Hparse; reflexivity.
  - discriminate.
Qed.

Lemma updateSettings_run (r : Render) (newSettings : jsval) (s : State)
    (w : World) c acct :
  client r = Some c -> account r = Some acct ->
  let msg := MsgSet "settings" (bech32Address acct)
                    (JSON_stringify newSettings) in
  updateSettings r newSettings (s, w) =
  match mutation_answer r c acct msg w with
  | Ok _ =>
      (Ok tt, (mkState false newSettings (editedSettings s),
               updated_world w [mutation_call r acct msg;
                                EvAlert "Success" "Settings updated successfully!"]))
  | Throw _ =>
      (Ok tt, (mkState false (settings s) (editedSettings s),
               updated_world w [mutation_call r acct msg;
                                EvError "Error updating settings:";
                                EvAlert "Error"
                                        "Failed to update settings. Please try again."]))
  end.
Proof.
  intros Hc Hacct. cbn zeta. unfold updateSettings, mutation_answer.
  rewrite Hc, Hacct.
  unfold hbind, hfinally, hcatch, run, call_execute, setLoading, setSettings,
    set_cells.
  cbn.
  destruct (execute c (nexecute w) _ _ _) as [[]|e];
    unfold updated_world, mutation_call; cbn; rewrite <- ?app_assoc;
    reflexivity.
Qed.

(** X22. Flipping a switch changes one setting.  [switchSetting] always
    returns normally with the loading flag cleared, after one mutation call
    that writes the new settings under the owner's address in the collection
    [settings]; it never touches [editedSettings].  When the call returned
    and the settings of the render are an object, [settings] holds the new
    value under the switched name and every other setting as it was, and a
    success alert is shown; when the call threw, [settings] is kept and an
    error alert is shown. *)
Theorem switch_changes_one_setting (r : Render) (s : State) (w : World) c acct
    (props : list (string * jsval)) (name : string) (value : bool) :
  client r = Some c -> account r = Some acct ->
  let changed := with_prop (JObj props) name (JBool value) in
  let msg := MsgSet "settings" (bech32Address acct) (JSON_stringify changed) in
  let s' := fst (snd (switchSetting r (JObj props) name value (s, w))) in
  let w' := snd (snd (switchSetting r (JObj props) name value (s, w))) in
  fst (switchSetting r (JObj props) name value (s, w)) = Ok tt
  /\ loading s' = false
  /\ editedSettings s' = editedSettings s
  /\ mutations (trace w') = mutations (trace w) ++ [mutation_call r acct msg]
  /\ (mutation_answer r c acct msg w = Ok tt ->
      get_prop (settings s') name = Ok (JBool value)
      /\ (forall other, other <> name ->
          get_prop (settings s') other = get_prop (JObj props) other)
      /\ alerts (trace w')
         = alerts (trace w)
           ++ [EvAlert "Success" "Settings updated successfully!"])
  /\ (forall e, mutation_answer r c acct msg w = Throw e ->
      settings s' = settings s
      /\ alerts (trace w')
         = alerts (trace w)
           ++ [EvAlert "Error" "Failed to update settings. Please try again."]).
Proof.
  intros Hc Hacct. cbn zeta. unfold switchSetting.
  rewrite (updateSettings_run r _ s w c acct Hc Hacct).
  destruct (mutation_answer r c acct _ w) as [[]|e];
    cbn [fst snd loading settings editedSettings updated_world trace];
    rewrite mutations_app, alerts_app; cbn [mutations alerts List.filter
      is_mutation is_alert mutation_call];
    (split; [reflexivity|]); (split; [reflexivity|]); (split; [reflexivity|]);
    (split; [reflexivity|]); split; try (intros; discriminate).
  - intros _. split; [apply get_with_prop_same|].
    split; [|reflexivity]. intros other Hne. now apply get_with_prop_other.
  - intros e' _. split; reflexivity.
Qed.

(** X23. Saved settings are the settings loaded.  After an [updateSettings]
    whose mutation call returned, a [fetchSettings] whose listing shows under
    the owner's address the document that call wrote leaves the new settings
    in [settings] and in [editedSettings], when the engine reads them back
    from their JSON text. *)
Theorem settings_save_then_load (r : Render) (newSettings : jsval) (s : State)
    (w : World) c acct qc (docs : list (string * Doc)) :
  client r = Some c -> account r = Some acct -> queryClient r = Some qc ->
  bech32Address acct <> "" ->
  let msg := MsgSet "settings" (bech32Address acct)
                    (JSON_stringify newSettings) in
  mutation_answer r c acct msg w = Ok tt ->
  queryContractSmart qc (nquery w) (env r !! DOCUSTORE_KEY)
                     (UserDocuments (bech32Address acct) "settings")
  = Ok (Some (mkResponse (Some docs))) ->
  find_document (bech32Address acct) docs = written msg ->
  value_reads_back newSettings ->
  let saved := snd (updateSettings r newSettings (s, w)) in
  let loaded := fst (snd (fetchSettings r saved)) in
  settings loaded = newSettings /\ editedSettings loaded = newSettings
  /\ loading loaded = false.
Proof.
  intros Hc Hacct Hqc Hne. cbn zeta. intros Hex Hq Hfind Hrt.
  assert (Haddr : connected_address (account r) = Some (bech32Address acct)).
  { unfold connected_address. rewrite Hacct.
    apply String.eqb_neq in Hne. now rewrite Hne. }
  rewrite (updateSettings_run r newSettings s w c acct Hc Hacct), Hex.
  cbn [snd].
  rewrite (fetchSettings_run r _ _ qc (bech32Address acct) Hqc Haddr).
  cbn [updated_world nquery]. rewrite Hq. unfold fetch_result.
  rewrite Hfind. cbn [written snd data ToString]. rewrite Hrt.
  repeat split.
Qed.
End SettingsFacts.

Section EffectFacts.
Context `{JsRuntime}.

Lemma fetchSettings_quiet (r : Render) (s : Settings.State) (w : World) :
  let s' := fst (snd (Settings.fetchSettings r (s, w))) in
  let w' := snd (snd (Settings.fetchSettings r (s, w))) in
  fst (Settings.fetchSettings r (s, w)) = Ok tt
  /\ Settings.loading s' = false
  /\ mutations (trace w') = mutations (trace w)
  /\ alerts (trace w') = alerts (trace w)
  /\ (wallet_ready r = false ->
      Settings.settings s' = Settings.settings s
      /\ Settings.editedSettings s' = Settings.editedSettings s
      /\ nquery w' = nquery w).
Proof.
  cbn zeta. destruct (wallet_ready r) eqn:Hready.
  - destruct (wallet_ready_true r Hready) as (qc & address & Hqc & Haddr).
    rewrite (fetchSettings_run r s w qc address Hqc Haddr).
    cbn [fst snd Settings.loading fetched_world trace].
    assert (Hquiet : forall answer,
      mutations (snd (fetch_result "Settings" "settings" "default settings"
                                   Settings.defaultSettings address answer)) = []
      /\ alerts (snd (fetch_result "Settings" "settings" "default settings"
                                   Settings.defaultSettings address answer)) = []).
    { intros [[[[docs|]]|]|e]; cbn; auto.
      destruct (find_document address docs) as [doc|]; cbn; auto.
      destruct (JSON_parse (ToString (data (snd doc)))); cbn; auto. }
    change (?a ++ [?x; ?y; ?q] ++ ?l) with (a ++ ([x; y; q] ++ l)).
    rewrite !mutations_app, !alerts_app.
    destruct (Hquiet (queryContractSmart qc (nquery w) (env r !! DOCUSTORE_KEY)
                        (UserDocuments address "settings"))) as [-> ->].
    cbn. rewrite !app_nil_r.
    repeat split; auto; discriminate.
  - destruct (fetchSettings_idle r s w Hready) as [label ->].
    cbn. rewrite mutations_app, alerts_app. cbn. rewrite !app_nil_r.
    repeat split; auto; discriminate.
Qed.

(** X24. The loading placeholder never stays.  On both screens the effect
    that runs when the account changes returns normally with the loading
    flag cleared, whatever the wallet and the store do, and shows no alert;
    when the wallet is not connected, or the query client or the address is
    missing, it makes no listing query and keeps the document cells.  The
    application state listener does nothing at all unless the new state is
    [active], the wallet is connected and ready. *)
Theorem account_effects_clear_loading (r : Render) (isConnected : bool)
    (nextAppState : string) (w : World) (p : Profile.State) (s : Settings.State) :
  let pe := Profile.accountEffect r isConnected (p, w) in
  let se := Settings.accountEffect r isConnected (s, w) in
  (fst pe = Ok tt /\ Profile.loading (fst (snd pe)) = false
   /\ alerts (trace (snd (snd pe))) = alerts (trace w))
  /\ (fst se = Ok tt /\ Settings.loading (fst (snd se)) = false
      /\ alerts (trace (snd (snd se))) = alerts (trace w))
  /\ (isConnected = false \/ wallet_ready r = false ->
      nquery (snd (snd pe)) = nquery w /\ nquery (snd (snd se)) = nquery w
      /\ Profile.profile (fst (snd pe)) = Profile.profile p
      /\ Profile.editedProfile (fst (snd pe)) = Profile.editedProfile p
      /\ Settings.settings (fst (snd se)) = Settings.settings s
      /\ Settings.editedSettings (fst (snd se)) = Settings.editedSettings s)
  /\ (String.eqb nextAppState "active" && isConnected && wallet_ready r = false ->
      Profile.appStateListener r isConnected nextAppState (p, w) = (Ok tt, (p, w))
      /\ Settings.appStateListener r isConnected nextAppState (s, w)
         = (Ok tt, (s, w))).
Proof.
  cbn zeta.
  set (w4 := mkWorld (state w) (nquery w) (nexecute w) (noperation w) (nclock w)
               ((((trace w ++ [EvLog "Account changed, fetching profile"])
                  ++ [EvLog "Account:"]) ++ [EvLog "Is connected:"])
                ++ [EvLog "Query client:"])).
  set (v4 := mkWorld (state w) (nquery w) (nexecute w) (noperation w) (nclock w)
               ((((trace w ++ [EvLog "Account changed, fetching settings"])
                  ++ [EvLog "Account:"]) ++ [EvLog "Is connected:"])
                ++ [EvLog "Query client:"])).
  assert (Hpe : Profile.accountEffect r isConnected (p, w)
                = if negb isConnected then Profile.setLoading false (p, w4)
                  else if wallet_ready r then Profile.fetchProfile r (p, w4)
                  else Profile.setLoading false (p, w4))
    by (unfold Profile.accountEffect;
        destruct isConnected; [destruct (wallet_ready r)|]; reflexivity).
  assert (Hse : Settings.accountEffect r isConnected (s, w)
                = if negb isConnected then Settings.setLoading false (s, v4)
                  else if wallet_ready r then Settings.fetchSettings r (s, v4)
                  else Settings.setLoading false (s, v4))
    by (unfold Settings.accountEffect;
        destruct isConnected; [destruct (wallet_ready r)|]; reflexivity).
  assert (Ha4 : alerts (trace w4) = alerts (trace w))
    by (cbn [w4 trace]; rewrite !alerts_app; cbn; now rewrite !app_nil_r).
  assert (Hb4 : alerts (trace v4) = alerts (trace w))
    by (cbn [v4 trace]; rewrite !alerts_app; cbn; now rewrite !app_nil_r).
  assert (Hn4 : nquery w4 = nquery w) by reflexivity.
  assert (Hm4 : nquery v4 = nquery w) by reflexivity.
  clearbody w4 v4. rewrite Hpe, Hse. clear Hpe Hse.
  pose proof (fetchProfile_quiet r p w4) as Hp. cbn zeta in Hp.
  pose proof (fetchSettings_quiet r s v4) as Hs. cbn zeta in Hs.
  destruct Hp as (Hp1 & Hp2 & _ & _ & _ & Hp3 & _ & Hp4).
  destruct Hs as (Hs1 & Hs2 & _ & Hs3 & Hs4).
  split; [|split; [|split]].
  - destruct isConnected; cbn [negb]; [destruct (wallet_ready r)|];
      try (cbn; now rewrite Ha4).
    rewrite Hp1, Hp2, Hp3, Ha4. repeat split.
  - destruct isConnected; cbn [negb]; [destruct (wallet_ready r)|];
      try (cbn; now rewrite Hb4).
    rewrite Hs1, Hs2, Hs3, Hb4. repeat split.
  - intros Hoff. destruct isConnected; cbn [negb].
    + destruct Hoff as [Hoff|Hoff]; [discriminate|]. rewrite Hoff.
      cbn. rewrite Hn4, Hm4. repeat split.
    + cbn. rewrite Hn4, Hm4. repeat split.
  - intros Hoff. unfold Profile.appStateListener, Settings.appStateListener.
    rewrite Hoff. split; reflexivity.
Qed.
End EffectFacts.

(** ** The further properties on concrete inputs *)

Section FurtherExamples.
Import Demo Samples.
Existing Instance Engine.runtime.

Lemma mutation_handlers_settle_witness :
  (snd (toggleTodo signed_out older (start [older] "")) = start [older] ""
   /\ snd (deleteTodo signed_out "42" (start [older] "")) = start [older] "")
  /\ (loadingAction (state (snd (toggleTodo (render rejecting (listing []) [older] "")
                                            older (start [older] "")))) = None
      /\ nexecute (snd (deleteTodo (render accepting (listing []) [older] "")
                                   "42" (start [older] ""))) = 1%nat).
Proof.
  split.
  - destruct (mutation_handlers_settle signed_out (start [older] "") older "42")
      as (_ & _ & Hidle & _).
    exact (Hidle (or_introl eq_refl)).
  - split.
    + destruct (mutation_handlers_settle (render rejecting (listing []) [older] "")
                  (start [older] "") older "42") as (_ & _ & _ & Hbusy).
      destruct (Hbusy ltac:(discriminate) ltac:(discriminate)) as (Hla & _).
      exact Hla.
    + destruct (mutation_handlers_settle (render accepting (listing []) [older] "")
                  (start [older] "") older "42") as (_ & _ & _ & Hbusy).
      destruct (Hbusy ltac:(discriminate) ltac:(discriminate))
        as (_ & _ & _ & Hne & _).
      exact Hne.
Defined.

Lemma delete_removes_key_witness :
  let cache := todos (state (snd (deleteTodo
                 (render accepting (listing []) [older; newer] "") "42"
                 (start [older; newer] "")))) in
  (In newer cache <-> In newer [older; newer] /\ id newer <> "42")
  /\ occurrences "42" cache = 0%nat.
Proof.
  destruct (delete_removes_key
              (render accepting (listing []) [older; newer] "")
              (start [older; newer] "") accepting owner "42"
              eq_refl eq_refl eq_refl) as (Hin & _ & Hocc & _).
  split; [exact (Hin newer) | exact Hocc].
Defined.

Lemma delete_summary_consistent_iff_witness :
  let r := render accepting (listing []) [older; newer] "" in
  let w := start [older; newer] "" in
  summary_consistent (state (snd (deleteTodo r "43" w)))
  /\ todos (state (snd (deleteTodo r "99" w))) = [older; newer]
  /\ total (summary (state (snd (deleteTodo r "99" w)))) = 1.
Proof.
  split.
  - destruct (delete_summary_consistent_iff
                (render accepting (listing []) [older; newer] "")
                (start [older; newer] "") accepting owner "43"
                eq_refl eq_refl eq_refl) as (_ & Hiff & _).
    apply Hiff. reflexivity.
  - destruct (delete_summary_consistent_iff
                (render accepting (listing []) [older; newer] "")
                (start [older; newer] "") accepting owner "99"
                eq_refl eq_refl eq_refl) as (Htotal & _ & Habsent).
    split; [exact (Habsent eq_refl) | exact Htotal].
Defined.

Lemma toggle_moves_one_todo_witness :
  let s := summary (state (snd (toggleTodo
             (render accepting (listing []) [older; newer] "") older
             (start [older; newer] "")))) in
  total s = 2 /\ s_completed s = 2 /\ pending s = 0.
Proof.
  assert (Hnd : NoDup (map id [older; newer])).
  { repeat constructor; rewrite ?list_elem_of_In; cbn; intuition discriminate. }
  exact (toggle_moves_one_todo
           (render accepting (listing []) [older; newer] "")
           (start [older; newer] "") accepting owner older
           eq_refl eq_refl eq_refl Hnd (or_introl eq_refl)).
Defined.

Lemma toggle_twice_restores_witness :
  let r1 := render accepting (listing []) [older; newer] "" in
  let w1 := snd (toggleTodo r1 older (start [older; newer] "")) in
  let r2 := render accepting (listing []) (todos (state w1)) "" in
  todos (state (snd (toggleTodo r2 (toggled older) w1))) = [older; newer].
Proof.
  assert (Hnd : NoDup (map id [older; newer])).
  { repeat constructor; rewrite ?list_elem_of_In; cbn; intuition discriminate. }
  exact (toggle_twice_restores
           (render accepting (listing []) [older; newer] "")
           (render accepting (listing [])
                   (todos (state (snd (toggleTodo
                      (render accepting (listing []) [older; newer] "") older
                      (start [older; newer] ""))))) "")
           (start [older; newer] "") accepting accepting owner owner older
           eq_refl eq_refl eq_refl eq_refl eq_refl eq_refl eq_refl
           Hnd (or_introl eq_refl) (ex_intro _ false eq_refl)).
Defined.

Lemma add_keeps_text_on_failure_witness :
  let failed := snd (addTodo (render rejecting (listing []) [older] "buy milk")
                             (start [older] "buy milk")) in
  let added := snd (addTodo (render accepting (listing [created]) [] "buy milk")
                            (start [] "buy milk")) in
  (newTodoText (state failed) = "buy milk" /\ todos (state failed) = [older])
  /\ newTodoText (state added) = "".
Proof.
  assert (Htext : String_trim "buy milk" <> "") by (vm_compute; discriminate).
  split.
  - destruct (add_keeps_text_on_failure
                (render rejecting (listing []) [older] "buy milk")
                (start [older] "buy milk") rejecting owner (listing [])
                eq_refl eq_refl eq_refl Htext) as (_ & _ & Hfail).
    destruct (Hfail _ eq_refl) as (Htx & Htodos & _).
    split; [exact Htx | exact Htodos].
  - destruct (add_keeps_text_on_failure
                (render accepting (listing [created]) [] "buy milk")
                (start [] "buy milk") accepting owner (listing [created])
                eq_refl eq_refl eq_refl Htext) as (_ & Hok & _).
    exact (proj1 (Hok eq_refl)).
Defined.

Lemma written_documents_read_back_witness :
  (exists entry,
      written (set_message (render accepting (listing []) [] "buy milk")
                           (start [] "buy milk")) = Some entry
      /\ entry = created)
  /\ (exists entry,
      written (update_message older) = Some entry
      /\ parse_document entry = Ok (toggled older)).
Proof.
  destruct (written_documents_read_back
              (render accepting (listing []) [] "buy milk") (start [] "buy milk")
              older) as [Hadd Htoggle].
  split.
  - destruct Hadd as (entry & Hw & _ & _); [vm_compute; reflexivity|].
    exists entry. split; [exact Hw|].
    vm_compute in Hw. injection Hw as <-. vm_compute. reflexivity.
  - destruct Htoggle as (entry & Hw & _ & Hp); [vm_compute; reflexivity|].
    exists entry. split; [exact Hw | exact Hp].
Defined.

Lemma create_then_listed_witness :
  let r := render accepting (listing [stored older; created]) [older] "buy milk" in
  let w' := snd (addTodo r (start [older] "buy milk")) in
  In (new_todo r (start [older] "buy milk")) (todos (state w'))
  /\ nquery w' = 2%nat /\ slept (trace w') = 0.
Proof.
  assert (Htext : String_trim "buy milk" <> "") by (vm_compute; discriminate).
  assert (Hparse : Forall (fun d => exists t, parse_document d = Ok t)
                          [stored older; created]).
  { repeat constructor; eexists; vm_compute; reflexivity. }
  assert (Hrt : reads_back
                  (new_todo (render accepting (listing [stored older; created])
                                    [older] "buy milk")
                            (start [older] "buy milk")))
    by (vm_compute; reflexivity).
  assert (Hwritten : written
            (set_message (render accepting (listing [stored older; created])
                                 [older] "buy milk")
                         (start [older] "buy milk")) = Some created)
    by (vm_compute; reflexivity).
  destruct (create_then_listed
              (render accepting (listing [stored older; created]) [older] "buy milk")
              (start [older] "buy milk") accepting owner
              (listing [stored older; created]) [stored older; created] created
              eq_refl eq_refl eq_refl Htext eq_refl (fun _ => eq_refl) Hparse
              Hwritten (or_intror (or_introl eq_refl)) Hrt)
    as (Hin & Hnq & Hsl & _).
  split; [exact Hin|]. split; [exact Hnq | exact Hsl].
Defined.

Lemma retry_is_sound_witness :
  (exists k, (k < 3)%nat /\ flaky 2 7 k = Ok 7
             /\ noperation (snd (retryOperation (operation_of (flaky 2 7)) 3 1000
                                                (start [] ""))) = (k + 1)%nat)
  /\ noperation (snd (retryOperation (operation_of (flaky 5 7)) 3 1000
                                     (start [] ""))) = 3%nat
  /\ retryOperation (operation_of (flaky 5 7)) 0 1000 (start [] "")
     = (Throw ThrownNull, start [] "").
Proof.
  split; [|split].
  - destruct (retry_is_sound (flaky 2 7) 3 1000 (start [] "")) as (_ & Hok & _).
    destruct (Hok 7 eq_refl) as (k & Hk & _ & Hv & Hn).
    exists k. split; [exact Hk|]. split; [exact Hv | exact Hn].
  - destruct (retry_is_sound (flaky 5 7) 3 1000 (start [] "")) as (_ & _ & Hthrow).
    destruct (Hthrow _ eq_refl) as (_ & Hn & _). exact Hn.
  - destruct (retry_is_sound (flaky 5 7) 0 1000 (start [] "")) as (_ & _ & Hthrow).
    destruct (Hthrow ThrownNull eq_refl) as (_ & _ & Hnull & _).
    destruct (Hnull eq_refl) as [_ Hw].
    change (retryOperation (operation_of (flaky 5 7)) 0 1000 (start [] ""))
      with (Throw (A := Z) ThrownNull, snd (retryOperation (operation_of (flaky 5 7))
                                              0 1000 (start [] ""))).
    now rewrite Hw.
Defined.

Lemma retry_total_backoff_witness :
  slept (trace (snd (retryOperation (operation_of (flaky 5 7)) 3 1000
                                    (start [] "")))) = 3000
  /\ slept (trace (snd (retryOperation (operation_of (flaky 1 7)) 3 1000
                                       (start [] "")))) = 1000.
Proof.
  split.
  - destruct (retry_total_backoff (flaky 5 7) 3 1000 (start [] ""))
      as (_ & Hthrow & _).
    exact (Hthrow _ eq_refl).
  - destruct (retry_total_backoff (flaky 1 7) 3 1000 (start [] ""))
      as (Hok & _ & _).
    exact (Hok 7 eq_refl).
Defined.

Lemma refresh_ignores_listing_order_witness :
  todos (state (snd (fetchTodos (render accepting (listing [stored older; stored newer]) [] "")
                                (start [] ""))))
  = todos (state (snd (fetchTodos (render accepting (listing [stored newer; stored older]) [] "")
                                  (start [] "")))).
Proof.
  assert (Hdated : Forall dated [older; newer])
    by (repeat constructor; vm_compute; discriminate).
  assert (Hnd : NoDup (map timestamp [older; newer])).
  { vm_compute. repeat constructor; rewrite ?list_elem_of_In; cbn;
      intuition discriminate. }
  assert (Hts : map_outcome parse_document [stored older; stored newer]
                = Ok [older; newer]) by (vm_compute; reflexivity).
  exact (proj1 (refresh_ignores_listing_order
           (render accepting (listing [stored older; stored newer]) [] "")
           (render accepting (listing [stored newer; stored older]) [] "")
           (start [] "") (start [] "")
           (listing [stored older; stored newer]) owner
           (listing [stored newer; stored older]) owner
           [stored older; stored newer] [stored newer; stored older]
           [older; newer]
           eq_refl eq_refl eq_refl eq_refl eq_refl eq_refl
           (perm_swap _ _ _) Hts Hdated Hnd)).
Defined.
End FurtherExamples.

Section ScreenExamples.
Import Demo Samples.
Existing Instance Engine.runtime.

(** Loading a stored profile, with another owner's document listed first. *)
Example profile_scenario :
  fst (snd (Profile.fetchProfile
              (render accepting (listing [stranger; document "xion1owner" alice])
                      [] "")
              (Profile.initialState, start [] "")))
  = Profile.mkState false false alice alice.
Proof. vm_compute. reflexivity. Qed.

Lemma fetchProfile_settles_witness :
  (let s' := fst (snd (Profile.fetchProfile
                         (render accepting (listing [document "xion1owner" alice]) [] "")
                         (profile_cells, start [] ""))) in
   Profile.profile s' = Profile.editedProfile s')
  /\ (let s' := fst (snd (Profile.fetchProfile signed_out
                                               (profile_cells, start [] ""))) in
      Profile.editedProfile s' = alice /\ Profile.loading s' = false).
Proof.
  split.
  - destruct (fetchProfile_settles
                (render accepting (listing [document "xion1owner" alice]) [] "")
                profile_cells (start [] "")) as (_ & _ & _ & _ & _ & _ & Hready & _).
    exact (proj1 (Hready eq_refl)).
  - destruct (fetchProfile_settles signed_out profile_cells (start [] ""))
      as (_ & Hld & _ & _ & _ & _ & _ & Hidle).
    destruct (Hidle eq_refl) as (_ & He & _).
    split; [exact He | exact Hld].
Defined.

Lemma fetchProfile_own_document_witness :
  Profile.profile
    (fst (snd (Profile.fetchProfile
                 (render accepting
                         (listing [stranger; document "xion1owner" alice; garbled])
                         [] "")
                 (Profile.initialState, start [] "")))) = alice.
Proof.
  assert (Hbefore : Forall (fun d : string * Doc => fst d <> "xion1owner") [stranger])
    by (repeat constructor; discriminate).
  assert (Hparse : JSON_parse (ToString (data (snd (document "xion1owner" alice))))
                   = Some alice) by (vm_compute; reflexivity).
  exact (proj1 (fetchProfile_own_document
           (render accepting
                   (listing [stranger; document "xion1owner" alice; garbled]) [] "")
           Profile.initialState (start [] "")
           (listing [stranger; document "xion1owner" alice; garbled])
           "xion1owner" [stranger] [garbled] (document "xion1owner" alice) alice
           eq_refl eq_refl eq_refl Hbefore eq_refl Hparse)).
Defined.

Lemma fetchProfile_falls_back_witness :
  Profile.profile
    (fst (snd (Profile.fetchProfile
                 (render accepting (listing [stranger; garbled]) [] "")
                 (profile_cells, start [] "")))) = Profile.emptyProfile
  /\ Profile.editedProfile
       (fst (snd (Profile.fetchProfile (render accepting unreachable [] "")
                                       (profile_cells, start [] ""))))
     = Profile.emptyProfile.
Proof.
  split.
  - destruct (fetchProfile_falls_back
                (render accepting (listing [stranger; garbled]) [] "")
                profile_cells (start [] "") (listing [stranger; garbled])
                "xion1owner" eq_refl eq_refl) as (_ & Hp & _).
    + right. right. right. exists [stranger; garbled].
      split; [reflexivity|]. right. exists garbled.
      split; vm_compute; reflexivity.
    + exact Hp.
  - destruct (fetchProfile_falls_back
                (render accepting unreachable [] "")
                profile_cells (start [] "") unreachable
                "xion1owner" eq_refl eq_refl) as (_ & _ & He & _).
    + left. eexists. reflexivity.
    + exact He.
Defined.

Lemma updateProfile_outcomes_witness :
  let saved := fst (snd (Profile.updateProfile
                           (render accepting (listing []) [] "") alice
                           (profile_cells, start [] ""))) in
  let failed := fst (snd (Profile.updateProfile
                            (render rejecting (listing []) [] "") alice
                            (profile_cells, start [] ""))) in
  (Profile.profile saved = alice /\ Profile.isEditing saved = false)
  /\ (Profile.profile failed = JNull /\ Profile.isEditing failed = true).
Proof.
  split.
  - destruct (updateProfile_outcomes
                (render accepting (listing []) [] "") alice profile_cells
                (start [] "") accepting owner eq_refl eq_refl)
      as (_ & _ & _ & _ & _ & Hok & _).
    destruct (Hok eq_refl) as (Hp & He & _). split; [exact Hp | exact He].
  - destruct (updateProfile_outcomes
                (render rejecting (listing []) [] "") alice profile_cells
                (start [] "") rejecting owner eq_refl eq_refl)
      as (_ & _ & _ & _ & _ & _ & Hfail).
    destruct (Hfail _ eq_refl) as (Hp & He & _). split; [exact Hp | exact He].
Defined.

Lemma profile_save_then_load_witness :
  let r := render accepting (listing [stranger; document "xion1owner" alice]) [] "" in
  let saved := snd (Profile.updateProfile r alice (profile_cells, start [] "")) in
  Profile.profile (fst (snd (Profile.fetchProfile r saved))) = alice.
Proof.
  assert (Hfind : find_document "xion1owner" [stranger; document "xion1owner" alice]
                  = written (MsgSet "profiles" "xion1owner" (JSON_stringify alice)))
    by (vm_compute; reflexivity).
  assert (Hrt : value_reads_back alice) by (vm_compute; reflexivity).
  exact (proj1 (profile_save_then_load
           (render accepting (listing [stranger; document "xion1owner" alice]) [] "")
           alice profile_cells (start [] "") accepting owner
           (listing [stranger; document "xion1owner" alice])
           [stranger; document "xion1owner" alice]
           eq_refl eq_refl eq_refl ltac:(discriminate) eq_refl eq_refl
           Hfind Hrt)).
Defined.

Lemma edit_form_changes_one_field_witness :
  let typed := fst (snd (Profile.changeField "bio" alice "gardener"
                                             (profile_cells, start [] ""))) in
  (get_prop (Profile.editedProfile typed) "bio" = Ok (JStr "gardener")
   /\ get_prop (Profile.editedProfile typed) "displayName" = Ok (JStr "Alice"))
  /\ raises (fst (Profile.changeSocialLink "github" JNull "x"
                                           (profile_cells, start [] ""))) = true
  /\ Profile.editedProfile
       (fst (snd (Profile.cancelEdit Profile.emptyProfile alice
                                     (profile_cells, start [] ""))))
     = Profile.emptyProfile.
Proof.
  split; [|split].
  - destruct (edit_form_changes_one_field profile_cells (start [] "") alice
                "bio" "github" "gardener") as ((_ & Hsame & Hother) & _).
    split; [exact Hsame|].
    exact (Hother _ "displayName" eq_refl ltac:(discriminate)).
  - destruct (edit_form_changes_one_field profile_cells (start [] "") JNull
                "bio" "github" "x") as (_ & _ & Hnull & _).
    exact (proj1 (Hnull eq_refl)).
  - destruct (edit_form_changes_one_field profile_cells (start [] "") alice
                "bio" "github" "x") as (_ & _ & _ & Hcancel).
    destruct (Hcancel Profile.emptyProfile) as (_ & _ & Hsaved & _).
    exact (Hsaved eq_refl).
Defined.

Lemma fetchSettings_own_or_default_witness :
  Settings.settings
    (fst (snd (Settings.fetchSettings
                 (render accepting (listing [stranger]) [] "")
                 (settings_cells, start [] "")))) = Settings.defaultSettings
  /\ Settings.settings
       (fst (snd (Settings.fetchSettings
                    (render accepting
                            (listing [stranger; document "xion1owner" dark_off])
                            [] "")
                    (settings_cells, start [] "")))) = dark_off.
Proof.
  split.
  - destruct (fetchSettings_own_or_default
                (render accepting (listing [stranger]) [] "")
                settings_cells (start [] "") (listing [stranger]) "xion1owner"
                eq_refl eq_refl) as (_ & _ & _ & _ & Hdefault & _).
    apply Hdefault. right. right. right. exists [stranger].
    split; [reflexivity|]. left. reflexivity.
  - destruct (fetchSettings_own_or_default
                (render accepting
                        (listing [stranger; document "xion1owner" dark_off]) [] "")
                settings_cells (start [] "")
                (listing [stranger; document "xion1owner" dark_off]) "xion1owner"
                eq_refl eq_refl) as (_ & _ & _ & Hown & _).
    apply (Hown [stranger] (document "xion1owner" dark_off) [] dark_off eq_refl).
    + repeat constructor; discriminate.
    + reflexivity.
    + vm_compute. reflexivity.
Defined.

Lemma switch_changes_one_setting_witness :
  let switched := fst (snd (Settings.switchSetting
                              (render accepting (listing []) [] "")
                              Settings.startSettings "darkMode" false
                              (settings_cells, start [] ""))) in
  let failed := fst (snd (Settings.switchSetting
                            (render rejecting (listing []) [] "")
                            Settings.startSettings "darkMode" false
                            (settings_cells, start [] ""))) in
  (get_prop (Settings.settings switched) "darkMode" = Ok (JBool false)
   /\ get_prop (Settings.settings switched) "language" = Ok (JStr "en"))
  /\ Settings.settings failed = Settings.startSettings.
Proof.
  split.
  - destruct (switch_changes_one_setting
                (render accepting (listing []) [] "") settings_cells (start [] "")
                accepting owner
                [("darkMode", JBool true); ("notifications", JBool true);
                 ("language", JStr "en"); ("timezone", JStr "UTC")]
                "darkMode" false eq_refl eq_refl)
      as (_ & _ & _ & _ & Hok & _).
    destruct (Hok eq_refl) as (Hsame & Hother & _).
    split; [exact Hsame|].
    exact (Hother "language" ltac:(discriminate)).
  - destruct (switch_changes_one_setting
                (render rejecting (listing []) [] "") settings_cells (start [] "")
                rejecting owner
                [("darkMode", JBool true); ("notifications", JBool true);
                 ("language", JStr "en"); ("timezone", JStr "UTC")]
                "darkMode" false eq_refl eq_refl)
      as (_ & _ & _ & _ & _ & Hfail).
    exact (proj1 (Hfail _ eq_refl)).
Defined.

Lemma settings_save_then_load_witness :
  let r := render accepting (listing [document "xion1owner" dark_off]) [] "" in
  let saved := snd (Settings.updateSettings r dark_off
                                            (settings_cells, start [] "")) in
  Settings.settings (fst (snd (Settings.fetchSettings r saved))) = dark_off.
Proof.
  assert (Hfind : find_document "xion1owner" [document "xion1owner" dark_off]
                  = written (MsgSet "settings" "xion1owner"
                                    (JSON_stringify dark_off)))
    by (vm_compute; reflexivity).
  assert (Hrt : value_reads_back dark_off) by (vm_compute; reflexivity).
  exact (proj1 (settings_save_then_load
           (render accepting (listing [document "xion1owner" dark_off]) [] "")
           dark_off settings_cells (start [] "") accepting owner
           (listing [document "xion1owner" dark_off])
           [document "xion1owner" dark_off]
           eq_refl eq_refl eq_refl ltac:(discriminate) eq_refl eq_refl
           Hfind Hrt)).
Defined.

Lemma account_effects_clear_loading_witness :
  let pe := Profile.accountEffect signed_out false
                                  (Profile.initialState, start [] "") in
  (Profile.loading (fst (snd pe)) = false /\ nquery (snd (snd pe)) = 0%nat)
  /\ Settings.appStateListener (render accepting (listing []) [] "") true
                               "background" (settings_cells, start [] "")
     = (Ok tt, (settings_cells, start [] "")).
Proof.
  split.
  - destruct (account_effects_clear_loading signed_out false "active"
                (start [] "") Profile.initialState settings_cells)
      as ((_ & Hld & _) & _ & Hoff & _).
    split; [exact Hld|]. exact (proj1 (Hoff (or_introl eq_refl))).
  - destruct (account_effects_clear_loading
                (render accepting (listing []) [] "") true "background"
                (start [] "") Profile.initialState settings_cells)
      as (_ & _ & _ & Hlistener).
    exact (proj2 (Hlistener eq_refl)).
Defined.
End ScreenExamples.
